(** * SIP.js publication and subscription engines

    A shallow embedding of [src/api/publisher.ts] and [src/api/subscriber.ts]
    and the properties their specification states about them.

    Every method of the two classes is a computation in a small
    state-and-exception monad over a record holding the object's fields
    together with the part of its environment the method touches (the user
    agent's collections, the pending timeouts, the requests handed to the
    request core, the emitted state events). A JavaScript [throw] keeps the
    mutations made before it, so a computation returns its final state in
    both outcomes. *)

From Stdlib Require Import ZArith QArith Lia Bool List String Ascii DecimalString.
From stdpp Require Import base gmap strings list.

(** ** ECMAScript values *)

Module Js.

(** A Number is NaN, an infinity or a finite double, kept as the
    rational it denotes (the two zeros are identified, as every operator
    used here does).  Comparisons and the remainder are exact on
    doubles; the product is rounded, by [round_to_double] below. *)
Inductive number : Type :=
| NaN
| Infinity (negative : bool)
| Finite (q : Q).

Inductive value : Type :=
| Undefined
| Null
| Boolean (b : bool)
| Number (n : number)
| String (s : string)
| Object.

Definition typeof (v : value) : string :=
  match v with
  | Undefined => "undefined"
  | Null => "object"
  | Boolean _ => "boolean"
  | Number _ => "number"
  | String _ => "string"
  | Object => "object"
  end.

Definition of_Z (z : Z) : number := Finite (inject_Z z).

(** [a === b] on Numbers. *)
Definition strict_eq (a b : number) : bool :=
  match a, b with
  | Finite x, Finite y => Qeq_bool x y
  | Infinity s, Infinity t => Bool.eqb s t
  | _, _ => false
  end.

(** [a !== b] on Numbers. *)
Definition strict_neq (a b : number) : bool := negb (strict_eq a b).

(** [a < b] on Numbers; false as soon as one side is NaN. *)
Definition lt (a b : number) : bool :=
  match a, b with
  | NaN, _ | _, NaN => false
  | Infinity s, Infinity t => s && negb t
  | Infinity s, Finite _ => s
  | Finite _, Infinity t => negb t
  | Finite x, Finite y => negb (Qle_bool y x)
  end.

(** [a <= b] on Numbers; false as soon as one side is NaN. *)
Definition le (a b : number) : bool :=
  match a, b with
  | NaN, _ | _, NaN => false
  | Infinity s, Infinity t => s || negb t
  | Infinity s, Finite _ => s
  | Finite _, Infinity t => negb t
  | Finite x, Finite y => Qle_bool x y
  end.

Definition gt (a b : number) : bool := lt b a.
Definition ge (a b : number) : bool := le b a.

Definition Qsign_negative (q : Q) : bool := (Qnum q <? 0)%Z.

(** *** Rounding to a double *)

(** [n / d / 2^e] as a fraction of two integers. *)
Definition scaled (n : Z) (d : positive) (e : Z) : Z * Z :=
  if (0 <=? e)%Z then (n, Zpos d * 2 ^ e)%Z else (n * 2 ^ (- e), Zpos d)%Z.

(** The integer nearest to [num / den], the even one of two that are
    equally near. *)
Definition nearest_even (num den : Z) : Z :=
  let q := (num / den)%Z in
  let r := (num mod den)%Z in
  match (2 * r ?= den)%Z with
  | Lt => q
  | Gt => (q + 1)%Z
  | Eq => if Z.even q then q else (q + 1)%Z
  end.

(** The exponent [l] with [2^l <= n / d < 2^(l+1)], for [n > 0]. *)
Definition floor_log2 (n : Z) (d : positive) : Z :=
  let l0 := (Z.log2 n - Z.log2 (Zpos d))%Z in
  let '(a, b) := scaled n d l0 in
  if (a <? b)%Z then (l0 - 1)%Z else l0.

(** The double nearest to a rational, ties to even, which is how every
    arithmetic operator rounds its exact result (IEEE 754 binary64): 53
    significant bits, exponents of the last bit from -1074 on, and an
    infinity once the rounded value reaches [2^1024]. *)
Definition round_to_double (q : Q) : number :=
  let q' := Qred q in
  let n := Z.abs (Qnum q') in
  let d := Qden q' in
  let negative := (Qnum q' <? 0)%Z in
  if (n =? 0)%Z then Finite 0
  else
    let e := Z.max (floor_log2 n d - 52) (-1074) in
    let '(a, b) := scaled n d e in
    let m := nearest_even a b in
    let s := if negative then (-1)%Z else 1%Z in
    if (0 <=? e)%Z then
      if (2 ^ 1024 <=? m * 2 ^ e)%Z then Infinity negative
      else Finite (inject_Z (s * m * 2 ^ e))
    else Finite ((s * m) # Z.to_pos (2 ^ (- e))).

(** [a * b] on Numbers: the exact product of two doubles, rounded. *)
Definition mul (a b : number) : number :=
  match a, b with
  | NaN, _ | _, NaN => NaN
  | Infinity s, Infinity t => Infinity (xorb s t)
  | Infinity s, Finite y =>
      if Qeq_bool y 0 then NaN else Infinity (xorb s (Qsign_negative y))
  | Finite x, Infinity t =>
      if Qeq_bool x 0 then NaN else Infinity (xorb (Qsign_negative x) t)
  | Finite x, Finite y => round_to_double (x * y)
  end.

(** Rounding towards zero. *)
Definition Qtrunc (q : Q) : Z := Z.quot (Qnum q) (Zpos (Qden q)).

(** [a % b] on Numbers: the remainder has the sign of the dividend. *)
Definition rem (a b : number) : number :=
  match a, b with
  | NaN, _ | _, NaN => NaN
  | Infinity _, _ => NaN
  | Finite x, Infinity _ => Finite x
  | Finite x, Finite y =>
      if Qeq_bool y 0 then NaN
      else Finite (x - y * inject_Z (Qtrunc (x / y)))
  end.

(** The mathematical integers among the Numbers. *)
Definition is_integer (n : number) : Prop :=
  exists z : Z, match n with Finite q => Qeq q (inject_Z z) | _ => False end.

(** [Number.prototype.toString] on an integral value below 1e21, and the
    only form a three-digit status code can take. *)
Definition toString (z : Z) : string := NilZero.string_of_int (Z.to_int z).

Definition is_digit (c : ascii) : bool :=
  let n := nat_of_ascii c in (48 <=? n)%nat && (n <=? 57)%nat.

(** [/^d[0-9]{2}$/.test(s)] for a literal first character [d]. *)
Definition test_class (d : ascii) (s : string) : bool :=
  match s with
  | String.String c0 (String.String c1 (String.String c2 EmptyString)) =>
      Ascii.eqb c0 d && is_digit c1 && is_digit c2
  | _ => false
  end.

(** [/^lit$/.test(s)] for a literal without metacharacters. *)
Definition test_exact (lit s : string) : bool := String.eqb s lit.

(** The double quote, as a string of one character. *)
Definition quote : string :=
  String.String (Ascii.Ascii false true false false false true false false) EmptyString.

(** [x !== undefined]. *)
Definition defined {A} (x : option A) : bool :=
  match x with
  | Some _ => true
  | None => false
  end.

(** A settled promise, as returned by [Promise.resolve] and
    [Promise.reject], or a promise still pending when the call returns. *)
Inductive Promise (A : Type) : Type :=
| Resolved (a : A)
| Rejected (message : string)
| Pending.
Arguments Resolved {A} a.
Arguments Rejected {A} message.
Arguments Pending {A}.

End Js.

Coercion Js.of_Z : Z >-> Js.number.

(** ** Computations that mutate a state and may throw *)

Inductive Outcome (A : Type) : Type :=
| Return (a : A)
| Throw (message : string).
Arguments Return {A} a.
Arguments Throw {A} message.

Definition M (S A : Type) : Type := S -> Outcome A * S.

Definition ret {S A} (a : A) : M S A := fun s => (Return a, s).
Definition throw {S A} (message : string) : M S A := fun s => (Throw message, s).
Definition bind {S A B} (c : M S A) (k : A -> M S B) : M S B :=
  fun s => match c s with
           | (Return a, s') => k a s'
           | (Throw e, s') => (Throw e, s')
           end.
Definition get {S} : M S S := fun s => (Return s, s).
Definition modify {S} (f : S -> S) : M S unit := fun s => (Return tt, f s).
Definition when {S} (b : bool) (c : M S unit) : M S unit := if b then c else ret tt.

Declare Scope js_scope.
Delimit Scope js_scope with js.
Notation "x <- c1 ;; c2" := (bind c1 (fun x => c2))
  (at level 100, c1 at next level, right associativity) : js_scope.
Notation "c1 ;; c2" := (bind c1 (fun _ => c2))
  (at level 100, right associativity) : js_scope.

(** The state a computation ends in, whatever its outcome. *)
Definition final {S A} (r : Outcome A * S) : S := snd r.
Definition outcome {S A} (r : Outcome A * S) : Outcome A := fst r.

(** A property of the state that a computation keeps, whatever its
    outcome. *)
Definition stable {S A} (P : S -> Prop) (c : M S A) : Prop :=
  forall s, P s -> P (final (c s)).

Definition URI : Type := string.

(** ** What the request core builds (left uninterpreted) *)

Module Core.

(** The [params] bucket, as far as the engines read it. *)
Record Params : Type := { fromUri : option URI; toUri : option URI }.

Definition no_params : Params := {| fromUri := None; toUri := None |}.

(** A header line.  The lines the engines push are kept apart from the
    caller's own lines by their constructor, which stands for the prefix
    the source concatenates (["Allow: "], ["Event: "], ["Expires: "],
    ["Contact: "], ["SIP-If-Match: "]). *)
Inductive Header : Type :=
| Extra (line : string)
| Allow (methods : string)
| Event (eventType : string)
| Expires (seconds : Js.number)
| Contact (uri : string)
| SIP_If_Match (etag : string).

Record BodyAndContentType : Type := { bc_body : string; bc_contentType : string }.

(** A message body: the object literal the publisher's constructor
    builds, or the result of the core's [fromBodyLegacy], left
    uninterpreted. *)
Inductive Body : Type :=
| BodyLiteral (contentDisposition contentType content : string)
| fromBodyLegacy (b : BodyAndContentType).

(** The result of the core's [makeOutgoingRequestMessage], left
    uninterpreted: a message is its seven arguments. *)
Inductive OutgoingRequestMessage : Type :=
| makeOutgoingRequestMessage
    (method : string) (ruri fromURI toURI : URI) (params : Params)
    (extraHeaders : list Header) (body : option Body).

Definition headers (m : OutgoingRequestMessage) : list Header :=
  match m with makeOutgoingRequestMessage _ _ _ _ _ h _ => h end.
Definition message_body (m : OutgoingRequestMessage) : option Body :=
  match m with makeOutgoingRequestMessage _ _ _ _ _ _ b => b end.
Definition message_method (m : OutgoingRequestMessage) : string :=
  match m with makeOutgoingRequestMessage x _ _ _ _ _ _ => x end.

Inductive LogLevel : Type := LogLog | LogWarn.

End Core.

(** ** The publication engine ([src/api/publisher.ts]) *)

Module Publisher.

Import Core.

(** [PublisherState] (publisher-state.ts); the enumeration's values are
    the member names, which is what the log messages print. *)
Inductive PublisherState : Type := Initial | Published | Unpublished | Terminated.

Definition PublisherState_eqb (a b : PublisherState) : bool :=
  match a, b with
  | Initial, Initial | Published, Published
  | Unpublished, Unpublished | Terminated, Terminated => true
  | _, _ => false
  end.

Definition show (s : PublisherState) : string :=
  match s with
  | Initial => "Initial"
  | Published => "Published"
  | Unpublished => "Unpublished"
  | Terminated => "Terminated"
  end.

(** [PublisherOptions] as the caller passes it: [expires] and
    [unpublishOnClose] are inspected with [typeof], so they are
    arbitrary values. *)
Record PublisherOptionsArg : Type := {
  arg_body : option string;
  arg_contentType : option string;
  arg_expires : Js.value;
  arg_extraHeaders : option (list string);
  arg_params : option Params;
  arg_unpublishOnClose : Js.value
}.

(** [PublisherOptions] as the publisher keeps it in [this.options]. *)
Record PublisherOptions : Type := {
  body : option string;
  contentType : option string;
  expires : option Js.number;
  extraHeaders : option (list string);
  params : option Params;
  unpublishOnClose : option bool
}.

(** The fields of a [Publisher]. *)
Record Publisher : Type := {
  event : string;
  options : PublisherOptions;
  target : URI;
  pubRequestBody : option string;
  pubRequestExpires : Js.number;
  pubRequestEtag : option string;
  publishRefreshTimer : option positive;
  disposed : bool;
  id : string;
  request : OutgoingRequestMessage;
  _state : PublisherState
}.

(** A pending [setTimeout]: its handle, the delay in milliseconds it was
    given, and its callback.  The publisher has one callback,
    [() => this.refreshRequest()]. *)
Inductive Callback : Type := CallRefreshRequest.
Record Timeout : Type := { handle : positive; delay : Js.number; callback : Callback }.

(** A publisher within its surroundings: [self] is the identity of the
    object, [_publishers] the user agent's collection (identifier to
    object), [aor] the user agent's address of record, [timeouts] the
    pending timeouts, [sent] the requests handed to
    [userAgentCore.publish], oldest first, [emitted] the state events
    emitted, oldest first. *)
Record World : Type := {
  this : Publisher;
  self : nat;
  _publishers : gmap string nat;
  aor : URI;
  timeouts : list Timeout;
  next_handle : positive;
  sent : list OutgoingRequestMessage;
  emitted : list PublisherState;
  logged : list (LogLevel * string)
}.

(** *** Assignments *)

Definition set_body (v : option string) (o : PublisherOptions) : PublisherOptions :=
  {| body := v; contentType := contentType o; expires := expires o;
     extraHeaders := extraHeaders o; params := params o;
     unpublishOnClose := unpublishOnClose o |}.

Definition set_options (f : PublisherOptions -> PublisherOptions) (p : Publisher) : Publisher :=
  {| event := event p; options := f (options p); target := target p;
     pubRequestBody := pubRequestBody p; pubRequestExpires := pubRequestExpires p;
     pubRequestEtag := pubRequestEtag p; publishRefreshTimer := publishRefreshTimer p;
     disposed := disposed p; id := id p; request := request p; _state := _state p |}.

Definition set_pubRequestBody (v : option string) (p : Publisher) : Publisher :=
  {| event := event p; options := options p; target := target p;
     pubRequestBody := v; pubRequestExpires := pubRequestExpires p;
     pubRequestEtag := pubRequestEtag p; publishRefreshTimer := publishRefreshTimer p;
     disposed := disposed p; id := id p; request := request p; _state := _state p |}.

Definition set_pubRequestExpires (v : Js.number) (p : Publisher) : Publisher :=
  {| event := event p; options := options p; target := target p;
     pubRequestBody := pubRequestBody p; pubRequestExpires := v;
     pubRequestEtag := pubRequestEtag p; publishRefreshTimer := publishRefreshTimer p;
     disposed := disposed p; id := id p; request := request p; _state := _state p |}.

Definition set_pubRequestEtag (v : option string) (p : Publisher) : Publisher :=
  {| event := event p; options := options p; target := target p;
     pubRequestBody := pubRequestBody p; pubRequestExpires := pubRequestExpires p;
     pubRequestEtag := v; publishRefreshTimer := publishRefreshTimer p;
     disposed := disposed p; id := id p; request := request p; _state := _state p |}.

Definition set_publishRefreshTimer (v : option positive) (p : Publisher) : Publisher :=
  {| event := event p; options := options p; target := target p;
     pubRequestBody := pubRequestBody p; pubRequestExpires := pubRequestExpires p;
     pubRequestEtag := pubRequestEtag p; publishRefreshTimer := v;
     disposed := disposed p; id := id p; request := request p; _state := _state p |}.

Definition set_disposed (v : bool) (p : Publisher) : Publisher :=
  {| event := event p; options := options p; target := target p;
     pubRequestBody := pubRequestBody p; pubRequestExpires := pubRequestExpires p;
     pubRequestEtag := pubRequestEtag p; publishRefreshTimer := publishRefreshTimer p;
     disposed := v; id := id p; request := request p; _state := _state p |}.

Definition set_request (v : OutgoingRequestMessage) (p : Publisher) : Publisher :=
  {| event := event p; options := options p; target := target p;
     pubRequestBody := pubRequestBody p; pubRequestExpires := pubRequestExpires p;
     pubRequestEtag := pubRequestEtag p; publishRefreshTimer := publishRefreshTimer p;
     disposed := disposed p; id := id p; request := v; _state := _state p |}.

Definition set__state (v : PublisherState) (p : Publisher) : Publisher :=
  {| event := event p; options := options p; target := target p;
     pubRequestBody := pubRequestBody p; pubRequestExpires := pubRequestExpires p;
     pubRequestEtag := pubRequestEtag p; publishRefreshTimer := publishRefreshTimer p;
     disposed := disposed p; id := id p; request := request p; _state := v |}.

Definition set_this (f : Publisher -> Publisher) (w : World) : World :=
  {| this := f (this w); self := self w; _publishers := _publishers w; aor := aor w;
     timeouts := timeouts w; next_handle := next_handle w; sent := sent w;
     emitted := emitted w; logged := logged w |}.

Definition set__publishers (f : gmap string nat -> gmap string nat) (w : World) : World :=
  {| this := this w; self := self w; _publishers := f (_publishers w); aor := aor w;
     timeouts := timeouts w; next_handle := next_handle w; sent := sent w;
     emitted := emitted w; logged := logged w |}.

Definition set_timeouts (f : list Timeout -> list Timeout) (w : World) : World :=
  {| this := this w; self := self w; _publishers := _publishers w; aor := aor w;
     timeouts := f (timeouts w); next_handle := next_handle w; sent := sent w;
     emitted := emitted w; logged := logged w |}.

Definition set_next_handle (v : positive) (w : World) : World :=
  {| this := this w; self := self w; _publishers := _publishers w; aor := aor w;
     timeouts := timeouts w; next_handle := v; sent := sent w;
     emitted := emitted w; logged := logged w |}.

Definition set_sent (f : list OutgoingRequestMessage -> list OutgoingRequestMessage)
    (w : World) : World :=
  {| this := this w; self := self w; _publishers := _publishers w; aor := aor w;
     timeouts := timeouts w; next_handle := next_handle w; sent := f (sent w);
     emitted := emitted w; logged := logged w |}.

Definition set_emitted (f : list PublisherState -> list PublisherState) (w : World) : World :=
  {| this := this w; self := self w; _publishers := _publishers w; aor := aor w;
     timeouts := timeouts w; next_handle := next_handle w; sent := sent w;
     emitted := f (emitted w); logged := logged w |}.

Definition set_logged (f : list (LogLevel * string) -> list (LogLevel * string))
    (w : World) : World :=
  {| this := this w; self := self w; _publishers := _publishers w; aor := aor w;
     timeouts := timeouts w; next_handle := next_handle w; sent := sent w;
     emitted := emitted w; logged := f (logged w) |}.

(** *** The environment's primitives *)

Local Open Scope js_scope.

Definition read {A} (f : Publisher -> A) : M World A :=
  fun w => (Return (f (this w)), w).
Definition assign (f : Publisher -> Publisher) : M World unit :=
  modify (set_this f).

Definition log (message : string) : M World unit :=
  modify (set_logged (fun l => l ++ [(LogLog, message)])).
Definition warn (message : string) : M World unit :=
  modify (set_logged (fun l => l ++ [(LogWarn, message)])).

(** [setTimeout(callback, delay)]: a fresh handle, the timeout pending. *)
Definition setTimeout (cb : Callback) (ms : Js.number) : M World positive :=
  fun w =>
    let h := next_handle w in
    (Return h,
     set_next_handle (Pos.succ h)
       (set_timeouts (fun l => l ++ [{| handle := h; delay := ms; callback := cb |}]) w)).

(** [clearTimeout(handle)]: the timeout is no longer pending. *)
Definition clearTimeout (h : positive) : M World unit :=
  modify (set_timeouts (List.filter (fun t => negb (Pos.eqb (handle t) h)))).

(** [this._stateEventEmitter.emit(state)]. *)
Definition emit (s : PublisherState) : M World unit :=
  modify (set_emitted (fun l => l ++ [s])).

(** The block every method opens with:
    [if (this.publishRefreshTimer) { clearTimeout(this.publishRefreshTimer);
    this.publishRefreshTimer = undefined; }].  Handles are positive, so a
    stored handle is truthy. *)
Definition clearRefreshTimer : M World unit :=
  t <- read publishRefreshTimer ;;
  match t with
  | Some h => clearTimeout h ;; assign (set_publishRefreshTimer None)
  | None => ret tt
  end.

(** *** Methods *)

(** [send()]: the request goes to [userAgentCore.publish]; the five
    callbacks it registers all run [receiveResponse] when the core
    delivers a response. *)
Definition send : M World unit :=
  r <- read request ;;
  modify (set_sent (fun l => l ++ [r])).

Definition sendPublishRequest : M World unit :=
  p <- read (fun p => p) ;;
  a <- (fun w => (Return (aor w), w)) ;;
  let extraHeaders0 := List.map Extra (default [] (extraHeaders (options p))) in
  let extraHeaders1 := extraHeaders0 ++ [Event (event p)] in
  let extraHeaders2 := extraHeaders1 ++ [Expires (pubRequestExpires p)] in
  let extraHeaders3 :=
    match pubRequestEtag p with
    | Some etag => extraHeaders2 ++ [SIP_If_Match etag]
    | None => extraHeaders2
    end in
  let ruri := target p in
  let params_ := default no_params (params (options p)) in
  bodyAndContentType <-
    match pubRequestBody p with
    | Some b =>
        match contentType (options p) with
        | None => throw "Content type undefined."
        | Some ct => ret (Some {| bc_body := b; bc_contentType := ct |})
        end
    | None => ret None
    end ;;
  let body_ := option_map fromBodyLegacy bodyAndContentType in
  assign (set_request
    (makeOutgoingRequestMessage "PUBLISH" ruri
       (match fromUri params_ with Some u => u | None => a end)
       (match toUri params_ with Some u => u | None => target p end)
       params_ extraHeaders3 body_)) ;;
  send.

Definition unpublish : M World (Js.Promise unit) :=
  clearRefreshTimer ;;
  assign (set_pubRequestBody None) ;;
  assign (set_pubRequestExpires 0%Z) ;;
  etag <- read pubRequestEtag ;;
  match etag with
  | Some _ => sendPublishRequest
  | None => ret tt
  end ;;
  ret (Js.Resolved tt).

Definition publish (content : string) : M World (Js.Promise unit) :=
  clearRefreshTimer ;;
  assign (set_options (set_body (Some content))) ;;
  o <- read options ;;
  assign (set_pubRequestBody (body o)) ;;
  e <- read pubRequestExpires ;;
  (if Js.strict_eq e 0%Z then
     match expires o with
     | None => throw "Expires undefined."
     | Some x =>
         assign (set_pubRequestExpires x) ;;
         assign (set_pubRequestEtag None)
     end
   else ret tt) ;;
  sendPublishRequest ;;
  ret (Js.Resolved tt).

Definition dispose : M World (Js.Promise unit) :=
  d <- read disposed ;;
  if d then ret (Js.Resolved tt)
  else
    assign (set_disposed true) ;;
    p <- read (fun p => p) ;;
    log ("Publisher " +:+ id p +:+ " in state " +:+ show (_state p)
         +:+ " is being disposed") ;;
    modify (set__publishers (delete (id p))) ;;
    if default false (unpublishOnClose (options p))
       && PublisherState_eqb (_state p) Published
    then unpublish
    else
      clearRefreshTimer ;;
      assign (set_pubRequestBody None) ;;
      assign (set_pubRequestExpires 0%Z) ;;
      assign (set_pubRequestEtag None) ;;
      ret (Js.Resolved tt).

(** [stateTransition]: the [default] arm of the source's [switch] cannot
    be reached, the enumeration having four members. *)
Definition stateTransition (newState : PublisherState) : M World unit :=
  s <- read _state ;;
  let invalidTransition : M World unit :=
    throw ("Invalid state transition from " +:+ show s +:+ " to " +:+ show newState) in
  let differs := fun x => negb (PublisherState_eqb newState x) in
  match s with
  | Initial =>
      when (differs Published && differs Unpublished && differs Terminated)
        invalidTransition
  | Published =>
      when (differs Unpublished && differs Terminated) invalidTransition
  | Unpublished =>
      when (differs Published && differs Terminated) invalidTransition
  | Terminated => invalidTransition
  end ;;
  assign (set__state newState) ;;
  log ("Publication transitioned to state " +:+ show newState) ;;
  emit newState ;;
  if PublisherState_eqb newState Terminated
  then dispose ;; ret tt
  else ret tt.

Definition refreshRequest : M World unit :=
  clearRefreshTimer ;;
  assign (set_pubRequestBody None) ;;
  p <- read (fun p => p) ;;
  match pubRequestEtag p with
  | None => throw "Etag undefined"
  | Some _ =>
      if Js.strict_eq (pubRequestExpires p) 0%Z then throw "Expires zero"
      else sendPublishRequest
  end.

(** An [IncomingResponseMessage], as far as [receiveResponse] reads it:
    the status code, and for each header it asks for, [None] when
    [hasHeader] is false and otherwise what the source makes of
    [getHeader]: the string itself for [SIP-ETag], [Number(...)] of it
    for [Expires] and [Min-Expires]. *)
Record IncomingResponseMessage : Type := {
  statusCode : option Z;
  header_SIP_ETag : option string;
  header_Expires : option Js.number;
  header_Min_Expires : option Js.number
}.

(** The three statements every unrecoverable arm consists of. *)
Definition giveUp : M World unit :=
  assign (set_pubRequestExpires 0%Z) ;;
  stateTransition Unpublished ;;
  stateTransition Terminated.

Definition receiveResponse (response : IncomingResponseMessage) : M World unit :=
  let statusCode_ : Z := default 0%Z (statusCode response) in
  let code := Js.toString statusCode_ in
  (if Js.test_class "1" code then ret tt
   else if Js.test_class "2" code then
     match header_SIP_ETag response with
     | Some etag => assign (set_pubRequestEtag (Some etag))
     | None => warn "SIP-ETag header missing in a 200-class response to PUBLISH"
     end ;;
     match header_Expires response with
     | Some expires_ =>
         requested <- read pubRequestExpires ;;
         if String.eqb (Js.typeof (Js.Number expires_)) "number"
            && Js.ge expires_ 0%Z && Js.le expires_ requested
         then assign (set_pubRequestExpires expires_)
         else warn "Bad Expires header in a 200-class response to PUBLISH"
     | None => warn "Expires header missing in a 200-class response to PUBLISH"
     end ;;
     granted <- read pubRequestExpires ;;
     if Js.strict_neq granted 0%Z then
       h <- setTimeout CallRefreshRequest (Js.mul granted 900%Z) ;;
       assign (set_publishRefreshTimer (Some h)) ;;
       s <- read _state ;;
       when (negb (PublisherState_eqb s Published)) (stateTransition Published)
     else stateTransition Unpublished
   else if Js.test_exact "412" code then
     p <- read (fun p => p) ;;
     if Js.defined (pubRequestEtag p) && Js.strict_neq (pubRequestExpires p) 0%Z
     then
       warn "412 response to PUBLISH, recovering" ;;
       assign (set_pubRequestEtag None) ;;
       match body (options p) with
       | None => throw "Body undefined."
       | Some b => publish b ;; ret tt
       end
     else
       warn "412 response to PUBLISH, recovery failed" ;;
       giveUp
   else if Js.test_exact "423" code then
     p <- read (fun p => p) ;;
     match (if Js.strict_neq (pubRequestExpires p) 0%Z
            then header_Min_Expires response else None) with
     | Some minExpires =>
         if String.eqb (Js.typeof (Js.Number minExpires)) "number"
            || Js.gt minExpires (pubRequestExpires p)
         then
           warn "423 code in response to PUBLISH, adjusting the Expires value and trying to recover" ;;
           assign (set_pubRequestExpires minExpires) ;;
           match body (options p) with
           | None => throw "Body undefined."
           | Some b => publish b ;; ret tt
           end
         else
           warn "Bad 423 response Min-Expires header received for PUBLISH" ;;
           giveUp
     | None =>
         warn "423 response to PUBLISH, recovery failed" ;;
         giveUp
     end
   else giveUp) ;;
  e <- read pubRequestExpires ;;
  when (Js.strict_eq e 0%Z)
    (clearRefreshTimer ;;
     assign (set_pubRequestBody None) ;;
     assign (set_pubRequestEtag None)).

(** A pending timeout fires: it leaves the pending ones and its
    callback runs.  A handle that is not pending (cleared, or fired
    before) does nothing. *)
Definition fire (h : positive) : M World unit :=
  fun w =>
    match List.find (fun t => Pos.eqb (handle t) h) (timeouts w) with
    | Some t =>
        (clearTimeout h ;;
         match callback t with CallRefreshRequest => refreshRequest end) w
    | None => (Return tt, w)
    end.

(** The [expires] the constructor stores:
    [typeof options.expires !== "number" || options.expires % 1 !== 0]
    selects 3600, otherwise [Number(options.expires)], which is the
    number itself. *)
Definition constructor_expires (v : Js.value) : Js.number :=
  match v with
  | Js.Number n =>
      if negb (String.eqb (Js.typeof v) "number") || Js.strict_neq (Js.rem n 1%Z) 0%Z
      then 3600%Z
      else n
  | _ => 3600%Z
  end.

(** [typeof options.unpublishOnClose !== "boolean"] selects [true]. *)
Definition constructor_unpublishOnClose (v : Js.value) : bool :=
  match v with
  | Js.Boolean b => b
  | _ => true
  end.

(** A string is truthy when it is not empty. *)
Definition truthy (s : option string) : option string :=
  match s with
  | Some EmptyString => None
  | other => other
  end.

(** [new Publisher(userAgent, targetURI, eventType, options)], for a user
    agent whose collection is [publishers0] and whose address of record
    is [aor0]; [self0] is the identity of the new object. *)
Definition constructor (publishers0 : gmap string nat) (aor0 : URI) (self0 : nat)
    (targetURI : URI) (eventType : string) (o : PublisherOptionsArg) : World :=
  let extraHeaders_ := default [] (arg_extraHeaders o) in
  let contentType_ := default "text/plain" (truthy (arg_contentType o)) in
  let expires_ := constructor_expires (arg_expires o) in
  let options_ :=
    {| body := arg_body o; contentType := Some contentType_;
       expires := Some expires_; extraHeaders := Some extraHeaders_;
       params := arg_params o;
       unpublishOnClose := Some (constructor_unpublishOnClose (arg_unpublishOnClose o)) |} in
  let params_ := default no_params (arg_params o) in
  let fromURI := match fromUri params_ with Some u => u | None => aor0 end in
  let toURI := match toUri params_ with Some u => u | None => targetURI end in
  let body_ :=
    match truthy (arg_body o) with
    | Some content => Some (BodyLiteral "render" contentType_ content)
    | None => None
    end in
  let id_ := targetURI +:+ ":" +:+ eventType in
  {| this :=
       {| event := eventType; options := options_; target := targetURI;
          pubRequestBody := None; pubRequestExpires := expires_;
          pubRequestEtag := None; publishRefreshTimer := None;
          disposed := false; id := id_;
          request := makeOutgoingRequestMessage "PUBLISH" targetURI fromURI toURI
                       params_ (List.map Extra extraHeaders_) body_;
          _state := Initial |};
     self := self0;
     _publishers := <[id_ := self0]> publishers0;
     aor := aor0;
     timeouts := []; next_handle := 1%positive;
     sent := []; emitted := []; logged := [] |}.

(** *** What can happen to a publisher *)

(** Calls of the application, a response the core delivers to one of
    the five callbacks of [send], and timeouts. *)
Inductive Input : Type :=
| AppPublish (content : string)
| AppUnpublish
| AppDispose
| CoreResponse (response : IncomingResponseMessage)
| TimerFires (h : positive).

Definition perform (e : Input) : M World unit :=
  match e with
  | AppPublish content => publish content ;; ret tt
  | AppUnpublish => unpublish ;; ret tt
  | AppDispose => dispose ;; ret tt
  | CoreResponse response => receiveResponse response
  | TimerFires h => fire h
  end.

Definition run (events : list Input) (w : World) : World :=
  List.fold_left (fun w e => final (perform e w)) events w.

End Publisher.

(** ** The subscription engine ([src/api/subscriber.ts]) *)

(** [SubscriptionState] (subscription-state.ts), the public state. *)
Module SubscriptionState.
Inductive t : Type := Initial | NotifyWait | Subscribed | Terminated.

Definition eqb (a b : t) : bool :=
  match a, b with
  | Initial, Initial | NotifyWait, NotifyWait
  | Subscribed, Subscribed | Terminated, Terminated => true
  | _, _ => false
  end.

Definition show (s : t) : string :=
  match s with
  | Initial => "Initial"
  | NotifyWait => "NotifyWait"
  | Subscribed => "Subscribed"
  | Terminated => "Terminated"
  end.
End SubscriptionState.

(** [SubscriptionState] of core/subscription, the state of a dialog, which
    the source imports as [SubscriptionDialogState]. *)
Module SubscriptionDialogState.
Inductive t : Type := Initial | NotifyWait | Pending | Active | Terminated.

Definition eqb (a b : t) : bool :=
  match a, b with
  | Initial, Initial | NotifyWait, NotifyWait | Pending, Pending
  | Active, Active | Terminated, Terminated => true
  | _, _ => false
  end.
End SubscriptionDialogState.

(** What the core hands to the engine. *)
Module Incoming.

(** Modelled from the spec: the parser of the [Subscription-State]
    header is not among the sources.  The spec has the header parsed
    into its [state], an optional [reason] and an optional parameter
    map that holds [retry-after] as a number. *)
Record SubscriptionStateHeader : Type := {
  state : string;
  reason : option string;
  params : option (gmap string Z)
}.

(** An incoming NOTIFY: [notify] tells the requests apart,
    [Subscription_State] is [message.parseHeader("Subscription-State")]. *)
Record IncomingNotifyRequest : Type := {
  notify : nat;
  Subscription_State : option SubscriptionStateHeader
}.

(** [IncomingRequestWithSubscription]: the NOTIFY and, if one was
    established, the dialog (a reference into the dialogs). *)
Record IncomingRequestWithSubscription : Type := {
  request : IncomingNotifyRequest;
  subscription : option nat
}.

(** An [IncomingResponse], opaque to the engine. *)
Definition IncomingResponse : Type := nat.

(** [SubscribeResult]: [{ success }] or [{ failure: { response? } }]. *)
Inductive SubscribeResult : Type :=
| Success (success : IncomingRequestWithSubscription)
| Failure (response : option IncomingResponse).

End Incoming.

(** The fields of a [SubscriberRequest], the single-use coordinator of one
    SUBSCRIBE attempt. *)
Module SubscriberRequest.
Import Core Incoming.

(** The one delegate the engine installs:
    [{ onAccept: (response) => this.onAccepted(response) }]. *)
Inductive SubscriberRequestDelegate : Type := ForwardOnAccept.

(** [request] tells whether the [OutgoingSubscribeRequest] is held;
    [settled] is the state of the promise [subscribe()] returned:
    [None] while it is pending, then the result it resolved with. *)
Record t : Type := {
  delegate : option SubscriberRequestDelegate;
  message : OutgoingRequestMessage;
  request : bool;
  subscription : option nat;
  subscribed : bool;
  target : URI;
  event : string;
  expires : Js.number;
  settled : option SubscribeResult
}.

Definition set_delegate (v : option SubscriberRequestDelegate) (c : t) : t :=
  {| delegate := v; message := message c; request := request c;
     subscription := subscription c; subscribed := subscribed c; target := target c;
     event := event c; expires := expires c; settled := settled c |}.

Definition set_request (v : bool) (c : t) : t :=
  {| delegate := delegate c; message := message c; request := v;
     subscription := subscription c; subscribed := subscribed c; target := target c;
     event := event c; expires := expires c; settled := settled c |}.

Definition set_subscription (v : option nat) (c : t) : t :=
  {| delegate := delegate c; message := message c; request := request c;
     subscription := v; subscribed := subscribed c; target := target c;
     event := event c; expires := expires c; settled := settled c |}.

Definition set_subscribed (v : bool) (c : t) : t :=
  {| delegate := delegate c; message := message c; request := request c;
     subscription := subscription c; subscribed := v; target := target c;
     event := event c; expires := expires c; settled := settled c |}.

Definition set_settled (v : option SubscribeResult) (c : t) : t :=
  {| delegate := delegate c; message := message c; request := request c;
     subscription := subscription c; subscribed := subscribed c; target := target c;
     event := event c; expires := expires c; settled := v |}.

End SubscriberRequest.

Module Subscriber.

Import Core Incoming.

(** The dialog's delegate slot: empty, the three callbacks [subscribe]
    binds ([onNotify], [onRefresh], [onTerminated]), or the
    [{ onTerminated: () => resolve() }] that [dispose] puts in their
    place. *)
Inductive DialogDelegate : Type := NoDelegate | EngineDelegate | DisposeDelegate.

(** A subscription dialog of the core, as far as the engine reads and
    writes it. *)
Record Dialog : Type := {
  subscriptionState : SubscriptionDialogState.t;
  autoRefresh : bool;
  dialog_delegate : DialogDelegate
}.

Definition set_autoRefresh (v : bool) (d : Dialog) : Dialog :=
  {| subscriptionState := subscriptionState d; autoRefresh := v;
     dialog_delegate := dialog_delegate d |}.
Definition set_dialog_delegate (v : DialogDelegate) (d : Dialog) : Dialog :=
  {| subscriptionState := subscriptionState d; autoRefresh := autoRefresh d;
     dialog_delegate := v |}.
Definition set_subscriptionState (v : SubscriptionDialogState.t) (d : Dialog) : Dialog :=
  {| subscriptionState := v; autoRefresh := autoRefresh d;
     dialog_delegate := dialog_delegate d |}.

(** The application's delegate: whether it defines [onNotify]. *)
Record SubscriptionDelegate : Type := { has_onNotify : bool }.

(** [SubscriberOptions] as the caller passes it. *)
Record SubscriberOptionsArg : Type := {
  arg_body : option string;
  arg_contentType : option string;
  arg_expires : Js.value;
  arg_extraHeaders : option (list string);
  arg_delegate : option SubscriptionDelegate
}.

(** The fields of a [Subscriber]; the last four are those it inherits
    from [Subscription].  [subscriberRequest] and [_dialog] are
    references. *)
Record Subscriber : Type := {
  id : string;
  body : option BodyAndContentType;
  event : string;
  expires : Js.number;
  extraHeaders : list string;
  outgoingRequestMessage : OutgoingRequestMessage;
  retryAfterTimer : option positive;
  subscriberRequest : nat;
  targetURI : URI;
  delegate : option SubscriptionDelegate;
  _dialog : option nat;
  _disposed : bool;
  _state : SubscriptionState.t
}.

(** A pending [setTimeout]: its handle, the delay in milliseconds it was
    given, and its callback.  The subscriber has one callback,
    [() => { this.subscribe(); }]. *)
Inductive Callback : Type := CallSubscribe.
Record Timeout : Type := { handle : positive; delay : Z; callback : Callback }.

(** What the engine does to its collaborators, besides sending. *)
Inductive Effect : Type :=
| Accept (notify : nat)
| Deliver (notify : nat)
| WaitNotifyStop (coordinator : nat)
| RequestDispose (coordinator : nat)
| DialogRefresh (dialog : nat)
| DialogUnsubscribe (dialog : nat)
| DisposeResolved
| Emit (s : SubscriptionState.t).

(** [core.configuration.aor], [core.configuration.contact.toString()]
    and [AllowedMethods.toString()]. *)
Record Configuration : Type := { aor : URI; contact : string; allowedMethods : string }.

(** A subscriber within its surroundings: [self] is the identity of the
    object, [_subscriptions] the user agent's collection, [requests] the
    coordinators built so far, [dialogs] the core's dialogs, [sent] the
    SUBSCRIBE requests handed to [core.subscribe], oldest first, each
    with the coordinator that issued it, [trace] the other effects,
    oldest first. *)
Record World : Type := {
  this : Subscriber;
  self : nat;
  _subscriptions : gmap string nat;
  requests : gmap nat SubscriberRequest.t;
  next_request : nat;
  dialogs : gmap nat Dialog;
  configuration : Configuration;
  timeouts : list Timeout;
  next_handle : positive;
  sent : list (nat * OutgoingRequestMessage);
  trace : list Effect;
  logged : list (LogLevel * string)
}.

(** *** Assignments *)

Definition set_retryAfterTimer (v : option positive) (p : Subscriber) : Subscriber :=
  {| id := id p; body := body p; event := event p; expires := expires p;
     extraHeaders := extraHeaders p; outgoingRequestMessage := outgoingRequestMessage p;
     retryAfterTimer := v; subscriberRequest := subscriberRequest p;
     targetURI := targetURI p; delegate := delegate p; _dialog := _dialog p;
     _disposed := _disposed p; _state := _state p |}.

Definition set_subscriberRequest (v : nat) (p : Subscriber) : Subscriber :=
  {| id := id p; body := body p; event := event p; expires := expires p;
     extraHeaders := extraHeaders p; outgoingRequestMessage := outgoingRequestMessage p;
     retryAfterTimer := retryAfterTimer p; subscriberRequest := v;
     targetURI := targetURI p; delegate := delegate p; _dialog := _dialog p;
     _disposed := _disposed p; _state := _state p |}.

Definition set__dialog (v : option nat) (p : Subscriber) : Subscriber :=
  {| id := id p; body := body p; event := event p; expires := expires p;
     extraHeaders := extraHeaders p; outgoingRequestMessage := outgoingRequestMessage p;
     retryAfterTimer := retryAfterTimer p; subscriberRequest := subscriberRequest p;
     targetURI := targetURI p; delegate := delegate p; _dialog := v;
     _disposed := _disposed p; _state := _state p |}.

Definition set__disposed (v : bool) (p : Subscriber) : Subscriber :=
  {| id := id p; body := body p; event := event p; expires := expires p;
     extraHeaders := extraHeaders p; outgoingRequestMessage := outgoingRequestMessage p;
     retryAfterTimer := retryAfterTimer p; subscriberRequest := subscriberRequest p;
     targetURI := targetURI p; delegate := delegate p; _dialog := _dialog p;
     _disposed := v; _state := _state p |}.

Definition set__state (v : SubscriptionState.t) (p : Subscriber) : Subscriber :=
  {| id := id p; body := body p; event := event p; expires := expires p;
     extraHeaders := extraHeaders p; outgoingRequestMessage := outgoingRequestMessage p;
     retryAfterTimer := retryAfterTimer p; subscriberRequest := subscriberRequest p;
     targetURI := targetURI p; delegate := delegate p; _dialog := _dialog p;
     _disposed := _disposed p; _state := v |}.

Definition set_this (f : Subscriber -> Subscriber) (w : World) : World :=
  {| this := f (this w); self := self w; _subscriptions := _subscriptions w;
     requests := requests w; next_request := next_request w; dialogs := dialogs w;
     configuration := configuration w; timeouts := timeouts w;
     next_handle := next_handle w; sent := sent w; trace := trace w;
     logged := logged w |}.

Definition set__subscriptions (f : gmap string nat -> gmap string nat) (w : World) : World :=
  {| this := this w; self := self w; _subscriptions := f (_subscriptions w);
     requests := requests w; next_request := next_request w; dialogs := dialogs w;
     configuration := configuration w; timeouts := timeouts w;
     next_handle := next_handle w; sent := sent w; trace := trace w;
     logged := logged w |}.

Definition set_requests
    (f : gmap nat SubscriberRequest.t -> gmap nat SubscriberRequest.t) (w : World) : World :=
  {| this := this w; self := self w; _subscriptions := _subscriptions w;
     requests := f (requests w); next_request := next_request w; dialogs := dialogs w;
     configuration := configuration w; timeouts := timeouts w;
     next_handle := next_handle w; sent := sent w; trace := trace w;
     logged := logged w |}.

Definition set_next_request (v : nat) (w : World) : World :=
  {| this := this w; self := self w; _subscriptions := _subscriptions w;
     requests := requests w; next_request := v; dialogs := dialogs w;
     configuration := configuration w; timeouts := timeouts w;
     next_handle := next_handle w; sent := sent w; trace := trace w;
     logged := logged w |}.

Definition set_dialogs (f : gmap nat Dialog -> gmap nat Dialog) (w : World) : World :=
  {| this := this w; self := self w; _subscriptions := _subscriptions w;
     requests := requests w; next_request := next_request w; dialogs := f (dialogs w);
     configuration := configuration w; timeouts := timeouts w;
     next_handle := next_handle w; sent := sent w; trace := trace w;
     logged := logged w |}.

Definition set_timeouts (f : list Timeout -> list Timeout) (w : World) : World :=
  {| this := this w; self := self w; _subscriptions := _subscriptions w;
     requests := requests w; next_request := next_request w; dialogs := dialogs w;
     configuration := configuration w; timeouts := f (timeouts w);
     next_handle := next_handle w; sent := sent w; trace := trace w;
     logged := logged w |}.

Definition set_next_handle (v : positive) (w : World) : World :=
  {| this := this w; self := self w; _subscriptions := _subscriptions w;
     requests := requests w; next_request := next_request w; dialogs := dialogs w;
     configuration := configuration w; timeouts := timeouts w;
     next_handle := v; sent := sent w; trace := trace w;
     logged := logged w |}.

Definition set_sent
    (f : list (nat * OutgoingRequestMessage) -> list (nat * OutgoingRequestMessage))
    (w : World) : World :=
  {| this := this w; self := self w; _subscriptions := _subscriptions w;
     requests := requests w; next_request := next_request w; dialogs := dialogs w;
     configuration := configuration w; timeouts := timeouts w;
     next_handle := next_handle w; sent := f (sent w); trace := trace w;
     logged := logged w |}.

Definition set_trace (f : list Effect -> list Effect) (w : World) : World :=
  {| this := this w; self := self w; _subscriptions := _subscriptions w;
     requests := requests w; next_request := next_request w; dialogs := dialogs w;
     configuration := configuration w; timeouts := timeouts w;
     next_handle := next_handle w; sent := sent w; trace := f (trace w);
     logged := logged w |}.

Definition set_logged (f : list (LogLevel * string) -> list (LogLevel * string))
    (w : World) : World :=
  {| this := this w; self := self w; _subscriptions := _subscriptions w;
     requests := requests w; next_request := next_request w; dialogs := dialogs w;
     configuration := configuration w; timeouts := timeouts w;
     next_handle := next_handle w; sent := sent w; trace := trace w;
     logged := f (logged w) |}.

(** *** The environment's primitives *)

Local Open Scope js_scope.

Definition read {A} (f : Subscriber -> A) : M World A :=
  fun w => (Return (f (this w)), w).
Definition assign (f : Subscriber -> Subscriber) : M World unit :=
  modify (set_this f).

Definition log (message : string) : M World unit :=
  modify (set_logged (fun l => l ++ [(LogLog, message)])).
Definition warn (message : string) : M World unit :=
  modify (set_logged (fun l => l ++ [(LogWarn, message)])).

Definition effect (e : Effect) : M World unit :=
  modify (set_trace (fun l => l ++ [e])).

(** Following a reference.  A reference that leads nowhere is the
    [undefined] whose property the source would read. *)
Definition coordinator (r : nat) : M World SubscriberRequest.t :=
  fun w =>
    match requests w !! r with
    | Some c => (Return c, w)
    | None => (Throw "TypeError: Cannot read properties of undefined", w)
    end.
Definition dialog (d : nat) : M World Dialog :=
  fun w =>
    match dialogs w !! d with
    | Some x => (Return x, w)
    | None => (Throw "TypeError: Cannot read properties of undefined", w)
    end.
Definition update_coordinator (r : nat) (f : SubscriberRequest.t -> SubscriberRequest.t)
    : M World unit :=
  modify (set_requests (alter f r)).
Definition update_dialog (d : nat) (f : Dialog -> Dialog) : M World unit :=
  modify (set_dialogs (alter f d)).

(** [setTimeout(callback, delay)]: a fresh handle, the timeout pending. *)
Definition setTimeout (cb : Callback) (ms : Z) : M World positive :=
  fun w =>
    let h := next_handle w in
    (Return h,
     set_next_handle (Pos.succ h)
       (set_timeouts (fun l => l ++ [{| handle := h; delay := ms; callback := cb |}]) w)).

(** [clearTimeout(handle)]: the timeout is no longer pending. *)
Definition clearTimeout (h : positive) : M World unit :=
  modify (set_timeouts (List.filter (fun t => negb (Pos.eqb (handle t) h)))).

(** A string is truthy when it is not empty. *)
Definition truthy (s : option string) : option string :=
  match s with
  | Some EmptyString => None
  | other => other
  end.

(** *** [SubscriberRequest] *)

(** The message the constructor of [SubscriberRequest] has the core
    make. *)
Definition subscribe_message (c : Configuration) (target : URI) (event_ : string)
    (expires_ : Js.number) (options_extraHeaders : option (list string))
    (options_body : option Body) : OutgoingRequestMessage :=
  let extraHeaders0 := List.map Extra (default [] options_extraHeaders) in
  let extraHeaders1 := extraHeaders0 ++ [Allow (allowedMethods c)] in
  let extraHeaders2 := extraHeaders1 ++ [Event event_] in
  let extraHeaders3 := extraHeaders2 ++ [Expires expires_] in
  let extraHeaders4 := extraHeaders3 ++ [Contact (contact c)] in
  makeOutgoingRequestMessage "SUBSCRIBE" target (aor c) target no_params
    extraHeaders4 options_body.

(** [new SubscriberRequest(core, target, event, expires, options,
    delegate)]; the result is the reference to the new coordinator. *)
Definition SubscriberRequest_constructor (target : URI) (event_ : string)
    (expires_ : Js.number) (options_extraHeaders : option (list string))
    (options_body : option Body)
    (delegate_ : option SubscriberRequest.SubscriberRequestDelegate) : M World nat :=
  fun w =>
    let r := next_request w in
    (Return r,
     set_next_request (S r)
       (set_requests
          (insert r
             {| SubscriberRequest.delegate := delegate_;
                SubscriberRequest.message :=
                  subscribe_message (configuration w) target event_ expires_
                    options_extraHeaders options_body;
                SubscriberRequest.request := false;
                SubscriberRequest.subscription := None;
                SubscriberRequest.subscribed := false;
                SubscriberRequest.target := target;
                SubscriberRequest.event := event_;
                SubscriberRequest.expires := expires_;
                SubscriberRequest.settled := None |}) w)).

Definition SubscriberRequest_dispose (r : nat) : M World unit :=
  c <- coordinator r ;;
  if SubscriberRequest.request c then
    effect (WaitNotifyStop r) ;;
    effect (RequestDispose r) ;;
    update_coordinator r (SubscriberRequest.set_request false)
  else ret tt.

(** The [state] getter. *)
Definition SubscriberRequest_state (r : nat) : M World SubscriptionDialogState.t :=
  c <- coordinator r ;;
  match SubscriberRequest.subscription c with
  | Some d => x <- dialog d ;; ret (subscriptionState x)
  | None =>
      if SubscriberRequest.subscribed c
      then ret SubscriptionDialogState.NotifyWait
      else ret SubscriptionDialogState.Initial
  end.

(** [subscribe()].  The executor of the promise runs at once: the
    message, which the constructor always sets, goes to
    [core.subscribe] and the handle is kept.  The promise is pending
    when the call returns; the five callbacks below settle it. *)
Definition SubscriberRequest_subscribe (r : nat) : M World (Js.Promise SubscribeResult) :=
  c <- coordinator r ;;
  if SubscriberRequest.subscribed c then
    ret (Js.Rejected "Not in initial state. Did you call subscribe more than once?")
  else
    update_coordinator r (SubscriberRequest.set_subscribed true) ;;
    modify (set_sent (fun l => l ++ [(r, SubscriberRequest.message c)])) ;;
    update_coordinator r (SubscriberRequest.set_request true) ;;
    ret Js.Pending.

(** [resolve(result)]: only the first call settles the promise; the
    answer tells whether this call did. *)
Definition resolve (r : nat) (result : SubscribeResult) : M World bool :=
  c <- coordinator r ;;
  match SubscriberRequest.settled c with
  | Some _ => ret false
  | None =>
      update_coordinator r (SubscriberRequest.set_settled (Some result)) ;;
      ret true
  end.

(** [Subscriber.onAccepted]: nothing is done with the response. *)
Definition onAccepted (response : IncomingResponse) : M World unit := ret tt.

(** The callbacks [subscribe()] gives to [core.subscribe]. *)
Definition SubscriberRequest_onAccept (r : nat) (response : IncomingResponse)
    : M World unit :=
  c <- coordinator r ;;
  match SubscriberRequest.delegate c with
  | Some SubscriberRequest.ForwardOnAccept => onAccepted response
  | None => ret tt
  end.

Definition SubscriberRequest_onNotify (r : nat)
    (requestWithSubscription : IncomingRequestWithSubscription) : M World bool :=
  update_coordinator r
    (SubscriberRequest.set_subscription (subscription requestWithSubscription)) ;;
  match subscription requestWithSubscription with
  | Some d => update_dialog d (set_autoRefresh true)
  | None => ret tt
  end ;;
  resolve r (Success requestWithSubscription).

Definition SubscriberRequest_onNotifyTimeout (r : nat) : M World bool :=
  resolve r (Failure None).

Definition SubscriberRequest_onRedirect (r : nat) (response : IncomingResponse)
    : M World bool :=
  resolve r (Failure (Some response)).

Definition SubscriberRequest_onReject (r : nat) (response : IncomingResponse)
    : M World bool :=
  resolve r (Failure (Some response)).

(** *** [Subscription], the class [Subscriber] extends *)

(** Modelled from the spec: [Subscription.dispose] of
    src/api/subscription.ts, which is not among the sources.  The spec
    has disposal idempotent; the base class marks the object disposed
    and its promise is settled. *)
Definition Subscription_dispose : M World (Js.Promise unit) :=
  d <- read _disposed ;;
  if d then ret (Js.Resolved tt)
  else assign (set__disposed true) ;; ret (Js.Resolved tt).

(** [dispose()], up to the call of [then]: the promise it returns is
    pending until [dispose_then] has run. *)
Definition dispose : M World (Js.Promise unit) :=
  d <- read _disposed ;;
  if d then ret (Js.Resolved tt)
  else
    p <- read (fun p => p) ;;
    log ("Subscription " +:+ id p +:+ " in state " +:+ SubscriptionState.show (_state p)
         +:+ " is being disposed") ;;
    modify (set__subscriptions (delete (id p))) ;;
    match retryAfterTimer p with
    | Some h => clearTimeout h ;; assign (set_retryAfterTimer None)
    | None => ret tt
    end ;;
    SubscriberRequest_dispose (subscriberRequest p) ;;
    Subscription_dispose ;;
    ret Js.Pending.

(** The callback [dispose()] gives to [then]; it runs once the call
    that disposed has returned.  Its result is the state of the promise
    [dispose()] returned: settled, or pending until the dialog reports
    that it terminated.  A [throw] here rejects that promise. *)
Definition dispose_then : M World (Js.Promise unit) :=
  p <- read (fun p => p) ;;
  if negb (SubscriptionState.eqb (_state p) SubscriptionState.Subscribed)
  then ret (Js.Resolved tt)
  else
    match _dialog p with
    | None => throw "Dialog undefined."
    | Some d =>
        x <- dialog d ;;
        if SubscriptionDialogState.eqb (subscriptionState x) SubscriptionDialogState.Pending
           || SubscriptionDialogState.eqb (subscriptionState x) SubscriptionDialogState.Active
        then
          update_dialog d (set_dialog_delegate DisposeDelegate) ;;
          effect (DialogUnsubscribe d) ;;
          ret Js.Pending
        else ret (Js.Resolved tt)
    end.

(** Modelled from the spec: [Subscription.stateTransition] of
    src/api/subscription.ts, which is not among the sources.  The spec
    has the states in the order Initial, NotifyWait, Subscribed,
    Terminated, every state but Terminated free to move to Terminated,
    any other move a precondition error that leaves the state as it
    is, and the subscription disposed on reaching Terminated. *)
Definition stateTransition (newState : SubscriptionState.t) : M World unit :=
  s <- read _state ;;
  let invalidTransition : M World unit :=
    throw ("Invalid state transition from " +:+ SubscriptionState.show s +:+ " to "
           +:+ SubscriptionState.show newState) in
  match s, newState with
  | SubscriptionState.Initial, SubscriptionState.NotifyWait
  | SubscriptionState.NotifyWait, SubscriptionState.Subscribed
  | SubscriptionState.Initial, SubscriptionState.Terminated
  | SubscriptionState.NotifyWait, SubscriptionState.Terminated
  | SubscriptionState.Subscribed, SubscriptionState.Terminated => ret tt
  | _, _ => invalidTransition
  end ;;
  assign (set__state newState) ;;
  effect (Emit newState) ;;
  if SubscriptionState.eqb newState SubscriptionState.Terminated
  then dispose ;; ret tt
  else ret tt.

(** *** [Subscriber] *)

(** [unsubscribe()]: the [default] arm of the source's [switch] cannot
    be reached, the enumeration having five members. *)
Definition unsubscribe : M World (Js.Promise unit) :=
  p <- read (fun p => p) ;;
  if _disposed p then ret (Js.Resolved tt)
  else
    st <- SubscriberRequest_state (subscriberRequest p) ;;
    match st with
    | SubscriptionDialogState.Pending | SubscriptionDialogState.Active =>
        match _dialog p with
        | Some d => effect (DialogUnsubscribe d)
        | None => ret tt
        end
    | SubscriptionDialogState.Initial | SubscriptionDialogState.NotifyWait
    | SubscriptionDialogState.Terminated => ret tt
    end ;;
    stateTransition SubscriptionState.Terminated ;;
    ret (Js.Resolved tt).

(** [subscribe()].  In the Initial arm the coordinator's promise gets
    [subscribe_then] as its [then] callback. *)
Definition subscribe : M World (Js.Promise unit) :=
  p <- read (fun p => p) ;;
  st <- SubscriberRequest_state (subscriberRequest p) ;;
  match st with
  | SubscriptionDialogState.Initial =>
      when (SubscriptionState.eqb (_state p) SubscriptionState.Initial)
        (stateTransition SubscriptionState.NotifyWait) ;;
      SubscriberRequest_subscribe (subscriberRequest p) ;;
      ret tt
  | SubscriptionDialogState.Active =>
      match _dialog p with
      | Some d => effect (DialogRefresh d)
      | None => ret tt
      end
  | SubscriptionDialogState.NotifyWait | SubscriptionDialogState.Pending
  | SubscriptionDialogState.Terminated => ret tt
  end ;;
  ret (Js.Resolved tt).

(** [_refresh()]. *)
Definition _refresh : M World (Js.Promise unit) :=
  p <- read (fun p => p) ;;
  st <- SubscriberRequest_state (subscriberRequest p) ;;
  if SubscriptionDialogState.eqb st SubscriptionDialogState.Active
  then subscribe
  else ret (Js.Resolved tt).

Definition initSubscriberRequest : M World nat :=
  p <- read (fun p => p) ;;
  r <- SubscriberRequest_constructor (targetURI p) (event p) (expires p)
         (Some (extraHeaders p)) (option_map fromBodyLegacy (body p)) None ;;
  assign (set_subscriberRequest r) ;;
  update_coordinator r (SubscriberRequest.set_delegate (Some SubscriberRequest.ForwardOnAccept)) ;;
  ret r.

(** A retry-after parameter is truthy when it is not zero. *)
Definition retry_after (ss : SubscriptionStateHeader) : option Z :=
  match params ss with
  | Some ps =>
      match ps !! "retry-after" with
      | Some n => if Z.eqb n 0 then None else Some n
      | None => None
      end
  | None => None
  end.

Definition onNotify (request_ : IncomingNotifyRequest) : M World unit :=
  p <- read (fun p => p) ;;
  if _disposed p then effect (Accept (notify request_))
  else
    when (negb (SubscriptionState.eqb (_state p) SubscriptionState.Subscribed))
      (stateTransition SubscriptionState.Subscribed) ;;
    (if match delegate p with Some dl => has_onNotify dl | None => false end
     then effect (Deliver (notify request_))
     else effect (Accept (notify request_))) ;;
    match Subscription_State request_ with
    | Some subscriptionState_ =>
        if negb (String.eqb (state subscriptionState_) EmptyString)
           && String.eqb (state subscriptionState_) "terminated"
        then
          match truthy (reason subscriptionState_) with
          | Some reason_ =>
              log ("Terminated subscription with reason " +:+ reason_) ;;
              if String.eqb reason_ "deactivated" || String.eqb reason_ "timeout" then
                initSubscriberRequest ;;
                subscribe ;;
                ret tt
              else if String.eqb reason_ "probation" || String.eqb reason_ "giveup" then
                initSubscriberRequest ;;
                match retry_after subscriptionState_ with
                | Some ms =>
                    h <- setTimeout CallSubscribe ms ;;
                    assign (set_retryAfterTimer (Some h))
                | None => subscribe ;; ret tt
                end
              else
                unsubscribe ;; ret tt
          | None => unsubscribe ;; ret tt
          end
        else ret tt
    | None => ret tt
    end.

(** [onRefresh(request)] gives the dialog's refresh request a delegate
    that forwards to [onAccepted]; nothing else changes. *)
Definition onRefresh : M World unit := ret tt.

(** The callback [subscribe()] gives to [then] on the coordinator's
    promise; it runs when the promise has been resolved. *)
Definition subscribe_then (result : SubscribeResult) : M World unit :=
  match result with
  | Success success =>
      match subscription success with
      | Some d =>
          assign (set__dialog (Some d)) ;;
          update_dialog d (set_dialog_delegate EngineDelegate)
      | None => ret tt
      end ;;
      onNotify (request success)
  | Failure _ => unsubscribe ;; ret tt
  end.

(** A pending timeout fires: it leaves the pending ones and its
    callback runs. *)
Definition fire (h : positive) : M World unit :=
  fun w =>
    match List.find (fun t => Pos.eqb (handle t) h) (timeouts w) with
    | Some t =>
        (clearTimeout h ;;
         match callback t with CallSubscribe => subscribe ;; ret tt end) w
    | None => (Return tt, w)
    end.

(** The [expires] the constructor stores: 3600 when the option is
    [undefined] or, with a warning, when it is not a number. *)
Definition constructor_expires (v : Js.value) : Js.number :=
  match v with
  | Js.Number n => n
  | _ => 3600%Z
  end.

Definition constructor_warns (v : Js.value) : bool :=
  match v with
  | Js.Undefined | Js.Number _ => false
  | _ => true
  end.

(** [new Subscriber(userAgent, targetURI, eventType, options)], for a
    user agent whose collection is [subscriptions0] and whose core has
    the configuration [configuration0]; [self0] is the identity of the
    new object, [callId] and [fromTag] are what the core put into the
    message of the first coordinator. *)
Definition constructor (subscriptions0 : gmap string nat) (configuration0 : Configuration)
    (self0 : nat) (callId fromTag : string)
    (targetURI_ : URI) (eventType : string) (o : SubscriberOptionsArg) : World :=
  let body_ :=
    match truthy (arg_body o) with
    | Some b =>
        Some {| bc_body := b;
                bc_contentType := default "application/sdp" (truthy (arg_contentType o)) |}
    | None => None
    end in
  let expires_ := constructor_expires (arg_expires o) in
  let extraHeaders_ := default [] (arg_extraHeaders o) in
  let message_ :=
    subscribe_message configuration0 targetURI_ eventType expires_
      (Some extraHeaders_) (option_map fromBodyLegacy body_) in
  let id_ := callId +:+ fromTag +:+ eventType in
  let w0 :=
    {| this :=
         {| id := id_; body := body_; event := eventType; expires := expires_;
            extraHeaders := extraHeaders_; outgoingRequestMessage := message_;
            retryAfterTimer := None; subscriberRequest := 0%nat;
            targetURI := targetURI_; delegate := arg_delegate o; _dialog := None;
            _disposed := false; _state := SubscriptionState.Initial |};
       self := self0;
       _subscriptions := subscriptions0;
       requests := ∅; next_request := 0%nat; dialogs := ∅;
       configuration := configuration0;
       timeouts := []; next_handle := 1%positive;
       sent := []; trace := [];
       logged :=
         if constructor_warns (arg_expires o)
         then [(LogWarn, "Option " +:+ Js.quote +:+ "expires" +:+ Js.quote
                         +:+ " must be a number. Using default of 3600.")]
         else [] |} in
  set__subscriptions (insert id_ self0) (final (initSubscriberRequest w0)).

(** *** What can happen to a subscriber *)

(** Calls of the application, callbacks of the core for the SUBSCRIBE of
    a coordinator, callbacks of a dialog, the core creating a dialog or
    changing its state, the callbacks of a refresh request, [then] callbacks and timeouts; last,
    a call of [subscribe()] on a coordinator by whoever holds it. *)
Inductive Input : Type :=
| AppSubscribe
| AppUnsubscribe
| AppDispose
| AppRefresh
| ThenDispose
| CoreAccept (r : nat) (response : IncomingResponse)
| CoreNotify (r : nat) (requestWithSubscription : IncomingRequestWithSubscription)
| CoreNotifyTimeout (r : nat)
| CoreRedirect (r : nat) (response : IncomingResponse)
| CoreReject (r : nat) (response : IncomingResponse)
| DialogNotify (d : nat) (request_ : IncomingNotifyRequest)
| DialogRefreshed (d : nat)
| DialogTerminated (d : nat)
| DialogBecomes (d : nat) (s : SubscriptionDialogState.t)
| RefreshRedirect
| RefreshReject
| TimerFires (h : positive)
| CoordinatorSubscribe (r : nat).

(** A callback that may settle the coordinator's promise, followed by
    the [then] callback when it did. *)
Definition settling (c : M World bool) (result : SubscribeResult) : M World unit :=
  first <- c ;;
  if first then subscribe_then result else ret tt.

Definition perform (e : Input) : M World unit :=
  match e with
  | AppSubscribe => subscribe ;; ret tt
  | AppUnsubscribe => unsubscribe ;; ret tt
  | AppDispose => dispose ;; ret tt
  | AppRefresh => _refresh ;; ret tt
  | ThenDispose => dispose_then ;; ret tt
  | CoreAccept r response => SubscriberRequest_onAccept r response
  | CoreNotify r rws => settling (SubscriberRequest_onNotify r rws) (Success rws)
  | CoreNotifyTimeout r => settling (SubscriberRequest_onNotifyTimeout r) (Failure None)
  | CoreRedirect r response =>
      settling (SubscriberRequest_onRedirect r response) (Failure (Some response))
  | CoreReject r response =>
      settling (SubscriberRequest_onReject r response) (Failure (Some response))
  | DialogNotify d request_ =>
      x <- dialog d ;;
      match dialog_delegate x with
      | EngineDelegate => onNotify request_
      | _ => ret tt
      end
  | DialogRefreshed d =>
      x <- dialog d ;;
      match dialog_delegate x with
      | EngineDelegate => onRefresh
      | _ => ret tt
      end
  | DialogTerminated d =>
      x <- dialog d ;;
      match dialog_delegate x with
      | EngineDelegate =>
          s <- read _state ;;
          when (negb (SubscriptionState.eqb s SubscriptionState.Terminated))
            (stateTransition SubscriptionState.Terminated)
      | DisposeDelegate => effect DisposeResolved
      | NoDelegate => ret tt
      end
  | DialogBecomes d s =>
      modify (set_dialogs (fun m =>
        <[d := match m !! d with
               | Some x => set_subscriptionState s x
               | None =>
                   {| subscriptionState := s; autoRefresh := false;
                      dialog_delegate := NoDelegate |}
               end]> m))
  | RefreshRedirect => unsubscribe ;; ret tt
  | RefreshReject => unsubscribe ;; ret tt
  | TimerFires h => fire h
  | CoordinatorSubscribe r => SubscriberRequest_subscribe r ;; ret tt
  end.

Definition run (events : list Input) (w : World) : World :=
  List.fold_left (fun w e => final (perform e w)) events w.

End Subscriber.

(** ** Vocabulary of the properties, and the worlds they are tried on *)

Module PublisherSpec.
Import Core Publisher.

(** [0 <= e <= requested], as the 2xx arm tests it. *)
Definition in_range (e requested : Js.number) : bool :=
  Js.ge e 0%Z && Js.le e requested.

(** The expiry a 2xx response grants against the one requested. *)
Definition granted_by (r : IncomingResponseMessage) (requested : Js.number) : Js.number :=
  match header_Expires r with
  | Some e => if in_range e requested then e else requested
  | None => requested
  end.

(** The refresh the 2xx arm schedules for a granted expiry. *)
Definition refresh_at (w : World) (granted : Js.number) : Timeout :=
  {| handle := next_handle w; delay := Js.mul granted 900%Z; callback := CallRefreshRequest |}.

(** The world once [stateTransition] has assigned, logged and emitted
    the new state. *)
Definition transitioned (newState : PublisherState) (w : World) : World :=
  set_emitted (fun l => l ++ [newState])
    (set_logged (fun l => l ++ [(LogLog, "Publication transitioned to state " +:+ show newState)])
       (set_this (set__state newState) w)).

(** The world once [dispose] has set the mark, logged and left the
    collection. *)
Definition marked_disposed (w : World) : World :=
  set__publishers (delete (id (this w)))
    (set_logged
       (fun l => l ++ [(LogLog, "Publisher " +:+ id (this w) +:+ " in state "
                                +:+ show (_state (this w)) +:+ " is being disposed")])
       (set_this (set_disposed true) w)).

(** A disposed publisher is not the one the collection holds under its
    identifier. *)
Definition registered_consistently (w : World) : Prop :=
  disposed (this w) = true -> _publishers w !! id (this w) <> Some (self w).

Definition terminated (w : World) : Prop := _state (this w) = Terminated.

(** The options hold a body and a content type, as they do once
    [publish] has been called. *)
Definition has_published (w : World) : Prop :=
  is_Some (body (options (this w))) /\ is_Some (contentType (options (this w))).

(** The PUBLISH that [sendPublishRequest] builds in [w] for an expiry,
    an entity tag and a body. *)
Definition publish_message (w : World) (seconds : Js.number) (etag : option string)
    (b : option Body) : OutgoingRequestMessage :=
  let p := this w in
  let ps := default no_params (params (options p)) in
  makeOutgoingRequestMessage "PUBLISH" (target p)
    (match fromUri ps with Some u => u | None => aor w end)
    (match toUri ps with Some u => u | None => target p end)
    ps
    (List.map Extra (default [] (extraHeaders (options p)))
       ++ [Event (event p)] ++ [Expires seconds]
       ++ match etag with Some t => [SIP_If_Match t] | None => [] end)
    b.

Definition codes_between (lo : Z) (n : nat) : list Z :=
  List.map (fun k => (lo + Z.of_nat k)%Z) (List.seq 0 n).

Definition ua_options (e : Z) : PublisherOptionsArg :=
  {| arg_body := None; arg_contentType := None; arg_expires := Js.Number e;
     arg_extraHeaders := None; arg_params := None; arg_unpublishOnClose := Js.Undefined |}.

Definition fresh_world (e : Z) : World :=
  constructor ∅ "sip:me@example.com" 7%nat "sip:alice@example.com" "presence" (ua_options e).

(** The options of a caller who asks for 3600.5. *)
Definition fractional_options : PublisherOptionsArg :=
  {| arg_body := None; arg_contentType := None;
     arg_expires := Js.Number (Js.Finite (7201 # 2));
     arg_extraHeaders := None; arg_params := None; arg_unpublishOnClose := Js.Undefined |}.

Definition response (code : Z) (etag : option string) (e m : option Z)
    : IncomingResponseMessage :=
  {| statusCode := Some code; header_SIP_ETag := etag;
     header_Expires := option_map Js.of_Z e; header_Min_Expires := option_map Js.of_Z m |}.

(** 3600 requested, the PUBLISH sent. *)
Definition requested_3600_world : World := run [AppPublish "doc"] (fresh_world 3600).

(** 60 requested, the PUBLISH sent. *)
Definition requested_60_world : World := run [AppPublish "doc"] (fresh_world 60).

(** Published with entity tag E1 and 1800 granted. *)
Definition published_world : World :=
  run [CoreResponse (response 200 (Some "E1") (Some 1800%Z) None)] requested_3600_world.

(** Unpublished while a refresh is outstanding: the refresh timeout
    fires, the application unpublishes, and the removal is answered
    first. *)
Definition unpublished_world : World :=
  run [TimerFires 1%positive; AppUnpublish;
       CoreResponse (response 200 None (Some 0%Z) None)]
    published_world.

(** Terminated by a 500. *)
Definition terminated_world : World :=
  run [CoreResponse (response 500 None None None)] requested_3600_world.

(** [2^1023] requested, which is a double and an integer, the PUBLISH
    sent. *)
Definition requested_huge_world : World := run [AppPublish "doc"] (fresh_world (2 ^ 1023)).

(** The double nearest to 0.07. *)
Definition seven_hundredths : Js.number :=
  Js.Finite (5044031582654956 # 72057594037927936).

(** *** Vocabulary of the further properties *)

(** The transitions [stateTransition] lets through, as a table. *)
Definition allowed (s newState : PublisherState) : bool :=
  match s, newState with
  | Initial, (Published | Unpublished | Terminated)
  | Published, (Unpublished | Terminated)
  | Unpublished, (Published | Terminated) => true
  | _, _ => false
  end.

(** The pending timeouts once the one stored in [publishRefreshTimer]
    has been cleared. *)
Definition cancelled (t : option positive) (l : list Timeout) : list Timeout :=
  match t with
  | Some h => List.filter (fun t => negb (Pos.eqb (handle t) h)) l
  | None => l
  end.

(** The status codes that none of the four patterns of the [switch]
    is written for. *)
Definition unexpected (code : Z) : bool :=
  negb ((100 <=? code) && (code <=? 299))%Z && negb (code =? 412)%Z && negb (code =? 423)%Z.

(** What an unrecoverable response leaves behind: [w] is the world it
    finds, [w'] the world it leaves and [o] the outcome of
    [receiveResponse]. *)
Definition given_up (w w' : World) (o : Outcome unit) : Prop :=
  pubRequestExpires (this w') = Js.of_Z 0 /\
  sent w' = sent w /\
  match _state (this w) with
  | Initial | Published =>
      o = Return tt /\
      emitted w' = emitted w ++ [Unpublished; Terminated] /\
      _state (this w') = Terminated /\
      disposed (this w') = true /\
      _publishers w' = (if disposed (this w) then _publishers w
                        else delete (id (this w)) (_publishers w)) /\
      timeouts w' = cancelled (publishRefreshTimer (this w)) (timeouts w) /\
      publishRefreshTimer (this w') = None /\
      pubRequestEtag (this w') = None /\
      pubRequestBody (this w') = None
  | s =>
      o = Throw ("Invalid state transition from " +:+ show s +:+ " to Unpublished") /\
      emitted w' = emitted w /\
      _state (this w') = s
  end.

(** What a publisher is configured with: everything
    [sendPublishRequest] reads besides the expiry, the entity tag and
    the body. *)
Definition settings (w : World)
    : string * URI * URI * option string * option Js.number * option (list string)
      * option Params :=
  (event (this w), target (this w), aor w,
   contentType (options (this w)), expires (options (this w)),
   extraHeaders (options (this w)), params (options (this w))).

Definition configured
    (s : string * URI * URI * option string * option Js.number * option (list string)
         * option Params) (w : World) : Prop :=
  settings w = s.

(** The settings are those of [w0], and every PUBLISH sent so far is
    one that [sendPublishRequest] builds from them. *)
Definition publishes_of (w0 : World) (w : World) : Prop :=
  settings w = settings w0 /\
  Forall (fun m => exists e etag b, m = publish_message w0 e etag b) (sent w).

(** Published, then [unpublish()] called: the removal is on its way. *)
Definition removing_world : World := run [AppUnpublish] published_world.
End PublisherSpec.

Module SubscriberSpec.
Import Core Incoming Subscriber.

(** The coordinator [r] was built and its [subscribe()] has run. *)
Definition used (r : nat) (w : World) : Prop :=
  (r < next_request w)%nat /\
  exists c, requests w !! r = Some c /\ SubscriberRequest.subscribed c = true.

(** The message a coordinator built in [w] carries. *)
Definition fresh_message (w : World) : OutgoingRequestMessage :=
  subscribe_message (configuration w) (targetURI (this w)) (event (this w))
    (expires (this w)) (Some (extraHeaders (this w)))
    (option_map fromBodyLegacy (body (this w))).

(** The coordinator [initSubscriberRequest] builds in [w], before
    ([false]) and after ([true]) its [subscribe()]. *)
Definition fresh_coordinator (w : World) (sent_ : bool) : SubscriberRequest.t :=
  {| SubscriberRequest.delegate := Some SubscriberRequest.ForwardOnAccept;
     SubscriberRequest.message := fresh_message w;
     SubscriberRequest.request := sent_;
     SubscriberRequest.subscription := None;
     SubscriberRequest.subscribed := sent_;
     SubscriberRequest.target := targetURI (this w);
     SubscriberRequest.event := event (this w);
     SubscriberRequest.expires := expires (this w);
     SubscriberRequest.settled := None |}.

(** What [onNotify] adds to the trace before it looks at the header. *)
Definition notified (w : World) (n : IncomingNotifyRequest) : list Effect :=
  (if SubscriptionState.eqb (_state (this w)) SubscriptionState.Subscribed
   then [] else [Emit SubscriptionState.Subscribed])
  ++ [if match delegate (this w) with Some dl => has_onNotify dl | None => false end
      then Deliver (notify n) else Accept (notify n)].

(** A subscription a NOTIFY can reach: not disposed, and past its first
    SUBSCRIBE. *)
Definition may_be_notified (w : World) : Prop :=
  _disposed (this w) = false /\
  (_state (this w) = SubscriptionState.NotifyWait \/
   _state (this w) = SubscriptionState.Subscribed).

(** Past the first SUBSCRIBE: the public state has left Initial, the
    current coordinator exists, and a terminated subscription is
    disposed. *)
Definition engaged (w : World) : Prop :=
  _state (this w) <> SubscriptionState.Initial /\
  is_Some (requests w !! subscriberRequest (this w)) /\
  (_state (this w) = SubscriptionState.Terminated -> _disposed (this w) = true).

(** The timeout the giveup arm sets for a retry-after parameter. *)
Definition retry_at (w : World) (ms : Z) : Timeout :=
  {| handle := next_handle w; delay := ms; callback := CallSubscribe |}.

Definition terminated_with (reason_ : string) (retry : option Z) : SubscriptionStateHeader :=
  {| state := "terminated"; reason := Some reason_;
     params := match retry with
               | Some n => Some {[ "retry-after" := n ]}
               | None => None
               end |}.

Definition example_configuration : Configuration :=
  {| aor := "sip:me@example.com"; contact := "sip:me@192.0.2.1";
     allowedMethods := "NOTIFY" |}.

Definition example_options : SubscriberOptionsArg :=
  {| arg_body := None; arg_contentType := None; arg_expires := Js.Undefined;
     arg_extraHeaders := None; arg_delegate := None |}.

Definition fresh_world : World :=
  constructor ∅ example_configuration 3%nat "call1" "tag1" "sip:alice@example.com"
    "presence" example_options.

Definition first_notify : IncomingNotifyRequest :=
  {| notify := 1%nat;
     Subscription_State := Some {| state := "active"; reason := None; params := None |} |}.

(** Subscribed: the SUBSCRIBE sent, the first NOTIFY received with the
    dialog 5. *)
Definition subscribed_world : World :=
  run [DialogBecomes 5%nat SubscriptionDialogState.Active;
       AppSubscribe;
       CoreNotify 0%nat {| request := first_notify; subscription := Some 5%nat |}]
    fresh_world.

Definition giveup_notify : IncomingNotifyRequest :=
  {| notify := 2%nat; Subscription_State := Some (terminated_with "giveup" (Some 30%Z)) |}.

Definition deactivated_notify : IncomingNotifyRequest :=
  {| notify := 2%nat; Subscription_State := Some (terminated_with "deactivated" None) |}.

(** *** Vocabulary of the further properties *)

(** The two ways a NOTIFY is answered. *)
Definition is_answer (e : Effect) : bool :=
  match e with
  | Accept _ | Deliver _ => true
  | _ => false
  end.

Definition answers (w : World) : list Effect := List.filter is_answer (trace w).

Definition answered (l : list Effect) (w : World) : Prop := answers w = l.

(** The answer [onNotify] gives to [n] in [w]. *)
Definition answer (w : World) (n : IncomingNotifyRequest) : Effect :=
  if _disposed (this w) then Accept (notify n)
  else if match delegate (this w) with Some dl => has_onNotify dl | None => false end
       then Deliver (notify n) else Accept (notify n).

(** The world once [onNotify] has made the public state Subscribed. *)
Definition subscribed_by (w : World) : World :=
  if SubscriptionState.eqb (_state (this w)) SubscriptionState.Subscribed then w
  else set_trace (fun l => l ++ [Emit SubscriptionState.Subscribed])
         (set_this (set__state SubscriptionState.Subscribed) w).

(** The world once [onNotify] has also answered the NOTIFY. *)
Definition notified_world (w : World) (n : IncomingNotifyRequest) : World :=
  set_trace (fun l => l ++ [answer w n]) (subscribed_by w).

(** What [unsubscribe] asks of the dialog when the coordinator's state
    is [st]. *)
Definition dialog_unsubscribed (w : World) (st : SubscriptionDialogState.t) : list Effect :=
  match st with
  | SubscriptionDialogState.Pending | SubscriptionDialogState.Active =>
      match _dialog (this w) with
      | Some d => [DialogUnsubscribe d]
      | None => []
      end
  | _ => []
  end.

(** What the coordinator's [dispose] does to the request it holds. *)
Definition request_disposed (r : nat) (c : SubscriberRequest.t) : list Effect :=
  if SubscriberRequest.request c then [WaitNotifyStop r; RequestDispose r] else [].

(** The reasons [onNotify] answers with a new attempt. *)
Definition retrying (reason_ : string) : bool :=
  String.eqb reason_ "deactivated" || String.eqb reason_ "timeout"
  || String.eqb reason_ "probation" || String.eqb reason_ "giveup".

(** Every coordinator and every SUBSCRIBE sent carries the message [m],
    which is also the one a new coordinator would get. *)
Definition uniform (m : OutgoingRequestMessage) (w : World) : Prop :=
  fresh_message w = m /\
  (forall r c, requests w !! r = Some c -> SubscriberRequest.message c = m) /\
  Forall (fun rm => snd rm = m) (sent w).

(** Terminated and disposed. *)
Definition ended (w : World) : Prop :=
  _state (this w) = SubscriptionState.Terminated /\ _disposed (this w) = true.

(** The three callbacks of the core that report a failed attempt of
    the coordinator [r]. *)
Definition failure_of (r : nat) (e : Input) : Prop :=
  e = CoreNotifyTimeout r \/ (exists x, e = CoreRedirect r x) \/ (exists x, e = CoreReject r x).

(** The SUBSCRIBE sent, the first NOTIFY awaited. *)
Definition waiting_world : World := run [AppSubscribe] fresh_world.

(** Unsubscribed while waiting. *)
Definition ended_world : World := run [AppUnsubscribe] waiting_world.

(** Subscribed, then told to give up and retry after 30. *)
Definition retrying_world : World := final (onNotify giveup_notify subscribed_world).

Definition rejected_notify : IncomingNotifyRequest :=
  {| notify := 2%nat; Subscription_State := Some (terminated_with "rejected" None) |}.

(** The coordinator of [subscribed_world]: its SUBSCRIBE sent, its
    promise resolved by the first NOTIFY with the dialog 5. *)
Definition subscribed_coordinator : SubscriberRequest.t :=
  SubscriberRequest.set_settled
    (Some (Success {| request := first_notify; subscription := Some 5%nat |}))
    (SubscriberRequest.set_subscription (Some 5%nat) (fresh_coordinator fresh_world true)).

(** The dialog 5 of [subscribed_world]. *)
Definition active_dialog : Dialog :=
  {| subscriptionState := SubscriptionDialogState.Active; autoRefresh := true;
     dialog_delegate := EngineDelegate |}.
End SubscriberSpec.

(** * Properties *)

(** ** Reasoning about computations *)

Module MonadFacts.

Lemma stable_bind {S A B} (P : S -> Prop) (c : M S A) (k : A -> M S B) :
  stable P c -> (forall a, stable P (k a)) -> stable P (bind c k).
Proof.
  intros Hc Hk s Hs. unfold bind, final in *. specialize (Hc s Hs).
  destruct (c s) as [[a|e] s']; simpl in *; [apply Hk|]; assumption.
Qed.

Lemma stable_ret {S A} (P : S -> Prop) (a : A) : stable P (@ret S A a).
Proof. intros s Hs. exact Hs. Qed.

Lemma stable_throw {S A} (P : S -> Prop) e : stable P (@throw S A e).
Proof. intros s Hs. exact Hs. Qed.

Lemma stable_when {S} (P : S -> Prop) b c : stable P c -> stable P (when b c).
Proof. destruct b; intros; [assumption | apply stable_ret]. Qed.

Lemma bind_Return {S A B} (c : M S A) (k : A -> M S B) s a s' :
  c s = (Return a, s') -> bind c k s = k a s'.
Proof. intros H. unfold bind. rewrite H. reflexivity. Qed.

Lemma final_then_ret {S A B} (c : M S A) (b : B) s :
  final (bind c (fun _ => ret b) s) = final (c s).
Proof. unfold bind, ret, final. destruct (c s) as [[a|e] s']; reflexivity. Qed.

Lemma outcome_then_ret {S A B} (c : M S A) (b : B) s a :
  outcome (c s) = Return a -> outcome (bind c (fun _ => ret b) s) = Return b.
Proof.
  unfold bind, ret, outcome. destruct (c s) as [[a'|e] s']; [reflexivity | discriminate].
Qed.

End MonadFacts.

Create HintDb stable discriminated.

(** Stability of a method follows its text: the methods proved before
    come from the hint base, the primitives that leave the property's
    fields alone are stable by computation. *)
Ltac stable_auto :=
  repeat first
    [ solve [auto with stable]
    | apply MonadFacts.stable_ret
    | apply MonadFacts.stable_throw
    | apply MonadFacts.stable_bind; [|intros ?]
    | apply MonadFacts.stable_when
    | match goal with
      | |- stable _ (match ?x with _ => _ end) => destruct x
      end
    | solve [intros ? H; exact H] ].

(** The condition a conditional is stuck on. *)
Ltac bool_atom b :=
  lazymatch b with
  | negb ?c => bool_atom c
  | andb ?c _ => bool_atom c
  | orb ?c _ => bool_atom c
  | _ => b
  end.

Ltac no_match a :=
  lazymatch a with
  | context [match _ with _ => _ end] => fail
  | _ => idtac
  end.

(** ** Numbers *)

Module JsFacts.
Import Js.

Lemma typeof_Number n : String.eqb (typeof (Number n)) "number" = true.
Proof. reflexivity. Qed.

Lemma typeof_number (v : value) : typeof v = "number"%string <-> exists n, v = Number n.
Proof.
  split.
  - destruct v; try discriminate. eauto.
  - intros [n ->]. reflexivity.
Qed.

Lemma Qtrunc_inject_Z (q : Q) (z : Z) : Qeq q (inject_Z z) -> Qtrunc q = z.
Proof.
  unfold Qeq, Qtrunc. simpl. intros H.
  rewrite Z.mul_1_r in H. rewrite H. apply Z.quot_mul. discriminate.
Qed.

Lemma Qdiv_one (q : Q) : Qeq (q / 1) q.
Proof.
  unfold Qeq, Qdiv, Qmult, Qinv. simpl. rewrite !Z.mul_1_r, Pos.mul_1_r. reflexivity.
Qed.

(** [q % 1 === 0] exactly when [q] is an integer. *)
Lemma rem_1_zero (q : Q) :
  strict_eq (rem (Finite q) 1%Z) 0%Z = true <-> is_integer (Finite q).
Proof.
  unfold is_integer, rem, of_Z, strict_eq.
  change (Qeq_bool (inject_Z 1) 0) with false. cbv iota.
  rewrite Qeq_bool_iff. change (inject_Z 0) with 0%Q. change (inject_Z 1) with 1%Q.
  split.
  - intros H. exists (Qtrunc (q / 1)).
    rewrite <- (Qplus_0_r (inject_Z _)). rewrite <- H. ring.
  - intros [z Hz].
    rewrite (Qtrunc_inject_Z (q / 1) z).
    + rewrite Hz. ring.
    + rewrite (Qdiv_one q). exact Hz.
Qed.

(** NaN and the infinities have remainder NaN, which is not [=== 0]. *)
Lemma rem_1_integer (n : number) :
  strict_neq (rem n 1%Z) 0%Z = false <-> is_integer n.
Proof.
  unfold strict_neq. rewrite negb_false_iff.
  destruct n as [| s | q]; [| | apply rem_1_zero];
    (split; [discriminate | intros [z []]]).
Qed.

Lemma is_integer_of_Z (z : Z) : is_integer (of_Z z).
Proof. exists z. reflexivity. Qed.

(** Between zero and zero there is zero only. *)
Lemma zero_in_range e :
  ge e 0%Z = true -> le e 0%Z = true -> strict_eq e 0%Z = true.
Proof.
  destruct e as [|[]|q]; try discriminate.
  unfold ge, le, strict_eq, of_Z. rewrite !Qle_bool_iff, Qeq_bool_iff.
  intros H0 H1. apply Qle_antisym; assumption.
Qed.

Lemma Qred_inject_Z (q : Q) (z : Z) : Qeq q (inject_Z z) -> Qred q = inject_Z z.
Proof.
  intros H. rewrite (Qred_complete _ _ H). unfold Qred, inject_Z.
  pose proof (Z.ggcd_gcd z 1) as Hg. pose proof (Z.ggcd_correct_divisors z 1) as Hd.
  destruct (Z.ggcd z 1) as [g [aa bb]]. cbn [fst snd] in *.
  rewrite Z.gcd_1_r in Hg. subst g. destruct Hd as [Ha Hb].
  rewrite !Z.mul_1_l in *. subst. reflexivity.
Qed.

Lemma nearest_even_1 (z : Z) : nearest_even z 1 = z.
Proof. unfold nearest_even. rewrite Z.div_1_r, Z.mod_1_r. reflexivity. Qed.

(** The positive integers below [2^53] are doubles: rounding leaves
    them as they are. *)
Lemma round_integer (q : Q) (z : Z) :
  Qeq q (inject_Z z) -> (0 < z < 2 ^ 53)%Z ->
  exists q', round_to_double q = Finite q' /\ Qeq q' (inject_Z z).
Proof.
  intros Hq [H0 H53]. unfold round_to_double. rewrite (Qred_inject_Z q z Hq).
  cbn [inject_Z Qnum Qden]. rewrite (Z.abs_eq z) by lia.
  destruct (Z.eqb_spec z 0) as [|_]; [lia|].
  assert (Hl : (0 <= Z.log2 z < 53)%Z).
  { split; [apply Z.log2_nonneg | apply Z.log2_lt_pow2; lia]. }
  assert (Hf : floor_log2 z 1 = Z.log2 z).
  { unfold floor_log2, scaled. change (Z.log2 1) with 0%Z. rewrite Z.sub_0_r.
    destruct (Z.leb_spec 0 (Z.log2 z)) as [_|]; [|lia].
    destruct (Z.ltb_spec z (1 * 2 ^ Z.log2 z)) as [H|_]; [|reflexivity].
    pose proof (Z.log2_spec z H0). lia. }
  rewrite Hf. rewrite Z.max_l by lia.
  destruct (Z.ltb_spec z 0) as [|_]; [lia|].
  unfold scaled. destruct (Z.leb_spec 0 (Z.log2 z - 52)) as [He|He].
  - assert (E : (Z.log2 z - 52 = 0)%Z) by lia. rewrite E.
    change (1 * 2 ^ 0)%Z with 1%Z. rewrite nearest_even_1.
    rewrite Z.pow_0_r, !Z.mul_1_r, Z.mul_1_l.
    destruct (Z.leb_spec (2 ^ 1024) z) as [H|_].
    + exfalso. assert (2 ^ 53 < 2 ^ 1024)%Z by (apply Z.pow_lt_mono_r; lia). lia.
    + eexists. split; reflexivity.
  - rewrite nearest_even_1. eexists. split; [reflexivity|].
    unfold Qeq. cbn [Qnum Qden inject_Z].
    rewrite Z2Pos.id by (apply Z.pow_pos_nonneg; lia). lia.
Qed.

(** For a whole number of seconds from 1 to 2386092, the product with
    900 is exact: it is nine tenths of the seconds in milliseconds, and
    at most [2^31 - 1], the longest delay [setTimeout] takes as it is. *)
Lemma mul_900 (q : Q) (z : Z) :
  Qeq q (inject_Z z) -> (0 < z <= 2386092)%Z ->
  exists ms,
    mul (Finite q) 900%Z = Finite ms /\
    (ms == (9 # 10) * q * 1000)%Q /\
    (ms == inject_Z (900 * z))%Q /\
    (900 * z <= 2147483647)%Z.
Proof.
  intros Hq Hz. unfold mul, of_Z.
  assert (Hp : Qeq (q * inject_Z 900) (inject_Z (900 * z))).
  { rewrite Hq, <- inject_Z_mult. rewrite Z.mul_comm. reflexivity. }
  assert (H53 : (0 < 900 * z < 2 ^ 53)%Z).
  { change (2 ^ 53)%Z with 9007199254740992%Z. lia. }
  destruct (round_integer _ _ Hp H53) as (ms & Hr & Hms).
  exists ms. split; [exact Hr|]. split; [|split; [exact Hms | lia]].
  rewrite Hms, <- Hp. change (inject_Z 900) with (900 # 1). field.
Qed.

End JsFacts.

(** ** The publication engine *)

Module PublisherFacts.
Import Core Publisher PublisherSpec.
Local Open Scope js_scope.

(** *** Running a method on an arbitrary world *)

Ltac reduce1 :=
  cbv beta iota zeta delta
    [bind ret throw get modify when final outcome fst snd
     read assign log warn setTimeout clearTimeout emit clearRefreshTimer send
     sendPublishRequest unpublish publish dispose stateTransition refreshRequest
     giveUp receiveResponse
     event options target pubRequestBody pubRequestExpires pubRequestEtag
     publishRefreshTimer disposed id request _state
     body contentType expires extraHeaders params unpublishOnClose
     this self _publishers aor timeouts next_handle sent emitted logged
     set_body set_options set_pubRequestBody set_pubRequestExpires set_pubRequestEtag
     set_publishRefreshTimer set_disposed set_request set__state
     set_this set__publishers set_timeouts set_next_handle set_sent set_emitted set_logged
     statusCode header_SIP_ETag header_Expires header_Min_Expires
     handle delay callback fromUri toUri no_params
     PublisherState_eqb option_map from_option Js.defined
     transitioned marked_disposed refresh_at granted_by in_range publish_message] in *;
  cbn [negb andb orb] in *;
  rewrite ?JsFacts.typeof_Number, ?andb_false_r, ?andb_true_r, ?orb_false_r, ?orb_true_r in *.
Ltac reduce := repeat (progress reduce1).

Ltac split_ifs :=
  repeat match goal with
  | |- context [(match ?x with _ => _ end) _] =>
      is_var x; destruct x; try discriminate; reduce
  | |- context [let (_, _) := (match ?x with _ => _ end) in _] =>
      is_var x; destruct x; try discriminate; reduce
  | |- context [if ?b then _ else _] =>
      match b with
      | context [match ?x with _ => _ end] =>
          is_var x; destruct x; try discriminate; reduce
      end
  | |- context [if ?b then _ else _] =>
      let a := bool_atom b in
      no_match a;
      first [ match goal with H : a = _ |- _ => rewrite H end
            | let E := fresh "E" in destruct a eqn:E; try discriminate E ];
      reduce
  end.

Ltac open_world w :=
  destruct w as [[ev [o_body o_ct o_exp o_hdrs o_params o_close]
                   tg p_body p_exp p_etag p_timer p_disposed p_id p_req p_state]
                 w_self w_pubs w_aor w_timeouts w_next w_sent w_emitted w_logged].

(** *** Status codes *)

Lemma codes_between_In lo n z : (lo <= z < lo + Z.of_nat n)%Z -> In z (codes_between lo n).
Proof.
  intros H. unfold codes_between. apply in_map_iff.
  exists (Z.to_nat (z - lo)). split; [lia|]. apply in_seq. lia.
Qed.

(** The codes 200 to 299 are those whose decimal form the second
    pattern of the [switch] matches, and the first does not. *)
Lemma status_2xx code :
  (200 <= code <= 299)%Z ->
  Js.test_class "1" (Js.toString code) = false /\
  Js.test_class "2" (Js.toString code) = true.
Proof.
  intros H.
  assert (Hall : forallb (fun z => negb (Js.test_class "1" (Js.toString z))
                                   && Js.test_class "2" (Js.toString z))
                   (codes_between 200 100) = true) by (vm_compute; reflexivity).
  rewrite forallb_forall in Hall.
  specialize (Hall code (codes_between_In 200 100 code ltac:(lia))).
  apply andb_true_iff in Hall as [H1 H2]. apply negb_true_iff in H1. auto.
Qed.

Ltac enter_2xx Hc Hr :=
  let H1 := fresh in let H2 := fresh in
  destruct (status_2xx _ Hr) as [H1 H2];
  unfold receiveResponse; cbv zeta; rewrite Hc;
  change (default 0%Z (Some ?c)) with c;
  rewrite H1, H2; clear H1 H2.

Ltac enter_code Hc :=
  unfold receiveResponse; cbv zeta; rewrite Hc;
  change (default 0%Z (Some ?c)) with c;
  match goal with
  | |- context [Js.toString ?c] =>
      let s := eval vm_compute in (Js.toString c) in
      change (Js.toString c) with s
  end;
  change (Js.test_class "1" _) with false;
  change (Js.test_class "2" _) with false;
  cbv beta iota delta [Js.test_exact];
  repeat match goal with
  | |- context [String.eqb ?a ?b] =>
      let v := eval vm_compute in (String.eqb a b) in
      change (String.eqb a b) with v
  end;
  cbv iota.

(** *** The terminal state *)

Lemma stateTransition_from_Terminated newState w :
  _state (this w) = Terminated ->
  stateTransition newState w =
    (Throw ("Invalid state transition from Terminated to " +:+ show newState), w).
Proof.
  intros H. unfold stateTransition, bind, read. rewrite H. reflexivity.
Qed.

Lemma terminated_clearRefreshTimer : stable terminated clearRefreshTimer.
Proof. unfold clearRefreshTimer. stable_auto. Qed.
#[local] Hint Resolve terminated_clearRefreshTimer : stable.

Lemma terminated_sendPublishRequest : stable terminated sendPublishRequest.
Proof. unfold sendPublishRequest. stable_auto. Qed.
#[local] Hint Resolve terminated_sendPublishRequest : stable.

Lemma terminated_unpublish : stable terminated unpublish.
Proof. unfold unpublish. stable_auto. Qed.
#[local] Hint Resolve terminated_unpublish : stable.

Lemma terminated_publish c : stable terminated (publish c).
Proof. unfold publish. stable_auto. Qed.
#[local] Hint Resolve terminated_publish : stable.

Lemma terminated_dispose : stable terminated dispose.
Proof. unfold dispose. stable_auto. Qed.
#[local] Hint Resolve terminated_dispose : stable.

Lemma terminated_refreshRequest : stable terminated refreshRequest.
Proof. unfold refreshRequest. stable_auto. Qed.
#[local] Hint Resolve terminated_refreshRequest : stable.

Lemma terminated_stateTransition s : stable terminated (stateTransition s).
Proof.
  intros w Hw. rewrite stateTransition_from_Terminated by exact Hw. exact Hw.
Qed.
#[local] Hint Resolve terminated_stateTransition : stable.

Lemma terminated_giveUp : stable terminated giveUp.
Proof. unfold giveUp. stable_auto. Qed.
#[local] Hint Resolve terminated_giveUp : stable.

Lemma terminated_receiveResponse r : stable terminated (receiveResponse r).
Proof. unfold receiveResponse. stable_auto. Qed.
#[local] Hint Resolve terminated_receiveResponse : stable.

Lemma terminated_fire h : stable terminated (fire h).
Proof.
  intros w Hw. unfold fire. destruct (List.find _ _) as [[h' d []]|]; [|exact Hw].
  revert w Hw. change (stable terminated (bind (clearTimeout h) (fun _ => refreshRequest))).
  stable_auto.
Qed.
#[local] Hint Resolve terminated_fire : stable.

Lemma terminated_perform e : stable terminated (perform e).
Proof. destruct e; unfold perform; stable_auto. Qed.

Lemma terminated_run events w : terminated w -> terminated (run events w).
Proof.
  revert w. induction events as [|e events IH]; intros w Hw; [exact Hw|].
  apply IH, terminated_perform, Hw.
Qed.

(** C5. For every publisher whose state is Terminated, an attempted
    transition to any state throws the invalid-transition error and
    leaves the publisher and its surroundings as they were; and whatever
    the application, the core and the timers do afterwards, the state
    stays Terminated. *)
Theorem C5_terminated_is_final w :
  _state (this w) = Terminated ->
  (forall newState,
     stateTransition newState w =
       (Throw ("Invalid state transition from Terminated to " +:+ show newState), w)) /\
  (forall events, _state (this (run events w)) = Terminated).
Proof.
  intros H. split.
  - intros newState. apply stateTransition_from_Terminated, H.
  - intros events. apply terminated_run, H.
Qed.

(** C5 on the publisher a 500 terminated. *)
Lemma C5_witness :
  _state (this terminated_world) = Terminated /\
  (forall newState,
     stateTransition newState terminated_world =
       (Throw ("Invalid state transition from Terminated to " +:+ show newState),
        terminated_world)) /\
  (forall events, _state (this (run events terminated_world)) = Terminated).
Proof.
  split; [reflexivity | apply (C5_terminated_is_final terminated_world); reflexivity].
Defined.

(** *** Reaching the terminal state disposes *)

Lemma stateTransition_to_Terminated w :
  _state (this w) <> Terminated ->
  stateTransition Terminated w = (Return tt, final (dispose (transitioned Terminated w))).
Proof.
  intros H. open_world w. reduce.
  destruct p_state; try congruence; reduce; split_ifs; reflexivity.
Qed.

(** C9. From every state but Terminated the transition to Terminated
    succeeds and ends with the call of [dispose()]: afterwards the
    publisher is marked disposed and the collection no longer holds it
    under its identifier (given that a publisher already disposed was
    not in the collection before), and a further [dispose()] returns a
    settled promise and changes nothing. *)
Theorem C9_termination_disposes w :
  registered_consistently w ->
  _state (this w) <> Terminated ->
  exists w',
    stateTransition Terminated w = (Return tt, w') /\
    w' = final (dispose (transitioned Terminated w)) /\
    _state (this w') = Terminated /\
    disposed (this w') = true /\
    _publishers w' !! id (this w') <> Some (self w') /\
    dispose w' = (Return (Js.Resolved tt), w').
Proof.
  intros Hc Hs. eexists. split; [apply stateTransition_to_Terminated, Hs|].
  split; [reflexivity|].
  unfold registered_consistently in Hc.
  open_world w. reduce.
  split_ifs; repeat split; auto; try (apply Hc; reflexivity);
    rewrite lookup_delete_eq; discriminate.
Qed.

(** C9 on the published publication. *)
Lemma C9_witness :
  registered_consistently published_world /\
  _state (this published_world) <> Terminated /\
  exists w',
    stateTransition Terminated published_world = (Return tt, w') /\
    _state (this w') = Terminated /\
    disposed (this w') = true /\
    _publishers w' !! id (this w') <> Some (self w') /\
    dispose w' = (Return (Js.Resolved tt), w').
Proof.
  assert (Hc : registered_consistently published_world) by (intros H; discriminate H).
  assert (Hs : _state (this published_world) <> Terminated) by discriminate.
  split; [exact Hc|]. split; [exact Hs|].
  destruct (C9_termination_disposes published_world Hc Hs)
    as (w' & H1 & _ & H3 & H4 & H5 & H6).
  exists w'. repeat split; assumption.
Defined.

(** The premise above holds of every world the constructor and the
    inputs lead to. *)

Lemma registered_dispose : stable registered_consistently dispose.
Proof.
  intros w Hw. unfold registered_consistently in *. open_world w. reduce.
  split_ifs; intros _; try (apply Hw; reflexivity); rewrite lookup_delete_eq; discriminate.
Qed.
#[local] Hint Resolve registered_dispose : stable.

Lemma registered_clearRefreshTimer : stable registered_consistently clearRefreshTimer.
Proof. unfold clearRefreshTimer. stable_auto. Qed.
#[local] Hint Resolve registered_clearRefreshTimer : stable.

Lemma registered_sendPublishRequest : stable registered_consistently sendPublishRequest.
Proof. unfold sendPublishRequest. stable_auto. Qed.
#[local] Hint Resolve registered_sendPublishRequest : stable.

Lemma registered_unpublish : stable registered_consistently unpublish.
Proof. unfold unpublish. stable_auto. Qed.
#[local] Hint Resolve registered_unpublish : stable.

Lemma registered_publish c : stable registered_consistently (publish c).
Proof. unfold publish. stable_auto. Qed.
#[local] Hint Resolve registered_publish : stable.

Lemma registered_refreshRequest : stable registered_consistently refreshRequest.
Proof. unfold refreshRequest. stable_auto. Qed.
#[local] Hint Resolve registered_refreshRequest : stable.

Lemma registered_stateTransition s : stable registered_consistently (stateTransition s).
Proof. unfold stateTransition. stable_auto. Qed.
#[local] Hint Resolve registered_stateTransition : stable.

Lemma registered_giveUp : stable registered_consistently giveUp.
Proof. unfold giveUp. stable_auto. Qed.
#[local] Hint Resolve registered_giveUp : stable.

Lemma registered_receiveResponse r : stable registered_consistently (receiveResponse r).
Proof. unfold receiveResponse. stable_auto. Qed.
#[local] Hint Resolve registered_receiveResponse : stable.

Lemma registered_fire h : stable registered_consistently (fire h).
Proof.
  intros w Hw. unfold fire. destruct (List.find _ _) as [[h' d []]|]; [|exact Hw].
  revert w Hw.
  change (stable registered_consistently (bind (clearTimeout h) (fun _ => refreshRequest))).
  stable_auto.
Qed.
#[local] Hint Resolve registered_fire : stable.

Lemma registered_perform e : stable registered_consistently (perform e).
Proof. destruct e; unfold perform; stable_auto. Qed.

Lemma registered_constructor publishers0 aor0 self0 targetURI eventType o :
  registered_consistently (constructor publishers0 aor0 self0 targetURI eventType o).
Proof. intros H. discriminate H. Qed.

Lemma registered_run events w :
  registered_consistently w -> registered_consistently (run events w).
Proof.
  revert w. induction events as [|e events IH]; intros w Hw; [exact Hw|].
  apply IH, registered_perform, Hw.
Qed.

(** *** 2xx *)

Lemma receive_2xx w r code :
  statusCode r = Some code -> (200 <= code <= 299)%Z ->
  pubRequestExpires (this (final (receiveResponse r w)))
    = granted_by r (pubRequestExpires (this w)) /\
  (Js.strict_neq (granted_by r (pubRequestExpires (this w))) 0%Z = true ->
     timeouts (final (receiveResponse r w))
       = timeouts w ++ [refresh_at w (granted_by r (pubRequestExpires (this w)))] /\
     publishRefreshTimer (this (final (receiveResponse r w))) = Some (next_handle w)).
Proof.
  intros Hc Hr. enter_2xx Hc Hr.
  open_world w. destruct r as [sc etag hexp hmin].
  unfold Js.strict_neq. reduce. split_ifs.
  all: split; [reflexivity | intros; try discriminate; split; reflexivity].
Qed.

(** C4, as amended. For every publication and every response with a
    status from 200 to 299: if its Expires value [e] satisfies
    [0 <= e <= requested], the expiry becomes [e]; if the header is
    absent or out of range, the expiry stays what it was; and when the
    resulting expiry is not zero, one timeout for the refresh is added,
    stored in [publishRefreshTimer], whose delay is the product of the
    resulting expiry and 900, as doubles multiply. When the resulting
    expiry is a whole number of seconds from 1 to 2386092, that delay
    is exactly nine tenths of it, in milliseconds, and within the
    range of delays that [setTimeout] takes as they are. *)
Theorem C4_granted_expiry_and_refresh w r code :
  statusCode r = Some code -> (200 <= code <= 299)%Z ->
  (forall e, header_Expires r = Some e ->
     Js.ge e 0%Z = true -> Js.le e (pubRequestExpires (this w)) = true ->
     pubRequestExpires (this (final (receiveResponse r w))) = e) /\
  ((header_Expires r = None \/
    exists e, header_Expires r = Some e /\
              Js.ge e 0%Z && Js.le e (pubRequestExpires (this w)) = false) ->
     pubRequestExpires (this (final (receiveResponse r w))) = pubRequestExpires (this w)) /\
  (Js.strict_neq (pubRequestExpires (this (final (receiveResponse r w)))) 0%Z = true ->
     timeouts (final (receiveResponse r w))
       = timeouts w ++
         [{| handle := next_handle w;
             delay := Js.mul (pubRequestExpires (this (final (receiveResponse r w)))) 900%Z;
             callback := CallRefreshRequest |}] /\
     publishRefreshTimer (this (final (receiveResponse r w))) = Some (next_handle w)) /\
  (forall q z,
     pubRequestExpires (this (final (receiveResponse r w))) = Js.Finite q ->
     (q == inject_Z z)%Q -> (0 < z <= 2386092)%Z ->
     exists ms,
       Js.mul (pubRequestExpires (this (final (receiveResponse r w)))) 900%Z = Js.Finite ms /\
       (ms == (9 # 10) * q * 1000)%Q /\
       (ms == inject_Z (900 * z))%Q /\
       (900 * z <= 2147483647)%Z).
Proof.
  intros Hc Hr. destruct (receive_2xx w r code Hc Hr) as [Hg Ht].
  rewrite Hg. unfold granted_by, in_range in *. repeat split.
  - intros e He H0 H1. now rewrite He, H0, H1.
  - intros [Hn | (e & He & Hb)]; [now rewrite Hn | now rewrite He, Hb].
  - apply Ht. assumption.
  - apply Ht. assumption.
  - intros q z -> Hq Hz. apply (JsFacts.mul_900 q z Hq Hz).
Qed.

(** C4, as amended, on a 200 that grants 1800 of the 3600 requested:
    the refresh is due after 1620000 ms. *)
Lemma C4_witness :
  statusCode (response 200 (Some "E1") (Some 1800%Z) None) = Some 200%Z /\
  (200 <= 200 <= 299)%Z /\
  pubRequestExpires (this requested_3600_world) = Js.of_Z 3600 /\
  pubRequestExpires
    (this (final (receiveResponse (response 200 (Some "E1") (Some 1800%Z) None)
                    requested_3600_world)))
    = Js.of_Z 1800 /\
  timeouts (final (receiveResponse (response 200 (Some "E1") (Some 1800%Z) None)
                     requested_3600_world))
    = [{| handle := 1%positive;
          delay := Js.mul (Js.of_Z 1800) 900%Z;
          callback := CallRefreshRequest |}] /\
  (exists ms,
     Js.mul (Js.of_Z 1800) 900%Z = Js.Finite ms /\ (ms == inject_Z (1620 * 1000))%Q).
Proof.
  split; [reflexivity|]. split; [lia|]. split; [reflexivity|].
  destruct (C4_granted_expiry_and_refresh requested_3600_world
              (response 200 (Some "E1") (Some 1800%Z) None) 200 eq_refl ltac:(lia))
    as (Hin & _ & Ht & Hms).
  specialize (Hin (Js.of_Z 1800) eq_refl eq_refl eq_refl).
  split; [exact Hin|]. rewrite Hin in Ht, Hms.
  destruct (Ht eq_refl) as [Htimeouts _].
  split; [exact Htimeouts|].
  destruct (Hms (inject_Z 1800) 1800%Z eq_refl ltac:(reflexivity) ltac:(lia))
    as (ms & H1 & _ & H3 & _).
  exists ms. split; [exact H1 | exact H3].
Defined.

(** C4 as the specification words it fails. With [2^1023] requested (a
    double and an integer, so the constructor keeps it) and granted, the
    product with 900 is an infinity: the delay handed to [setTimeout]
    is no nine tenths of anything. With 3600 requested and the double
    nearest to 0.07 granted, the product is rounded: the delay is not
    the nine tenths of the granted expiry either, but the double next
    to it. *)
Lemma C4_delay_is_a_rounded_product :
  pubRequestExpires (this requested_huge_world) = Js.of_Z (2 ^ 1023) /\
  Js.ge (Js.of_Z (2 ^ 1023)) 0%Z = true /\
  Js.le (Js.of_Z (2 ^ 1023)) (pubRequestExpires (this requested_huge_world)) = true /\
  pubRequestExpires
    (this (final (receiveResponse (response 200 (Some "E1") (Some (2 ^ 1023)%Z) None)
                    requested_huge_world)))
    = Js.of_Z (2 ^ 1023) /\
  List.map delay
    (timeouts (final (receiveResponse (response 200 (Some "E1") (Some (2 ^ 1023)%Z) None)
                        requested_huge_world)))
    = [Js.Infinity false] /\
  Js.ge seven_hundredths 0%Z = true /\
  Js.le seven_hundredths (pubRequestExpires (this requested_3600_world)) = true /\
  pubRequestExpires
    (this (final (receiveResponse
                    {| statusCode := Some 200%Z; header_SIP_ETag := Some "E1";
                       header_Expires := Some seven_hundredths;
                       header_Min_Expires := None |}
                    requested_3600_world)))
    = seven_hundredths /\
  List.map (fun t => Js.strict_eq (delay t) (Js.Finite ((9 # 10) * (7 # 100) * 1000)))
    (timeouts (final (receiveResponse
                        {| statusCode := Some 200%Z; header_SIP_ETag := Some "E1";
                           header_Expires := Some seven_hundredths;
                           header_Min_Expires := None |}
                        requested_3600_world)))
    = [false] /\
  List.map (fun t => Js.strict_eq (delay t)
                       (Js.Finite ((9 # 10) * (5044031582654956 # 72057594037927936) * 1000)))
    (timeouts (final (receiveResponse
                        {| statusCode := Some 200%Z; header_SIP_ETag := Some "E1";
                           header_Expires := Some seven_hundredths;
                           header_Min_Expires := None |}
                        requested_3600_world)))
    = [false].
Proof. vm_compute. repeat split. Qed.

(** *** The body, once published *)

#[local] Hint Extern 1 (stable has_published (assign (set_options (set_body (Some _))))) =>
  (intros ? [? ?]; split; [eexists; reflexivity | assumption]) : stable.

Lemma published_clearRefreshTimer : stable has_published clearRefreshTimer.
Proof. unfold clearRefreshTimer. stable_auto. Qed.
#[local] Hint Resolve published_clearRefreshTimer : stable.

Lemma published_sendPublishRequest : stable has_published sendPublishRequest.
Proof. unfold sendPublishRequest. stable_auto. Qed.
#[local] Hint Resolve published_sendPublishRequest : stable.

Lemma published_unpublish : stable has_published unpublish.
Proof. unfold unpublish. stable_auto. Qed.
#[local] Hint Resolve published_unpublish : stable.

Lemma published_publish c : stable has_published (publish c).
Proof. unfold publish. stable_auto. Qed.
#[local] Hint Resolve published_publish : stable.

Lemma published_dispose : stable has_published dispose.
Proof. unfold dispose. stable_auto. Qed.
#[local] Hint Resolve published_dispose : stable.

Lemma published_refreshRequest : stable has_published refreshRequest.
Proof. unfold refreshRequest. stable_auto. Qed.
#[local] Hint Resolve published_refreshRequest : stable.

Lemma published_stateTransition s : stable has_published (stateTransition s).
Proof. unfold stateTransition. stable_auto. Qed.
#[local] Hint Resolve published_stateTransition : stable.

Lemma published_giveUp : stable has_published giveUp.
Proof. unfold giveUp. stable_auto. Qed.
#[local] Hint Resolve published_giveUp : stable.

Lemma published_receiveResponse r : stable has_published (receiveResponse r).
Proof. unfold receiveResponse. stable_auto. Qed.
#[local] Hint Resolve published_receiveResponse : stable.

Lemma published_fire h : stable has_published (fire h).
Proof.
  intros w Hw. unfold fire. destruct (List.find _ _) as [[h' d []]|]; [|exact Hw].
  revert w Hw.
  change (stable has_published (bind (clearTimeout h) (fun _ => refreshRequest))).
  stable_auto.
Qed.
#[local] Hint Resolve published_fire : stable.

Lemma published_perform e : stable has_published (perform e).
Proof. destruct e; unfold perform; stable_auto. Qed.

Lemma published_run events w : has_published w -> has_published (run events w).
Proof.
  revert w. induction events as [|e events IH]; intros w Hw; [exact Hw|].
  apply IH, published_perform, Hw.
Qed.

Lemma publish_sets_body content w :
  is_Some (contentType (options (this w))) ->
  has_published (final (publish content w)).
Proof.
  intros [ct Hct]. unfold has_published. open_world w. reduce. subst.
  split_ifs; split; eexists; reflexivity.
Qed.

Lemma run_AppPublish content events w :
  run (AppPublish content :: events) w = run events (final (publish content w)).
Proof.
  unfold run at 1. cbn [fold_left perform]. fold (run events).
  f_equal. unfold bind, final. destruct (publish content w) as [[a|e] w']; reflexivity.
Qed.

(** From the first [publish] on, whatever happens, the options of a
    publisher hold a body and a content type: that premise of the 412
    and 423 arms is met whenever a response can arrive. *)
Lemma published_after_publish publishers0 aor0 self0 targetURI eventType o content events :
  has_published
    (run (AppPublish content :: events)
       (constructor publishers0 aor0 self0 targetURI eventType o)).
Proof.
  rewrite run_AppPublish. apply published_run, publish_sets_body.
  eexists. reflexivity.
Qed.

(** *** 412 *)

Lemma receive_412_recovers w r etag b ct :
  statusCode r = Some 412%Z ->
  pubRequestEtag (this w) = Some etag ->
  Js.strict_neq (pubRequestExpires (this w)) 0%Z = true ->
  body (options (this w)) = Some b ->
  contentType (options (this w)) = Some ct ->
  outcome (receiveResponse r w) = Return tt /\
  sent (final (receiveResponse r w))
    = sent w ++ [publish_message w (pubRequestExpires (this w)) None
                   (Some (fromBodyLegacy {| bc_body := b; bc_contentType := ct |}))] /\
  pubRequestEtag (this (final (receiveResponse r w))) = None /\
  pubRequestExpires (this (final (receiveResponse r w))) = pubRequestExpires (this w) /\
  body (options (this (final (receiveResponse r w)))) = Some b /\
  _state (this (final (receiveResponse r w))) = _state (this w) /\
  emitted (final (receiveResponse r w)) = emitted w.
Proof.
  intros Hc He Hx Hb Hct. enter_code Hc.
  open_world w. unfold Js.strict_neq in *. reduce.
  subst. destruct (Js.strict_eq p_exp 0%Z) eqn:E; [discriminate|]. reduce.
  split_ifs; rewrite <- ?app_assoc; repeat split.
Qed.

Lemma receive_412_gives_up w r :
  statusCode r = Some 412%Z ->
  pubRequestEtag (this w) = None \/ Js.strict_eq (pubRequestExpires (this w)) 0%Z = true ->
  pubRequestExpires (this (final (receiveResponse r w))) = Js.of_Z 0 /\
  sent (final (receiveResponse r w)) = sent w /\
  match _state (this w) with
  | Initial | Published =>
      outcome (receiveResponse r w) = Return tt /\
      emitted (final (receiveResponse r w)) = emitted w ++ [Unpublished; Terminated] /\
      _state (this (final (receiveResponse r w))) = Terminated
  | s =>
      outcome (receiveResponse r w)
        = Throw ("Invalid state transition from " +:+ show s +:+ " to Unpublished") /\
      emitted (final (receiveResponse r w)) = emitted w /\
      _state (this (final (receiveResponse r w))) = s
  end.
Proof.
  intros Hc Hn. enter_code Hc.
  open_world w. unfold Js.strict_neq in *. reduce.
  change (Js.strict_eq 0%Z 0%Z) with true.
  destruct Hn as [-> | ->]; reduce;
    destruct p_state; reduce; split_ifs; rewrite <- ?app_assoc; repeat split.
Qed.

Lemma no_SIP_If_Match w seconds b t :
  ~ In (SIP_If_Match t) (headers (publish_message w seconds None b)).
Proof.
  unfold publish_message, headers. cbv zeta. rewrite !in_app_iff, in_map_iff.
  intros [(x & Hx & _) | [[Hx | []] | [[Hx | []] | []]]]; discriminate Hx.
Qed.

(** What a 412 does, state by state. If the publication
    holds an entity tag, its expiry is not zero and its options hold a
    body and a content type, the entity tag is cleared and exactly one
    PUBLISH is sent, with that body, the same expiry and no
    SIP-If-Match line, the state staying what it was; if it holds no
    entity tag or its expiry is zero, the expiry is forced to 0,
    nothing is sent, and from Initial or Published the state moves to
    Unpublished and then Terminated, while from Unpublished or
    Terminated the first transition throws and the state stays. *)
Lemma receive_412_in_every_state w r :
  statusCode r = Some 412%Z ->
  (forall etag b ct,
     pubRequestEtag (this w) = Some etag ->
     Js.strict_neq (pubRequestExpires (this w)) 0%Z = true ->
     body (options (this w)) = Some b ->
     contentType (options (this w)) = Some ct ->
     outcome (receiveResponse r w) = Return tt /\
     pubRequestEtag (this (final (receiveResponse r w))) = None /\
     (exists m,
        sent (final (receiveResponse r w)) = sent w ++ [m] /\
        message_body m = Some (fromBodyLegacy {| bc_body := b; bc_contentType := ct |}) /\
        In (Expires (pubRequestExpires (this w))) (headers m) /\
        forall t, ~ In (SIP_If_Match t) (headers m)) /\
     _state (this (final (receiveResponse r w))) = _state (this w)) /\
  (pubRequestEtag (this w) = None \/ Js.strict_eq (pubRequestExpires (this w)) 0%Z = true ->
     pubRequestExpires (this (final (receiveResponse r w))) = Js.of_Z 0 /\
     sent (final (receiveResponse r w)) = sent w /\
     match _state (this w) with
     | Initial | Published =>
         outcome (receiveResponse r w) = Return tt /\
         emitted (final (receiveResponse r w)) = emitted w ++ [Unpublished; Terminated] /\
         _state (this (final (receiveResponse r w))) = Terminated
     | s =>
         outcome (receiveResponse r w)
           = Throw ("Invalid state transition from " +:+ show s +:+ " to Unpublished") /\
         emitted (final (receiveResponse r w)) = emitted w /\
         _state (this (final (receiveResponse r w))) = s
     end).
Proof.
  intros Hc. split.
  - intros etag b ct He Hx Hb Hct.
    destruct (receive_412_recovers w r etag b ct Hc He Hx Hb Hct)
      as (Ho & Hs & Ht & _ & _ & Hst & _).
    repeat split; try assumption.
    eexists. split; [exact Hs|]. split; [reflexivity|]. split.
    + unfold publish_message, headers. cbv zeta. rewrite !in_app_iff.
      right. right. left. now left.
    + intros t. apply no_SIP_If_Match.
  - apply receive_412_gives_up, Hc.
Qed.

(** C7. The code at the failing input. The refresh timeout of the
    published publication fires and the refresh is sent; the
    application unpublishes, and the 200 that answers the removal
    arrives first, which leaves the publication Unpublished with no
    entity tag. The 412 that then answers the refresh takes the arm
    that is to force the expiry to 0 and move to Unpublished and then
    Terminated: its first transition, from Unpublished to Unpublished,
    throws, so the publication is still Unpublished and not disposed,
    and no state is emitted, where the specification has it
    Terminated. *)
Theorem C7_no_termination_from_Unpublished :
  _state (this unpublished_world) = Unpublished /\
  pubRequestEtag (this unpublished_world) = None /\
  outcome (receiveResponse (response 412 None None None) unpublished_world)
    = Throw "Invalid state transition from Unpublished to Unpublished" /\
  pubRequestExpires
    (this (final (receiveResponse (response 412 None None None) unpublished_world)))
    = Js.of_Z 0 /\
  _state (this (final (receiveResponse (response 412 None None None) unpublished_world)))
    = Unpublished /\
  disposed (this (final (receiveResponse (response 412 None None None) unpublished_world)))
    = false /\
  emitted (final (receiveResponse (response 412 None None None) unpublished_world))
    = emitted unpublished_world.
Proof. vm_compute. repeat split. Qed.

(** *** 423 *)

(** Whatever the Min-Expires value, greater than the expiry requested
    or not, the 423 arm adopts it and publishes again. *)
Lemma receive_423_retries w r m b ct :
  statusCode r = Some 423%Z ->
  header_Min_Expires r = Some m ->
  Js.strict_neq (pubRequestExpires (this w)) 0%Z = true ->
  Js.strict_neq m 0%Z = true ->
  body (options (this w)) = Some b ->
  contentType (options (this w)) = Some ct ->
  outcome (receiveResponse r w) = Return tt /\
  pubRequestExpires (this (final (receiveResponse r w))) = m /\
  sent (final (receiveResponse r w))
    = sent w ++ [publish_message w m (pubRequestEtag (this w))
                   (Some (fromBodyLegacy {| bc_body := b; bc_contentType := ct |}))] /\
  _state (this (final (receiveResponse r w))) = _state (this w) /\
  emitted (final (receiveResponse r w)) = emitted w.
Proof.
  intros Hc Hm Hx Hm0 Hb Hct. enter_code Hc.
  open_world w. destruct r as [sc etag hexp hmin].
  unfold Js.strict_neq in *. reduce. subst.
  destruct (Js.strict_eq p_exp 0%Z) eqn:E; [discriminate|].
  destruct (Js.strict_eq m 0%Z) eqn:E'; [discriminate|]. reduce.
  split_ifs; repeat split; destruct p_etag; rewrite <- ?app_assoc, ?app_nil_r; reflexivity.
Qed.

(** C1. The code at the failing input: 60 was requested and the 423
    carries Min-Expires 30, which is not greater. The engine adopts 30
    and sends a second PUBLISH with Expires 30 and the same body; the
    state stays Initial and no transition is emitted, where the
    specification has the expiry forced to 0 and the publication
    terminated without a resend. *)
Theorem C1_min_expires_below_request_still_retries :
  Js.le 30%Z (pubRequestExpires (this requested_60_world)) = true /\
  outcome (receiveResponse (response 423 None None (Some 30%Z)) requested_60_world)
    = Return tt /\
  pubRequestExpires
    (this (final (receiveResponse (response 423 None None (Some 30%Z)) requested_60_world)))
    = Js.of_Z 30 /\
  sent (final (receiveResponse (response 423 None None (Some 30%Z)) requested_60_world))
    = sent requested_60_world ++
      [publish_message requested_60_world 30%Z None
         (Some (fromBodyLegacy {| bc_body := "doc"; bc_contentType := "text/plain" |}))] /\
  _state (this (final (receiveResponse (response 423 None None (Some 30%Z)) requested_60_world)))
    = Initial /\
  emitted (final (receiveResponse (response 423 None None (Some 30%Z)) requested_60_world))
    = [].
Proof. vm_compute. repeat split. Qed.

(** *** dispose *)

Lemma receive_2xx_after_unpublish w r code :
  statusCode r = Some code -> (200 <= code <= 299)%Z ->
  pubRequestExpires (this w) = Js.of_Z 0 ->
  _state (this w) = Published ->
  _state (this (final (receiveResponse r w))) = Unpublished.
Proof.
  intros Hc Hr Hx Hs. enter_2xx Hc Hr.
  open_world w. destruct r as [sc etag hexp hmin].
  unfold Js.strict_neq. reduce. subst.
  change (Js.strict_eq 0%Z 0%Z) with true.
  split_ifs; try reflexivity.
  all: match goal with
       | H0 : Js.ge ?e _ = true, H1 : Js.le ?e _ = true, H2 : Js.strict_eq ?e _ = false |- _ =>
           rewrite (JsFacts.zero_in_range e H0 H1) in H2; discriminate H2
       end.
Qed.

Lemma dispose_Published w :
  disposed (this w) = false ->
  _state (this w) = Published ->
  unpublishOnClose (options (this w)) = Some true ->
  dispose w = (Return (Js.Resolved tt), final (unpublish (marked_disposed w))) /\
  _state (this (final (dispose w))) = Published /\
  emitted (final (dispose w)) = emitted w /\
  disposed (this (final (dispose w))) = true /\
  pubRequestExpires (this (final (dispose w))) = Js.of_Z 0 /\
  sent (final (dispose w))
    = sent w ++ match pubRequestEtag (this w) with
                | Some etag => [publish_message w 0%Z (Some etag) None]
                | None => []
                end.
Proof.
  intros Hd Hs Hu. open_world w. reduce. subst.
  split_ifs; repeat split; rewrite <- ?app_assoc, ?app_nil_r; reflexivity.
Qed.

(** C3, as amended. For every publisher not yet disposed, in state
    Published and with unpublishOnClose true, [dispose()] runs
    [unpublish()], which sends the removal PUBLISH (Expires 0 and the
    SIP-If-Match line) when an entity tag is held, and returns a
    promise that is already settled: the state is still Published and
    no state has been emitted when it returns. The transition comes
    with the response: a 2xx then moves the state to Unpublished. *)
Theorem C3_dispose_unpublishes_without_waiting w :
  disposed (this w) = false ->
  _state (this w) = Published ->
  unpublishOnClose (options (this w)) = Some true ->
  dispose w = (Return (Js.Resolved tt), final (unpublish (marked_disposed w))) /\
  sent (final (dispose w))
    = sent w ++ match pubRequestEtag (this w) with
                | Some etag => [publish_message w 0%Z (Some etag) None]
                | None => []
                end /\
  _state (this (final (dispose w))) = Published /\
  emitted (final (dispose w)) = emitted w /\
  (forall r code,
     statusCode r = Some code -> (200 <= code <= 299)%Z ->
     _state (this (final (receiveResponse r (final (dispose w))))) = Unpublished).
Proof.
  intros Hd Hs Hu.
  destruct (dispose_Published w Hd Hs Hu) as (H1 & H2 & H3 & H4 & H5 & H6).
  repeat split; try assumption.
  intros r code Hc Hr. apply (receive_2xx_after_unpublish _ r code); assumption.
Qed.

(** C3, as amended, on the published publication. *)
Lemma C3_witness :
  disposed (this published_world) = false /\
  _state (this published_world) = Published /\
  unpublishOnClose (options (this published_world)) = Some true /\
  sent (final (dispose published_world))
    = sent published_world ++ [publish_message published_world 0%Z (Some "E1") None] /\
  _state (this (final (dispose published_world))) = Published.
Proof.
  split; [reflexivity|]. split; [reflexivity|]. split; [reflexivity|].
  destruct (C3_dispose_unpublishes_without_waiting published_world
              eq_refl eq_refl eq_refl) as (_ & Hs & Hst & _).
  split; [exact Hs | exact Hst].
Defined.

(** C3 as the specification words it fails: on the published
    publication [dispose()] returns a promise that is settled while
    the state is still Published and no transition has been emitted. *)
Lemma C3_promise_settled_before_any_transition :
  disposed (this published_world) = false /\
  _state (this published_world) = Published /\
  unpublishOnClose (options (this published_world)) = Some true /\
  outcome (dispose published_world) = Return (Js.Resolved tt) /\
  _state (this (final (dispose published_world))) = Published /\
  emitted (final (dispose published_world)) = emitted published_world.
Proof. vm_compute. repeat split. Qed.

(** *** The constructor *)

Lemma constructor_expires_spec (v : Js.value) :
  ((forall n, v = Js.Number n -> ~ Js.is_integer n) ->
     constructor_expires v = Js.of_Z 3600) /\
  (constructor_expires v = Js.of_Z 3600 \/
   exists n, v = Js.Number n /\ Js.is_integer n /\ constructor_expires v = n) /\
  Js.is_integer (constructor_expires v).
Proof.
  destruct v as [| | b | n | s |]; cbn [constructor_expires];
    try (repeat split; [left; reflexivity | apply JsFacts.is_integer_of_Z]).
  change (negb (Js.typeof (Js.Number n) =? "number")%string) with false.
  cbn [orb].
  destruct (Js.strict_neq (Js.rem n 1%Z) 0%Z) eqn:E.
  - repeat split; [left; reflexivity | apply JsFacts.is_integer_of_Z].
  - apply JsFacts.rem_1_integer in E. repeat split.
    + intros H. now destruct (H n eq_refl).
    + right. exists n. auto.
    + exact E.
Qed.

Example constructor_expires_examples :
  constructor_expires (Js.Number (Js.Finite (7201 # 2))) = Js.of_Z 3600 /\
  constructor_expires (Js.Number Js.NaN) = Js.of_Z 3600 /\
  constructor_expires (Js.String "3600") = Js.of_Z 3600 /\
  constructor_expires Js.Undefined = Js.of_Z 3600 /\
  constructor_expires (Js.Number (Js.of_Z 60)) = Js.of_Z 60.
Proof. repeat split. Qed.

(** C10. For every [options.expires]: if it is not a number, or is a
    number that is not an integer (3600.5, NaN, an infinity), the
    constructor stores 3600; the expiry it starts with is therefore
    always an integer, the default 3600 or the integer the caller
    gave, and it is also what [options.expires] holds from then on. *)
Theorem C10_constructor_expires publishers0 aor0 self0 targetURI eventType o :
  ((forall n, arg_expires o = Js.Number n -> ~ Js.is_integer n) ->
     pubRequestExpires (this (constructor publishers0 aor0 self0 targetURI eventType o))
       = Js.of_Z 3600) /\
  (pubRequestExpires (this (constructor publishers0 aor0 self0 targetURI eventType o))
     = Js.of_Z 3600 \/
   exists n, arg_expires o = Js.Number n /\ Js.is_integer n /\
     pubRequestExpires (this (constructor publishers0 aor0 self0 targetURI eventType o)) = n) /\
  Js.is_integer
    (pubRequestExpires (this (constructor publishers0 aor0 self0 targetURI eventType o))) /\
  expires (options (this (constructor publishers0 aor0 self0 targetURI eventType o)))
    = Some (pubRequestExpires
              (this (constructor publishers0 aor0 self0 targetURI eventType o))).
Proof.
  destruct (constructor_expires_spec (arg_expires o)) as (H1 & H2 & H3).
  repeat split; assumption.
Qed.

(** C10 on a caller who asks for 3600.5: the publisher starts with
    3600. *)
Lemma C10_witness :
  pubRequestExpires
    (this (constructor ∅ "sip:me@example.com" 7%nat "sip:alice@example.com" "presence"
             fractional_options))
    = Js.of_Z 3600.
Proof.
  apply (C10_constructor_expires ∅ "sip:me@example.com" 7%nat "sip:alice@example.com"
           "presence" fractional_options).
  intros n H. injection H as <-. intros Hi.
  apply JsFacts.rem_1_integer in Hi. vm_compute in Hi. discriminate Hi.
Defined.

(** ** Further properties of the publication engine *)

(** *** The state machine *)

(** X1. [stateTransition] lets through exactly the moves Initial to
    Published, Unpublished or Terminated, Published to Unpublished or
    Terminated, and Unpublished to Published or Terminated. A move it
    lets through sets the state and emits it once, sending nothing;
    any other (a move to Initial, a move to the state already held,
    any move from Terminated) throws the invalid-transition error and
    changes nothing. *)
Theorem X1_stateTransition_table w newState :
  (allowed (_state (this w)) newState = true ->
     outcome (stateTransition newState w) = Return tt /\
     _state (this (final (stateTransition newState w))) = newState /\
     emitted (final (stateTransition newState w)) = emitted w ++ [newState] /\
     sent (final (stateTransition newState w)) = sent w) /\
  (allowed (_state (this w)) newState = false ->
     stateTransition newState w
       = (Throw ("Invalid state transition from " +:+ show (_state (this w))
                 +:+ " to " +:+ show newState), w)).
Proof.
  open_world w. reduce.
  destruct p_state, newState; cbn [allowed]; split; intros H; try discriminate H;
    reduce; split_ifs; repeat split.
Qed.

(** X1 on the published publication: it may become Unpublished, it may
    not become Published again. *)
Lemma X1_witness :
  _state (this (final (stateTransition Unpublished published_world))) = Unpublished /\
  outcome (stateTransition Published published_world)
    = Throw "Invalid state transition from Published to Published".
Proof.
  split.
  - destruct (X1_stateTransition_table published_world Unpublished) as [H _].
    destruct (H eq_refl) as (_ & Hs & _). exact Hs.
  - destruct (X1_stateTransition_table published_world Published) as [_ H].
    rewrite (H eq_refl). reflexivity.
Defined.

(** *** dispose *)

(** X2. [dispose()] never throws, always leaves the publisher marked
    disposed, never changes the state and never emits one; a second
    [dispose()] returns a settled promise and changes nothing. *)
Theorem X2_dispose_is_idempotent w :
  outcome (dispose w) = Return (Js.Resolved tt) /\
  disposed (this (final (dispose w))) = true /\
  _state (this (final (dispose w))) = _state (this w) /\
  emitted (final (dispose w)) = emitted w /\
  dispose (final (dispose w)) = (Return (Js.Resolved tt), final (dispose w)).
Proof.
  open_world w. reduce. split_ifs; repeat split.
Qed.

(** X3. On a publisher not yet disposed whose [unpublishOnClose] is
    not true or whose state is not Published, [dispose()] sends
    nothing: it takes the publisher out of the collection, clears the
    pending refresh timeout and forgets the body, the expiry and the
    entity tag. *)
Theorem X3_dispose_without_unpublish w :
  disposed (this w) = false ->
  unpublishOnClose (options (this w)) <> Some true \/ _state (this w) <> Published ->
  outcome (dispose w) = Return (Js.Resolved tt) /\
  sent (final (dispose w)) = sent w /\
  _publishers (final (dispose w)) = delete (id (this w)) (_publishers w) /\
  timeouts (final (dispose w)) = cancelled (publishRefreshTimer (this w)) (timeouts w) /\
  publishRefreshTimer (this (final (dispose w))) = None /\
  pubRequestBody (this (final (dispose w))) = None /\
  pubRequestExpires (this (final (dispose w))) = Js.of_Z 0 /\
  pubRequestEtag (this (final (dispose w))) = None.
Proof.
  intros Hd Hu. open_world w. reduce. subst.
  destruct Hu as [Hu | Hu].
  - destruct o_close as [[]|]; [congruence| |]; reduce; split_ifs; repeat split.
  - destruct p_state; try congruence; reduce; split_ifs; repeat split.
Qed.

(** X3 on a publication whose first PUBLISH is not answered yet. *)
Lemma X3_witness :
  disposed (this requested_3600_world) = false /\
  _state (this requested_3600_world) <> Published /\
  sent (final (dispose requested_3600_world)) = sent requested_3600_world /\
  pubRequestExpires (this (final (dispose requested_3600_world))) = Js.of_Z 0.
Proof.
  assert (Hs : _state (this requested_3600_world) <> Published) by discriminate.
  split; [reflexivity|]. split; [exact Hs|].
  destruct (X3_dispose_without_unpublish requested_3600_world eq_refl (or_intror Hs))
    as (_ & H2 & _ & _ & _ & _ & H7 & _).
  split; [exact H2 | exact H7].
Defined.

(** *** publish, unpublish and the refresh *)

Lemma publish_modifies w content ct :
  contentType (options (this w)) = Some ct ->
  Js.strict_neq (pubRequestExpires (this w)) 0%Z = true ->
  outcome (publish content w) = Return (Js.Resolved tt) /\
  sent (final (publish content w))
    = sent w ++ [publish_message w (pubRequestExpires (this w)) (pubRequestEtag (this w))
                   (Some (fromBodyLegacy {| bc_body := content; bc_contentType := ct |}))] /\
  body (options (this (final (publish content w)))) = Some content /\
  pubRequestExpires (this (final (publish content w))) = pubRequestExpires (this w) /\
  pubRequestEtag (this (final (publish content w))) = pubRequestEtag (this w) /\
  _state (this (final (publish content w))) = _state (this w) /\
  emitted (final (publish content w)) = emitted w /\
  publishRefreshTimer (this (final (publish content w))) = None /\
  timeouts (final (publish content w)) = cancelled (publishRefreshTimer (this w)) (timeouts w).
Proof.
  intros Hct Hx. open_world w. unfold Js.strict_neq in *. reduce. subst.
  destruct (Js.strict_eq p_exp 0%Z) eqn:E; [discriminate|].
  split_ifs; rewrite ?E; reduce; destruct p_etag; rewrite <- ?app_assoc; repeat split.
Qed.

Lemma publish_restarts w content ct :
  contentType (options (this w)) = Some ct ->
  Js.strict_eq (pubRequestExpires (this w)) 0%Z = true ->
  (forall x, expires (options (this w)) = Some x ->
     outcome (publish content w) = Return (Js.Resolved tt) /\
     sent (final (publish content w))
       = sent w ++ [publish_message w x None
                      (Some (fromBodyLegacy {| bc_body := content; bc_contentType := ct |}))] /\
     pubRequestExpires (this (final (publish content w))) = x /\
     pubRequestEtag (this (final (publish content w))) = None /\
     _state (this (final (publish content w))) = _state (this w)) /\
  (expires (options (this w)) = None ->
     outcome (publish content w) = Throw "Expires undefined." /\
     sent (final (publish content w)) = sent w).
Proof.
  intros Hct Hx. open_world w. reduce. subst.
  split.
  - intros x ->. split_ifs; rewrite ?Hx; reduce; rewrite <- ?app_assoc; repeat split.
  - intros ->. split_ifs; rewrite ?Hx; reduce; repeat split.
Qed.

(** X4. While the expiry is not zero, [publish(content)] sends exactly
    one PUBLISH that carries the content with the configured content
    type, the current expiry and, when an entity tag is held, its
    SIP-If-Match line; it stores the content in the options, clears
    the pending refresh timeout, and changes neither the expiry, the
    entity tag nor the state. *)
Theorem X4_publish_sends_the_content w content ct :
  contentType (options (this w)) = Some ct ->
  Js.strict_neq (pubRequestExpires (this w)) 0%Z = true ->
  outcome (publish content w) = Return (Js.Resolved tt) /\
  sent (final (publish content w))
    = sent w ++ [publish_message w (pubRequestExpires (this w)) (pubRequestEtag (this w))
                   (Some (fromBodyLegacy {| bc_body := content; bc_contentType := ct |}))] /\
  body (options (this (final (publish content w)))) = Some content /\
  pubRequestExpires (this (final (publish content w))) = pubRequestExpires (this w) /\
  pubRequestEtag (this (final (publish content w))) = pubRequestEtag (this w) /\
  _state (this (final (publish content w))) = _state (this w) /\
  emitted (final (publish content w)) = emitted w /\
  publishRefreshTimer (this (final (publish content w))) = None /\
  timeouts (final (publish content w)) = cancelled (publishRefreshTimer (this w)) (timeouts w).
Proof. apply publish_modifies. Qed.

(** X4 on the published publication: the modification carries the
    entity tag E1 and the 1800 granted, and the refresh timeout is
    gone. *)
Lemma X4_witness :
  sent (final (publish "doc2" published_world))
    = sent published_world
        ++ [publish_message published_world (Js.of_Z 1800) (Some "E1")
              (Some (fromBodyLegacy {| bc_body := "doc2"; bc_contentType := "text/plain" |}))] /\
  timeouts (final (publish "doc2" published_world)) = [].
Proof.
  destruct (X4_publish_sends_the_content published_world "doc2" "text/plain" eq_refl eq_refl)
    as (_ & H2 & _ & _ & _ & _ & _ & _ & H9).
  split; [exact H2 | exact H9].
Defined.

(** X5. When the expiry is zero (after [unpublish()] or [dispose()]),
    [publish(content)] starts afresh: it takes the expiry from
    [options.expires], drops the entity tag and sends one PUBLISH with
    the content and no SIP-If-Match line. Were [options.expires]
    undefined, it would throw [Expires undefined.] and send nothing. *)
Theorem X5_publish_after_unpublish w content ct :
  contentType (options (this w)) = Some ct ->
  Js.strict_eq (pubRequestExpires (this w)) 0%Z = true ->
  (forall x, expires (options (this w)) = Some x ->
     outcome (publish content w) = Return (Js.Resolved tt) /\
     sent (final (publish content w))
       = sent w ++ [publish_message w x None
                      (Some (fromBodyLegacy {| bc_body := content; bc_contentType := ct |}))] /\
     pubRequestExpires (this (final (publish content w))) = x /\
     pubRequestEtag (this (final (publish content w))) = None) /\
  (expires (options (this w)) = None ->
     outcome (publish content w) = Throw "Expires undefined." /\
     sent (final (publish content w)) = sent w).
Proof.
  intros Hct Hx. destruct (publish_restarts w content ct Hct Hx) as [H1 H2].
  split; [|exact H2].
  intros x Hxo. destruct (H1 x Hxo) as (P1 & P2 & P3 & P4 & _). auto.
Qed.

(** X5 on the publication being removed, which still holds E1: the
    new PUBLISH asks for the 3600 configured and has no SIP-If-Match
    line. *)
Lemma X5_witness :
  pubRequestEtag (this removing_world) = Some "E1" /\
  sent (final (publish "doc2" removing_world))
    = sent removing_world
        ++ [publish_message removing_world (Js.of_Z 3600) None
              (Some (fromBodyLegacy {| bc_body := "doc2"; bc_contentType := "text/plain" |}))].
Proof.
  split; [reflexivity|].
  destruct (X5_publish_after_unpublish removing_world "doc2" "text/plain" eq_refl eq_refl)
    as [H _].
  destruct (H (Js.of_Z 3600) eq_refl) as (_ & H2 & _). exact H2.
Defined.

Lemma unpublish_removes w :
  outcome (unpublish w) = Return (Js.Resolved tt) /\
  pubRequestExpires (this (final (unpublish w))) = Js.of_Z 0 /\
  pubRequestBody (this (final (unpublish w))) = None /\
  pubRequestEtag (this (final (unpublish w))) = pubRequestEtag (this w) /\
  publishRefreshTimer (this (final (unpublish w))) = None /\
  timeouts (final (unpublish w)) = cancelled (publishRefreshTimer (this w)) (timeouts w) /\
  _state (this (final (unpublish w))) = _state (this w) /\
  emitted (final (unpublish w)) = emitted w /\
  sent (final (unpublish w))
    = sent w ++ match pubRequestEtag (this w) with
                | Some etag => [publish_message w 0%Z (Some etag) None]
                | None => []
                end.
Proof.
  open_world w. reduce. split_ifs; rewrite <- ?app_assoc, ?app_nil_r; repeat split.
Qed.

(** X7. [unpublish()] never throws and never changes the state. It
    sets the expiry to zero and clears the pending refresh timeout;
    when an entity tag is held it sends exactly one PUBLISH with
    Expires 0, the SIP-If-Match line and no body, and keeps the tag
    until the response; when none is held it sends nothing. *)
Theorem X7_unpublish_sends_the_removal w :
  outcome (unpublish w) = Return (Js.Resolved tt) /\
  pubRequestExpires (this (final (unpublish w))) = Js.of_Z 0 /\
  pubRequestEtag (this (final (unpublish w))) = pubRequestEtag (this w) /\
  publishRefreshTimer (this (final (unpublish w))) = None /\
  timeouts (final (unpublish w)) = cancelled (publishRefreshTimer (this w)) (timeouts w) /\
  _state (this (final (unpublish w))) = _state (this w) /\
  emitted (final (unpublish w)) = emitted w /\
  sent (final (unpublish w))
    = sent w ++ match pubRequestEtag (this w) with
                | Some etag => [publish_message w 0%Z (Some etag) None]
                | None => []
                end.
Proof.
  destruct (unpublish_removes w) as (H1 & H2 & _ & H4 & H5 & H6 & H7 & H8 & H9).
  repeat split; assumption.
Qed.



(** *** Timeouts that were cleared *)

Lemma find_cancelled h (l : list Timeout) :
  List.find (fun t => Pos.eqb (handle t) h)
    (List.filter (fun t => negb (Pos.eqb (handle t) h)) l) = None.
Proof.
  induction l as [|t l IH]; [reflexivity|]. cbn.
  destruct (Pos.eqb (handle t) h) eqn:E; cbn; [exact IH|]. rewrite E. exact IH.
Qed.

Lemma fire_not_pending h w :
  List.find (fun t => Pos.eqb (handle t) h) (timeouts w) = None ->
  fire h w = (Return tt, w).
Proof. intros H. unfold fire. rewrite H. reflexivity. Qed.

(** X9. The refresh timeout stored in [publishRefreshTimer] does
    nothing any more once [publish], [unpublish] or [dispose] has
    run, or once it has fired: were its handle to fire afterwards,
    nothing would be sent and nothing would change. *)
Theorem X9_cancelled_refresh_never_fires w h :
  publishRefreshTimer (this w) = Some h ->
  (forall content,
     fire h (final (publish content w)) = (Return tt, final (publish content w))) /\
  fire h (final (unpublish w)) = (Return tt, final (unpublish w)) /\
  (disposed (this w) = false ->
   fire h (final (dispose w)) = (Return tt, final (dispose w))) /\
  fire h (final (fire h w)) = (Return tt, final (fire h w)).
Proof.
  intros Ht. repeat split.
  - intros content. apply fire_not_pending.
    open_world w. reduce. subst. split_ifs; apply find_cancelled.
  - apply fire_not_pending.
    open_world w. reduce. subst. split_ifs; apply find_cancelled.
  - intros Hd. apply fire_not_pending.
    open_world w. reduce. subst. split_ifs; apply find_cancelled.
  - apply fire_not_pending. unfold fire.
    destruct (List.find _ (timeouts w)) as [[h' d []]|] eqn:E; [|exact E].
    open_world w. reduce. subst. split_ifs; rewrite ?find_cancelled; try reflexivity.
Qed.

(** X9 on the published publication, whose refresh is the timeout 1. *)
Lemma X9_witness :
  publishRefreshTimer (this published_world) = Some 1%positive /\
  fire 1%positive (final (unpublish published_world))
    = (Return tt, final (unpublish published_world)).
Proof.
  split; [reflexivity|].
  destruct (X9_cancelled_refresh_never_fires published_world 1%positive eq_refl)
    as (_ & H & _).
  exact H.
Defined.

(** *** Responses *)


Lemma status_unexpected code :
  (0 <= code <= 999)%Z -> unexpected code = true ->
  Js.test_class "1" (Js.toString code) = false /\
  Js.test_class "2" (Js.toString code) = false /\
  Js.test_exact "412" (Js.toString code) = false /\
  Js.test_exact "423" (Js.toString code) = false.
Proof.
  intros H Hu.
  assert (Hall : forallb (fun z => implb (unexpected z)
                   (negb (Js.test_class "1" (Js.toString z))
                    && negb (Js.test_class "2" (Js.toString z))
                    && negb (Js.test_exact "412" (Js.toString z))
                    && negb (Js.test_exact "423" (Js.toString z))))
                   (codes_between 0 1000) = true) by (vm_compute; reflexivity).
  rewrite forallb_forall in Hall.
  specialize (Hall code (codes_between_In 0 1000 code ltac:(lia))).
  rewrite Hu in Hall. cbn [implb] in Hall.
  repeat (apply andb_true_iff in Hall as [Hall ?]).
  repeat split; apply negb_true_iff; assumption.
Qed.



Ltac gives_up :=
  unfold given_up, cancelled; reduce;
  change (Js.strict_eq 0%Z 0%Z) with true;
  match goal with
  | |- context [match ?s with Initial => _ | _ => _ end] =>
      destruct s; reduce; split_ifs; rewrite <- ?app_assoc; repeat split
  end.

(** X11. A response whose status is none of 100 to 299, 412 and 423
    (a missing status counts as 0) is unrecoverable: the expiry is
    forced to zero and nothing is sent; from Initial or Published the
    publication moves to Unpublished and then Terminated, is disposed
    and loses its refresh timer, entity tag and body; from Unpublished
    or Terminated the first transition throws and the state stays. *)
Theorem X11_unexpected_status_terminates w r :
  (0 <= default 0%Z (statusCode r) <= 999)%Z ->
  unexpected (default 0%Z (statusCode r)) = true ->
  given_up w (final (receiveResponse r w)) (outcome (receiveResponse r w)).
Proof.
  intros Hr Hu. destruct (status_unexpected _ Hr Hu) as (H1 & H2 & H3 & H4).
  unfold receiveResponse. cbv zeta. rewrite H1, H2, H3, H4.
  open_world w. gives_up.
Qed.

(** X11 on a 404 that reaches the published publication. *)
Lemma X11_witness :
  _state (this (final (receiveResponse (response 404 None None None) published_world)))
    = Terminated /\
  emitted (final (receiveResponse (response 404 None None None) published_world))
    = emitted published_world ++ [Unpublished; Terminated].
Proof.
  destruct (X11_unexpected_status_terminates published_world (response 404 None None None)
              ltac:(cbn; lia) eq_refl) as (_ & _ & H).
  cbn [_state this published_world] in H.
  change (_state (this published_world)) with Published in H.
  destruct H as (_ & He & Hs & _). split; [exact Hs | exact He].
Defined.

Ltac use_equations H :=
  repeat match goal with
  | E : ?a = _ |- _ =>
      match type of H with context [a] => rewrite E in H; cbn [andb] in H end
  end.

(** X12. A 2xx response that leaves a nonzero expiry stores the entity
    tag of its SIP-ETag header (keeping the one held when the header
    is missing), sends nothing and makes the publication Published:
    silently when it was Published already, with one state event from
    Initial or Unpublished. On a Terminated publication the transition
    throws and the state stays Terminated. *)
Theorem X12_success_publishes w r code :
  statusCode r = Some code -> (200 <= code <= 299)%Z ->
  Js.strict_neq (granted_by r (pubRequestExpires (this w))) 0%Z = true ->
  pubRequestEtag (this (final (receiveResponse r w)))
    = match header_SIP_ETag r with
      | Some etag => Some etag
      | None => pubRequestEtag (this w)
      end /\
  sent (final (receiveResponse r w)) = sent w /\
  match _state (this w) with
  | Published =>
      outcome (receiveResponse r w) = Return tt /\
      _state (this (final (receiveResponse r w))) = Published /\
      emitted (final (receiveResponse r w)) = emitted w
  | Initial | Unpublished =>
      outcome (receiveResponse r w) = Return tt /\
      _state (this (final (receiveResponse r w))) = Published /\
      emitted (final (receiveResponse r w)) = emitted w ++ [Published]
  | Terminated =>
      outcome (receiveResponse r w)
        = Throw "Invalid state transition from Terminated to Published" /\
      _state (this (final (receiveResponse r w))) = Terminated /\
      emitted (final (receiveResponse r w)) = emitted w
  end.
Proof.
  intros Hc Hr Hg. enter_2xx Hc Hr.
  open_world w. destruct r as [sc etag hexp hmin].
  unfold Js.strict_neq in *. reduce. apply negb_true_iff in Hg.
  destruct p_state, hexp; reduce; split_ifs.
  all: use_equations Hg; try congruence.
  all: repeat split.
Qed.

(** X12 on the 200 that answers the first PUBLISH. *)
Lemma X12_witness :
  _state (this requested_3600_world) = Initial /\
  pubRequestEtag
    (this (final (receiveResponse (response 200 (Some "E1") (Some 1800%Z) None)
                    requested_3600_world))) = Some "E1" /\
  emitted (final (receiveResponse (response 200 (Some "E1") (Some 1800%Z) None)
                    requested_3600_world)) = [Published].
Proof.
  split; [reflexivity|].
  destruct (X12_success_publishes requested_3600_world
              (response 200 (Some "E1") (Some 1800%Z) None) 200 eq_refl ltac:(lia) eq_refl)
    as (He & _ & H).
  change (_state (this requested_3600_world)) with Initial in H.
  destruct H as (_ & _ & Hm). split; [exact He | exact Hm].
Defined.

Lemma receive_2xx_zero w r code :
  statusCode r = Some code -> (200 <= code <= 299)%Z ->
  Js.strict_eq (granted_by r (pubRequestExpires (this w))) 0%Z = true ->
  sent (final (receiveResponse r w)) = sent w /\
  match _state (this w) with
  | Initial | Published =>
      outcome (receiveResponse r w) = Return tt /\
      _state (this (final (receiveResponse r w))) = Unpublished /\
      emitted (final (receiveResponse r w)) = emitted w ++ [Unpublished] /\
      pubRequestEtag (this (final (receiveResponse r w))) = None /\
      pubRequestBody (this (final (receiveResponse r w))) = None /\
      publishRefreshTimer (this (final (receiveResponse r w))) = None /\
      timeouts (final (receiveResponse r w))
        = cancelled (publishRefreshTimer (this w)) (timeouts w)
  | s =>
      outcome (receiveResponse r w)
        = Throw ("Invalid state transition from " +:+ show s +:+ " to Unpublished") /\
      _state (this (final (receiveResponse r w))) = s /\
      emitted (final (receiveResponse r w)) = emitted w /\
      timeouts (final (receiveResponse r w)) = timeouts w
  end.
Proof.
  intros Hc Hr Hg. enter_2xx Hc Hr.
  open_world w. destruct r as [sc etag hexp hmin].
  unfold Js.strict_neq in *. reduce.
  destruct p_state, hexp; reduce; split_ifs.
  all: use_equations Hg; try congruence.
  all: repeat split.
Qed.

(** X13. A 2xx response that leaves the expiry zero (the answer to a
    removal) sets no refresh timeout and sends nothing. From Initial
    or Published the publication becomes Unpublished, with one state
    event, and the entity tag, the body and the refresh timer are
    cleared. From Unpublished (a second such response) or Terminated
    the transition throws and nothing else changes. *)
Theorem X13_success_with_expiry_zero w r code :
  statusCode r = Some code -> (200 <= code <= 299)%Z ->
  Js.strict_eq (granted_by r (pubRequestExpires (this w))) 0%Z = true ->
  sent (final (receiveResponse r w)) = sent w /\
  match _state (this w) with
  | Initial | Published =>
      outcome (receiveResponse r w) = Return tt /\
      _state (this (final (receiveResponse r w))) = Unpublished /\
      emitted (final (receiveResponse r w)) = emitted w ++ [Unpublished] /\
      pubRequestEtag (this (final (receiveResponse r w))) = None /\
      pubRequestBody (this (final (receiveResponse r w))) = None /\
      publishRefreshTimer (this (final (receiveResponse r w))) = None /\
      timeouts (final (receiveResponse r w))
        = cancelled (publishRefreshTimer (this w)) (timeouts w)
  | s =>
      outcome (receiveResponse r w)
        = Throw ("Invalid state transition from " +:+ show s +:+ " to Unpublished") /\
      _state (this (final (receiveResponse r w))) = s /\
      emitted (final (receiveResponse r w)) = emitted w /\
      timeouts (final (receiveResponse r w)) = timeouts w
  end.
Proof. apply receive_2xx_zero. Qed.

(** X13 on the publication being removed, and on the second 200 that
    finds it Unpublished. *)
Lemma X13_witness :
  _state (this (final (receiveResponse (response 200 None None None) removing_world)))
    = Unpublished /\
  outcome (receiveResponse (response 200 None None None) unpublished_world)
    = Throw "Invalid state transition from Unpublished to Unpublished".
Proof.
  split.
  - destruct (X13_success_with_expiry_zero removing_world (response 200 None None None) 200
                eq_refl ltac:(lia) eq_refl) as [_ H].
    change (_state (this removing_world)) with Published in H.
    destruct H as (_ & Hs & _). exact Hs.
  - destruct (X13_success_with_expiry_zero unpublished_world (response 200 None None None) 200
                eq_refl ltac:(lia) eq_refl) as [_ H].
    change (_state (this unpublished_world)) with Unpublished in H.
    destruct H as (Ho & _). exact Ho.
Defined.

(** X14. A 423 that carries no Min-Expires header, or that finds the
    expiry zero, is unrecoverable in the same way as an unexpected
    status. *)
Theorem X14_interval_too_brief_without_minimum w r :
  statusCode r = Some 423%Z ->
  Js.strict_eq (pubRequestExpires (this w)) 0%Z = true \/ header_Min_Expires r = None ->
  given_up w (final (receiveResponse r w)) (outcome (receiveResponse r w)).
Proof.
  intros Hc Hn. enter_code Hc.
  open_world w. destruct r as [sc etag hexp hmin]. unfold Js.strict_neq in *. reduce.
  destruct Hn as [-> | ->]; reduce; [|destruct (Js.strict_eq p_exp 0%Z); reduce]; gives_up.
Qed.

(** X14 on a 423 without Min-Expires that answers the first PUBLISH. *)
Lemma X14_witness :
  sent (final (receiveResponse (response 423 None None None) requested_60_world))
    = sent requested_60_world /\
  _state (this (final (receiveResponse (response 423 None None None) requested_60_world)))
    = Terminated.
Proof.
  destruct (X14_interval_too_brief_without_minimum requested_60_world
              (response 423 None None None) eq_refl (or_intror eq_refl)) as (_ & Hs & H).
  change (_state (this requested_60_world)) with Initial in H.
  destruct H as (_ & _ & Ht & _). split; [exact Hs | exact Ht].
Defined.

(** *** What never changes *)

Lemma publish_message_settings w w' e etag b :
  settings w = settings w' -> publish_message w e etag b = publish_message w' e etag b.
Proof.
  unfold settings, publish_message. cbv zeta. intros H.
  injection H as H1 H2 H3 H4 H5 H6 H7. rewrite H1, H2, H3, H6, H7. reflexivity.
Qed.

Lemma settings_project w w' :
  settings w = settings w' ->
  contentType (options (this w)) = contentType (options (this w')) /\
  expires (options (this w)) = expires (options (this w')).
Proof. unfold settings. intros H. injection H as H1 H2 H3 H4 H5 H6 H7. auto. Qed.

#[local] Hint Extern 1 (stable (configured _) (assign (set_options (set_body _)))) =>
  (intros ? H; exact H) : stable.

Lemma configured_clearRefreshTimer s : stable (configured s) clearRefreshTimer.
Proof. unfold clearRefreshTimer. stable_auto. Qed.
#[local] Hint Resolve configured_clearRefreshTimer : stable.

Lemma configured_sendPublishRequest s : stable (configured s) sendPublishRequest.
Proof. unfold sendPublishRequest. stable_auto. Qed.
#[local] Hint Resolve configured_sendPublishRequest : stable.

Lemma configured_unpublish s : stable (configured s) unpublish.
Proof. unfold unpublish. stable_auto. Qed.
#[local] Hint Resolve configured_unpublish : stable.

Lemma configured_publish s c : stable (configured s) (publish c).
Proof. unfold publish. stable_auto. Qed.
#[local] Hint Resolve configured_publish : stable.

Lemma configured_dispose s : stable (configured s) dispose.
Proof. unfold dispose. stable_auto. Qed.
#[local] Hint Resolve configured_dispose : stable.

Lemma configured_refreshRequest s : stable (configured s) refreshRequest.
Proof. unfold refreshRequest. stable_auto. Qed.
#[local] Hint Resolve configured_refreshRequest : stable.

Lemma configured_stateTransition s x : stable (configured s) (stateTransition x).
Proof. unfold stateTransition. stable_auto. Qed.
#[local] Hint Resolve configured_stateTransition : stable.

Lemma configured_giveUp s : stable (configured s) giveUp.
Proof. unfold giveUp. stable_auto. Qed.
#[local] Hint Resolve configured_giveUp : stable.

Lemma configured_receiveResponse s r : stable (configured s) (receiveResponse r).
Proof. unfold receiveResponse. stable_auto. Qed.
#[local] Hint Resolve configured_receiveResponse : stable.

Lemma configured_fire s h : stable (configured s) (fire h).
Proof.
  intros w Hw. unfold fire. destruct (List.find _ _) as [[h' d []]|]; [|exact Hw].
  revert w Hw.
  change (stable (configured s) (bind (clearTimeout h) (fun _ => refreshRequest))).
  stable_auto.
Qed.
#[local] Hint Resolve configured_fire : stable.

Lemma configured_perform s e : stable (configured s) (perform e).
Proof. destruct e; unfold perform; stable_auto. Qed.

Lemma configured_run events w : settings (run events w) = settings w.
Proof.
  revert w. induction events as [|e events IH]; intros w; [reflexivity|].
  cbn [run fold_left]. fold (run events). rewrite IH.
  apply (configured_perform (settings w) e w). reflexivity.
Qed.

(** X16. Whatever the application, the core and the timers do, the
    event, the target, the content type, the configured expiry, the
    extra headers and the params of a publisher stay what they were:
    of the options only the body is ever overwritten, and the extra
    headers do not grow with the requests sent. *)
Theorem X16_settings_never_change events w :
  event (this (run events w)) = event (this w) /\
  target (this (run events w)) = target (this w) /\
  contentType (options (this (run events w))) = contentType (options (this w)) /\
  expires (options (this (run events w))) = expires (options (this w)) /\
  extraHeaders (options (this (run events w))) = extraHeaders (options (this w)) /\
  params (options (this (run events w))) = params (options (this w)).
Proof.
  pose proof (configured_run events w) as H. unfold settings in H.
  injection H as H1 H2 H3 H4 H5 H6 H7. repeat split; assumption.
Qed.

Lemma sendPublishRequest_sends w :
  settings (final (sendPublishRequest w)) = settings w /\
  (sent (final (sendPublishRequest w)) = sent w \/
   exists b,
     sent (final (sendPublishRequest w))
       = sent w ++ [publish_message w (pubRequestExpires (this w))
                      (pubRequestEtag (this w)) b]).
Proof.
  open_world w. reduce.
  split_ifs; (split; [reflexivity|]); first [left; reflexivity | right; eexists];
    destruct p_etag; rewrite <- ?app_assoc; reflexivity.
Qed.

Lemma publishes_sendPublishRequest w0 : stable (publishes_of w0) sendPublishRequest.
Proof.
  intros w [Hs Hf]. destruct (sendPublishRequest_sends w) as [Hs' [Hn | [b Hb]]].
  - split; [congruence | rewrite Hn; exact Hf].
  - split; [congruence|]. rewrite Hb. apply Forall_app. split; [exact Hf|].
    constructor; [|constructor]. do 3 eexists. apply publish_message_settings, Hs.
Qed.
#[local] Hint Resolve publishes_sendPublishRequest : stable.

#[local] Hint Extern 1 (stable (publishes_of _) (assign (set_options (set_body _)))) =>
  (intros ? H; exact H) : stable.

Lemma publishes_clearRefreshTimer s : stable (publishes_of s) clearRefreshTimer.
Proof. unfold clearRefreshTimer. stable_auto. Qed.
#[local] Hint Resolve publishes_clearRefreshTimer : stable.

Lemma publishes_unpublish s : stable (publishes_of s) unpublish.
Proof. unfold unpublish. stable_auto. Qed.
#[local] Hint Resolve publishes_unpublish : stable.

Lemma publishes_publish s c : stable (publishes_of s) (publish c).
Proof. unfold publish. stable_auto. Qed.
#[local] Hint Resolve publishes_publish : stable.

Lemma publishes_dispose s : stable (publishes_of s) dispose.
Proof. unfold dispose. stable_auto. Qed.
#[local] Hint Resolve publishes_dispose : stable.

Lemma publishes_refreshRequest s : stable (publishes_of s) refreshRequest.
Proof. unfold refreshRequest. stable_auto. Qed.
#[local] Hint Resolve publishes_refreshRequest : stable.

Lemma publishes_stateTransition s x : stable (publishes_of s) (stateTransition x).
Proof. unfold stateTransition. stable_auto. Qed.
#[local] Hint Resolve publishes_stateTransition : stable.

Lemma publishes_giveUp s : stable (publishes_of s) giveUp.
Proof. unfold giveUp. stable_auto. Qed.
#[local] Hint Resolve publishes_giveUp : stable.

Lemma publishes_receiveResponse s r : stable (publishes_of s) (receiveResponse r).
Proof. unfold receiveResponse. stable_auto. Qed.
#[local] Hint Resolve publishes_receiveResponse : stable.

Lemma publishes_fire s h : stable (publishes_of s) (fire h).
Proof.
  intros w Hw. unfold fire. destruct (List.find _ _) as [[h' d []]|]; [|exact Hw].
  revert w Hw.
  change (stable (publishes_of s) (bind (clearTimeout h) (fun _ => refreshRequest))).
  stable_auto.
Qed.
#[local] Hint Resolve publishes_fire : stable.

Lemma publishes_perform s e : stable (publishes_of s) (perform e).
Proof. destruct e; unfold perform; stable_auto. Qed.

Lemma publishes_run w0 events w : publishes_of w0 w -> publishes_of w0 (run events w).
Proof.
  revert w. induction events as [|e events IH]; intros w Hw; [exact Hw|].
  apply IH, publishes_perform, Hw.
Qed.

(** X17. Every PUBLISH a publisher ever sends, whatever happened
    before, has the method PUBLISH and these header lines in this
    order: the caller's extra headers, one Event line with the event
    type, one Expires line, and then nothing or one SIP-If-Match
    line. *)
Theorem X17_every_publish_is_well_formed
    publishers0 aor0 self0 targetURI eventType o events m :
  In m (sent (run events (constructor publishers0 aor0 self0 targetURI eventType o))) ->
  message_method m = "PUBLISH" /\
  exists e tail,
    headers m = List.map Extra (default [] (arg_extraHeaders o))
                  ++ [Event eventType; Expires e] ++ tail /\
    (tail = [] \/ exists etag, tail = [SIP_If_Match etag]).
Proof.
  intros Hm.
  assert (H : publishes_of (constructor publishers0 aor0 self0 targetURI eventType o)
                (run events (constructor publishers0 aor0 self0 targetURI eventType o))).
  { apply publishes_run. split; [reflexivity | constructor]. }
  destruct H as [_ H]. rewrite List.Forall_forall in H.
  destruct (H m Hm) as (e & etag & b & ->).
  split; [reflexivity|]. exists e.
  destruct etag as [t|]; eexists; (split; [reflexivity|]); [right; eauto | left; reflexivity].
Qed.

(** X17 on the refresh the published publication sends when its
    timeout fires. *)
Lemma X17_witness :
  In (publish_message published_world (Js.of_Z 1800) (Some "E1") None)
     (sent (run [AppPublish "doc";
                 CoreResponse (response 200 (Some "E1") (Some 1800%Z) None);
                 TimerFires 1%positive] (fresh_world 3600))) /\
  message_method (publish_message published_world (Js.of_Z 1800) (Some "E1") None) = "PUBLISH" /\
  exists e tail,
    headers (publish_message published_world (Js.of_Z 1800) (Some "E1") None)
      = List.map Extra (default [] (arg_extraHeaders (ua_options 3600)))
          ++ [Event "presence"; Expires e] ++ tail /\
    (tail = [] \/ exists etag, tail = [SIP_If_Match etag]).
Proof.
  assert (Hin : In (publish_message published_world (Js.of_Z 1800) (Some "E1") None)
                  (sent (run [AppPublish "doc";
                              CoreResponse (response 200 (Some "E1") (Some 1800%Z) None);
                              TimerFires 1%positive] (fresh_world 3600)))).
  { vm_compute. right. left. reflexivity. }
  split; [exact Hin|].
  exact (X17_every_publish_is_well_formed ∅ "sip:me@example.com" 7%nat
           "sip:alice@example.com" "presence" (ua_options 3600) _ _ Hin).
Defined.

(** X6. On every publisher, whatever happened since it was
    constructed (it may be disposed or Terminated), [publish(content)]
    does not throw and sends exactly one PUBLISH, whose body is the
    content with the content type fixed at construction
    ([text/plain] when none was given). *)
Theorem X6_publish_always_sends
    publishers0 aor0 self0 targetURI eventType o events content :
  let w := run events (constructor publishers0 aor0 self0 targetURI eventType o) in
  outcome (publish content w) = Return (Js.Resolved tt) /\
  exists m,
    sent (final (publish content w)) = sent w ++ [m] /\
    message_body m
      = Some (fromBodyLegacy
                {| bc_body := content;
                   bc_contentType := default "text/plain" (truthy (arg_contentType o)) |}).
Proof.
  intros w.
  pose proof (configured_run events
                (constructor publishers0 aor0 self0 targetURI eventType o)) as S.
  fold w in S. destruct (settings_project _ _ S) as [Hct Hx]. cbn in Hct, Hx.
  destruct (Js.strict_eq (pubRequestExpires (this w)) 0%Z) eqn:E.
  - destruct (publish_restarts w content _ Hct E) as [P _].
    destruct (P _ Hx) as (P1 & P2 & _). split; [exact P1|].
    eexists. split; [exact P2 | reflexivity].
  - destruct (publish_modifies w content _ Hct) as (P1 & P2 & _).
    { unfold Js.strict_neq. rewrite E. reflexivity. }
    split; [exact P1|]. eexists. split; [exact P2 | reflexivity].
Qed.

(** *** Removing and publishing again *)

Lemma granted_by_zero r : Js.strict_eq (granted_by r (Js.of_Z 0)) (Js.of_Z 0) = true.
Proof.
  unfold granted_by, in_range. destruct (header_Expires r) as [e|]; [|reflexivity].
  destruct (Js.ge e 0%Z) eqn:E0; [|reflexivity].
  destruct (Js.le e 0%Z) eqn:E1; [|reflexivity].
  apply JsFacts.zero_in_range; assumption.
Qed.

(** X15. From Published with an entity tag held, [unpublish()] sends
    the removal and leaves the state Published; the 2xx that answers
    it, whatever its headers, makes the publication Unpublished with
    one state event, drops the entity tag and sends nothing; a
    [publish(content)] after that sends a PUBLISH with the expiry
    configured at construction and no SIP-If-Match line. *)
Theorem X15_unpublish_round_trip w r code etag ct x content :
  _state (this w) = Published ->
  pubRequestEtag (this w) = Some etag ->
  contentType (options (this w)) = Some ct ->
  expires (options (this w)) = Some x ->
  statusCode r = Some code -> (200 <= code <= 299)%Z ->
  let w1 := final (unpublish w) in
  let w2 := final (receiveResponse r w1) in
  let w3 := final (publish content w2) in
  sent w1 = sent w ++ [publish_message w 0%Z (Some etag) None] /\
  _state (this w1) = Published /\
  outcome (receiveResponse r w1) = Return tt /\
  _state (this w2) = Unpublished /\
  emitted w2 = emitted w ++ [Unpublished] /\
  pubRequestEtag (this w2) = None /\
  sent w2 = sent w1 /\
  outcome (publish content w2) = Return (Js.Resolved tt) /\
  sent w3 = sent w2 ++ [publish_message w x None
                          (Some (fromBodyLegacy {| bc_body := content; bc_contentType := ct |}))] /\
  pubRequestExpires (this w3) = x.
Proof.
  intros Hs He Hct Hx Hc Hr w1 w2 w3.
  destruct (unpublish_removes w) as (_ & U1 & _ & _ & _ & _ & U2 & U3 & U4).
  fold w1 in U1, U2, U3, U4. rewrite He in U4. rewrite Hs in U2.
  assert (S1 : settings w1 = settings w) by (apply (configured_unpublish (settings w)); reflexivity).
  assert (Hz : Js.strict_eq (granted_by r (pubRequestExpires (this w1))) 0%Z = true)
    by (rewrite U1; apply granted_by_zero).
  destruct (receive_2xx_zero w1 r code Hc Hr Hz) as [R1 R2]. rewrite U2 in R2.
  destruct R2 as (R2 & R3 & R4 & R5 & _). fold w2 in R1, R3, R4, R5.
  destruct (receive_2xx w1 r code Hc Hr) as [R6 _]. fold w2 in R6.
  assert (S2 : settings w2 = settings w).
  { rewrite <- S1. apply (configured_receiveResponse (settings w1)). reflexivity. }
  destruct (settings_project _ _ S2) as [Hct2 Hx2]. rewrite Hct in Hct2. rewrite Hx in Hx2.
  assert (Hz2 : Js.strict_eq (pubRequestExpires (this w2)) 0%Z = true) by (rewrite R6; exact Hz).
  destruct (publish_restarts w2 content ct Hct2 Hz2) as [P _].
  destruct (P x Hx2) as (P1 & P2 & P3 & _). fold w3 in P2, P3.
  rewrite (publish_message_settings _ _ _ _ _ S2) in P2. rewrite U3 in R4.
  repeat split; assumption.
Qed.

(** X15 on the published publication: removal, 200, and a new
    publication that asks for 3600 again. *)
Lemma X15_witness :
  _state (this (final (receiveResponse (response 200 None None None)
                         (final (unpublish published_world))))) = Unpublished /\
  pubRequestExpires
    (this (final (publish "doc2"
                    (final (receiveResponse (response 200 None None None)
                              (final (unpublish published_world)))))))
    = Js.of_Z 3600.
Proof.
  destruct (X15_unpublish_round_trip published_world (response 200 None None None) 200
              "E1" "text/plain" (Js.of_Z 3600) "doc2"
              eq_refl eq_refl eq_refl eq_refl eq_refl ltac:(lia))
    as (_ & _ & _ & H4 & _ & _ & _ & _ & _ & H10).
  split; [exact H4 | exact H10].
Defined.

End PublisherFacts.

(** ** The subscription engine *)

Module SubscriberFacts.
Import Core Incoming Subscriber SubscriberSpec.
Local Open Scope js_scope.

(** *** Running a method on an arbitrary world *)

Ltac reduce1 :=
  cbv beta iota zeta delta
    [bind ret throw get modify when final outcome fst snd
     read assign log warn effect coordinator dialog update_coordinator update_dialog
     setTimeout clearTimeout truthy
     SubscriberRequest_constructor SubscriberRequest_dispose SubscriberRequest_state
     SubscriberRequest_subscribe resolve onAccepted SubscriberRequest_onAccept
     SubscriberRequest_onNotify SubscriberRequest_onNotifyTimeout
     SubscriberRequest_onRedirect SubscriberRequest_onReject
     Subscription_dispose dispose dispose_then stateTransition unsubscribe subscribe
     _refresh initSubscriberRequest onNotify onRefresh subscribe_then
     settling
     id body event expires extraHeaders outgoingRequestMessage retryAfterTimer
     subscriberRequest targetURI delegate _dialog _disposed _state
     this self _subscriptions requests next_request dialogs configuration timeouts
     next_handle sent trace logged
     set_retryAfterTimer set_subscriberRequest set__dialog set__disposed set__state
     set_this set__subscriptions set_requests set_next_request set_dialogs set_timeouts
     set_next_handle set_sent set_trace set_logged
     set_autoRefresh set_dialog_delegate set_subscriptionState
     subscriptionState autoRefresh dialog_delegate has_onNotify
     SubscriberRequest.delegate SubscriberRequest.message SubscriberRequest.request
     SubscriberRequest.subscription SubscriberRequest.subscribed SubscriberRequest.target
     SubscriberRequest.event SubscriberRequest.expires SubscriberRequest.settled
     SubscriberRequest.set_delegate SubscriberRequest.set_request
     SubscriberRequest.set_subscription SubscriberRequest.set_subscribed
     SubscriberRequest.set_settled
     state reason params notify Subscription_State request subscription
     handle delay callback
     SubscriptionState.eqb SubscriptionDialogState.eqb
     option_map from_option fresh_message fresh_coordinator notified retry_at
     String.eqb Ascii.eqb Bool.eqb];
  cbn [negb andb orb fmap option_fmap option_map];
  rewrite ?andb_false_r, ?andb_true_r, ?orb_false_r, ?orb_true_r,
    ?lookup_alter_eq, ?lookup_insert_eq.
Ltac reduce := repeat (progress reduce1).

Ltac split_ifs :=
  repeat match goal with
  | |- context [(match ?x with _ => _ end) _] =>
      is_var x; destruct x; try discriminate; reduce
  | |- context [let (_, _) := (match ?x with _ => _ end) in _] =>
      is_var x; destruct x; try discriminate; reduce
  | |- context [if ?b then _ else _] =>
      match b with
      | context [match ?x with _ => _ end] =>
          is_var x; destruct x; try discriminate; reduce
      end
  | |- context [if ?b then _ else _] =>
      let a := bool_atom b in
      no_match a;
      first [ match goal with H : a = _ |- _ => rewrite H end
            | let E := fresh "E" in destruct a eqn:E; try discriminate E ];
      reduce
  end.

Ltac split_lookups :=
  repeat (match goal with
          | |- context [match ?m !! ?k with _ => _ end] =>
              let E := fresh "E" in destruct (m !! k) eqn:E; reduce
          end; split_ifs).

Ltac open_world w :=
  destruct w as [[p_id p_body p_event p_expires p_hdrs p_msg p_timer p_req p_target
                    p_delegate p_dialog p_disposed p_state]
                 w_self w_subs w_reqs w_next_req w_dialogs w_cfg w_timeouts w_next
                 w_sent w_trace w_logged].

(** *** The coordinator is single-use *)

Lemma subscribe_first w r c :
  requests w !! r = Some c ->
  SubscriberRequest.subscribed c = false ->
  SubscriberRequest_subscribe r w
    = (Return Js.Pending,
       set_requests (alter (SubscriberRequest.set_request true) r)
         (set_sent (fun l => l ++ [(r, SubscriberRequest.message c)])
            (set_requests (alter (SubscriberRequest.set_subscribed true) r) w))).
Proof.
  intros Hr Hs. unfold SubscriberRequest_subscribe, bind, coordinator.
  rewrite Hr, Hs. reflexivity.
Qed.

Lemma subscribe_again w r :
  used r w ->
  SubscriberRequest_subscribe r w
    = (Return (Js.Rejected "Not in initial state. Did you call subscribe more than once?"), w).
Proof.
  intros (_ & c & Hr & Hs). unfold SubscriberRequest_subscribe, bind, coordinator.
  rewrite Hr, Hs. reflexivity.
Qed.

Lemma stable_coordinator P r : stable P (coordinator r).
Proof. intros w Hw. unfold coordinator, final. destruct (requests w !! r); exact Hw. Qed.

Lemma stable_dialog P d : stable P (dialog d).
Proof. intros w Hw. unfold dialog, final. destruct (dialogs w !! d); exact Hw. Qed.

#[local] Hint Resolve stable_coordinator stable_dialog : stable.

(** Nothing resets the flag: the assignments to a coordinator keep it
    or set it, and a new coordinator gets a reference of its own. *)
Lemma used_update r r' f :
  (forall c, SubscriberRequest.subscribed (f c) = SubscriberRequest.subscribed c
             \/ SubscriberRequest.subscribed (f c) = true) ->
  stable (used r) (update_coordinator r' f).
Proof.
  intros Hf w (Hlt & c & Hr & Hs). split; [exact Hlt|].
  unfold update_coordinator, modify, final. cbn.
  destruct (decide (r' = r)) as [->|Hne].
  - exists (f c). rewrite lookup_alter_eq, Hr. split; [reflexivity|].
    destruct (Hf c) as [-> | ->]; [exact Hs | reflexivity].
  - exists c. rewrite lookup_alter_ne by exact Hne. auto.
Qed.
#[local] Hint Extern 1 (stable (used _) (update_coordinator _ _)) =>
  (apply used_update; intros ?; (left; reflexivity) || (right; reflexivity)) : stable.

Lemma used_constructor r t e x h b d :
  stable (used r) (SubscriberRequest_constructor t e x h b d).
Proof.
  intros w (Hlt & c & Hr & Hs). unfold SubscriberRequest_constructor, final, used. cbn.
  split; [lia|]. exists c. rewrite lookup_insert_ne by lia. auto.
Qed.
#[local] Hint Resolve used_constructor : stable.

Lemma used_SubscriberRequest_subscribe r r' : stable (used r) (SubscriberRequest_subscribe r').
Proof. unfold SubscriberRequest_subscribe. stable_auto. Qed.
#[local] Hint Resolve used_SubscriberRequest_subscribe : stable.

Lemma used_SubscriberRequest_dispose r r' : stable (used r) (SubscriberRequest_dispose r').
Proof. unfold SubscriberRequest_dispose, effect. stable_auto. Qed.
#[local] Hint Resolve used_SubscriberRequest_dispose : stable.

Lemma used_SubscriberRequest_state r r' : stable (used r) (SubscriberRequest_state r').
Proof. unfold SubscriberRequest_state. stable_auto. Qed.
#[local] Hint Resolve used_SubscriberRequest_state : stable.

Lemma used_resolve r r' x : stable (used r) (resolve r' x).
Proof. unfold resolve. stable_auto. Qed.
#[local] Hint Resolve used_resolve : stable.

Lemma used_dispose r : stable (used r) dispose.
Proof. unfold dispose, Subscription_dispose. stable_auto. Qed.
#[local] Hint Resolve used_dispose : stable.

Lemma used_dispose_then r : stable (used r) dispose_then.
Proof. unfold dispose_then. stable_auto. Qed.
#[local] Hint Resolve used_dispose_then : stable.

Lemma used_stateTransition r s : stable (used r) (stateTransition s).
Proof. unfold stateTransition. stable_auto. Qed.
#[local] Hint Resolve used_stateTransition : stable.

Lemma used_unsubscribe r : stable (used r) unsubscribe.
Proof. unfold unsubscribe. stable_auto. Qed.
#[local] Hint Resolve used_unsubscribe : stable.

Lemma used_subscribe r : stable (used r) subscribe.
Proof. unfold subscribe. stable_auto. Qed.
#[local] Hint Resolve used_subscribe : stable.

Lemma used_initSubscriberRequest r : stable (used r) initSubscriberRequest.
Proof. unfold initSubscriberRequest. stable_auto. Qed.
#[local] Hint Resolve used_initSubscriberRequest : stable.

Lemma used_onNotify r n : stable (used r) (onNotify n).
Proof. unfold onNotify. stable_auto. Qed.
#[local] Hint Resolve used_onNotify : stable.

Lemma used_subscribe_then r x : stable (used r) (subscribe_then x).
Proof. unfold subscribe_then. stable_auto. Qed.
#[local] Hint Resolve used_subscribe_then : stable.

Lemma used_fire r h : stable (used r) (fire h).
Proof.
  intros w Hw. unfold fire. destruct (List.find _ _) as [[h' d []]|]; [|exact Hw].
  revert w Hw.
  change (stable (used r) (bind (clearTimeout h) (fun _ => bind subscribe (fun _ => ret tt)))).
  stable_auto.
Qed.
#[local] Hint Resolve used_fire : stable.

Lemma used_perform r e : stable (used r) (perform e).
Proof.
  destruct e; unfold perform, settling, _refresh, SubscriberRequest_onAccept,
    SubscriberRequest_onNotify, SubscriberRequest_onNotifyTimeout,
    SubscriberRequest_onRedirect, SubscriberRequest_onReject, onAccepted, onRefresh;
    stable_auto.
Qed.

Lemma used_run r events w : used r w -> used r (run events w).
Proof.
  revert w. induction events as [|e events IH]; intros w Hw; [exact Hw|].
  apply IH, used_perform, Hw.
Qed.

(** C6. For every coordinator that was built and not yet used, the
    first [subscribe()] hands its message to the core, exactly one
    SUBSCRIBE, and returns a pending promise; after that, whatever
    else happens in between, every [subscribe()] on the same
    coordinator returns a promise rejected with the error and leaves
    everything as it is, so nothing more is sent. *)
Theorem C6_coordinator_is_single_use w r c :
  (r < next_request w)%nat ->
  requests w !! r = Some c ->
  SubscriberRequest.subscribed c = false ->
  outcome (SubscriberRequest_subscribe r w) = Return Js.Pending /\
  sent (final (SubscriberRequest_subscribe r w)) = sent w ++ [(r, SubscriberRequest.message c)] /\
  forall events,
    SubscriberRequest_subscribe r (run events (final (SubscriberRequest_subscribe r w)))
      = (Return (Js.Rejected "Not in initial state. Did you call subscribe more than once?"),
         run events (final (SubscriberRequest_subscribe r w))).
Proof.
  intros Hlt Hr Hs. rewrite (subscribe_first w r c Hr Hs).
  split; [reflexivity|]. split; [reflexivity|].
  intros events. apply subscribe_again, used_run.
  split; [exact Hlt|]. cbn.
  exists (SubscriberRequest.set_request true (SubscriberRequest.set_subscribed true c)).
  rewrite !lookup_alter_eq, Hr. split; reflexivity.
Qed.

(** C6 on the coordinator the constructor of the subscriber built. *)
Lemma C6_witness :
  (0 < next_request fresh_world)%nat /\
  requests fresh_world !! 0%nat = Some (fresh_coordinator fresh_world false) /\
  outcome (SubscriberRequest_subscribe 0 fresh_world) = Return Js.Pending /\
  length (sent (final (SubscriberRequest_subscribe 0 fresh_world))) = 1%nat /\
  outcome (SubscriberRequest_subscribe 0 (final (SubscriberRequest_subscribe 0 fresh_world)))
    = Return (Js.Rejected "Not in initial state. Did you call subscribe more than once?") /\
  sent (final (SubscriberRequest_subscribe 0 (final (SubscriberRequest_subscribe 0 fresh_world))))
    = sent (final (SubscriberRequest_subscribe 0 fresh_world)).
Proof.
  assert (Hlt : (0 < next_request fresh_world)%nat) by (vm_compute; lia).
  assert (Hr : requests fresh_world !! 0%nat = Some (fresh_coordinator fresh_world false))
    by (vm_compute; reflexivity).
  split; [exact Hlt|]. split; [exact Hr|].
  destruct (C6_coordinator_is_single_use fresh_world 0%nat
              (fresh_coordinator fresh_world false) Hlt Hr eq_refl) as (Ho & Hs & Hagain).
  split; [exact Ho|]. split; [rewrite Hs; reflexivity|].
  specialize (Hagain []). cbn [run fold_left] in Hagain. rewrite Hagain.
  split; reflexivity.
Defined.

(** *** Where a NOTIFY finds the subscription *)

Lemma engaged_update r f : stable engaged (update_coordinator r f).
Proof.
  intros w (H1 & H2 & H3). repeat split; try assumption.
  unfold update_coordinator, modify, final. cbn.
  apply lookup_alter_is_Some. exact H2.
Qed.
#[local] Hint Resolve engaged_update : stable.

Lemma engaged_constructor t e x h b d :
  stable engaged (SubscriberRequest_constructor t e x h b d).
Proof.
  intros w (H1 & H2 & H3). repeat split; try assumption.
  unfold SubscriberRequest_constructor, final. cbn.
  apply lookup_insert_is_Some'. right. exact H2.
Qed.
#[local] Hint Resolve engaged_constructor : stable.

Lemma engaged_Subscription_dispose : stable engaged Subscription_dispose.
Proof.
  intros w (H1 & H2 & H3). unfold engaged in *. open_world w. cbn in H1, H2, H3. reduce.
  destruct p_disposed; reduce; repeat split; auto.
Qed.
#[local] Hint Resolve engaged_Subscription_dispose : stable.

Lemma engaged_SubscriberRequest_subscribe r : stable engaged (SubscriberRequest_subscribe r).
Proof. unfold SubscriberRequest_subscribe. stable_auto. Qed.
#[local] Hint Resolve engaged_SubscriberRequest_subscribe : stable.

Lemma engaged_SubscriberRequest_dispose r : stable engaged (SubscriberRequest_dispose r).
Proof. unfold SubscriberRequest_dispose, effect. stable_auto. Qed.
#[local] Hint Resolve engaged_SubscriberRequest_dispose : stable.

Lemma engaged_SubscriberRequest_state r : stable engaged (SubscriberRequest_state r).
Proof. unfold SubscriberRequest_state. stable_auto. Qed.
#[local] Hint Resolve engaged_SubscriberRequest_state : stable.

Lemma engaged_resolve r x : stable engaged (resolve r x).
Proof. unfold resolve. stable_auto. Qed.
#[local] Hint Resolve engaged_resolve : stable.

Lemma engaged_dispose : stable engaged dispose.
Proof. unfold dispose. stable_auto. Qed.
#[local] Hint Resolve engaged_dispose : stable.

Lemma engaged_dispose_then : stable engaged dispose_then.
Proof. unfold dispose_then. stable_auto. Qed.
#[local] Hint Resolve engaged_dispose_then : stable.

(** The one place that assigns the public state: a move to Terminated
    ends in [dispose], which finds the current coordinator and sets
    the mark. *)
Lemma engaged_stateTransition s : stable engaged (stateTransition s).
Proof.
  intros w (H1 & [c H2] & H3). unfold engaged in *. open_world w. cbn in H1, H2, H3. reduce.
  destruct c. destruct p_state; try congruence; destruct s; reduce.
  all: try (repeat split; eauto; congruence).
  all: repeat (progress (rewrite ?H2; reduce; split_ifs)).
  all: repeat split; eauto; try congruence;
    try (apply lookup_alter_is_Some; eauto).
Qed.
#[local] Hint Resolve engaged_stateTransition : stable.

Lemma engaged_unsubscribe : stable engaged unsubscribe.
Proof. unfold unsubscribe. stable_auto. Qed.
#[local] Hint Resolve engaged_unsubscribe : stable.

Lemma engaged_subscribe : stable engaged subscribe.
Proof. unfold subscribe. stable_auto. Qed.
#[local] Hint Resolve engaged_subscribe : stable.

Lemma engaged_initSubscriberRequest : stable engaged initSubscriberRequest.
Proof.
  intros w (H1 & H2 & H3). unfold engaged in *. open_world w. cbn in H1, H2, H3. reduce.
  repeat split; eauto.
Qed.
#[local] Hint Resolve engaged_initSubscriberRequest : stable.

Lemma engaged_onNotify n : stable engaged (onNotify n).
Proof. unfold onNotify. stable_auto. Qed.
#[local] Hint Resolve engaged_onNotify : stable.

Lemma engaged_subscribe_then x : stable engaged (subscribe_then x).
Proof. unfold subscribe_then. stable_auto. Qed.
#[local] Hint Resolve engaged_subscribe_then : stable.

Lemma engaged_fire h : stable engaged (fire h).
Proof.
  intros w Hw. unfold fire. destruct (List.find _ _) as [[h' d []]|]; [|exact Hw].
  revert w Hw.
  change (stable engaged (bind (clearTimeout h) (fun _ => bind subscribe (fun _ => ret tt)))).
  stable_auto.
Qed.
#[local] Hint Resolve engaged_fire : stable.

Lemma engaged_perform e : stable engaged (perform e).
Proof.
  destruct e; unfold perform, settling, _refresh, SubscriberRequest_onAccept,
    SubscriberRequest_onNotify, SubscriberRequest_onNotifyTimeout,
    SubscriberRequest_onRedirect, SubscriberRequest_onReject, onAccepted, onRefresh;
    stable_auto.
Qed.

Lemma engaged_run events w : engaged w -> engaged (run events w).
Proof.
  revert w. induction events as [|e events IH]; intros w Hw; [exact Hw|].
  apply IH, engaged_perform, Hw.
Qed.

Lemma engaged_first_subscribe subscriptions0 configuration0 self0 callId fromTag
    targetURI_ eventType o :
  engaged (final (subscribe (constructor subscriptions0 configuration0 self0 callId fromTag
                               targetURI_ eventType o))).
Proof.
  unfold engaged, constructor. reduce.
  repeat split; try discriminate. eexists. reflexivity.
Qed.

Lemma run_AppSubscribe events w :
  run (AppSubscribe :: events) w = run events (final (subscribe w)).
Proof.
  unfold run at 1. cbn [fold_left perform]. fold (run events).
  f_equal. unfold bind, final. destruct (subscribe w) as [[a|e] w']; reflexivity.
Qed.

Lemma engaged_may_be_notified w :
  engaged w -> _disposed (this w) = false -> may_be_notified w.
Proof.
  intros (H1 & _ & H3) Hd. split; [exact Hd|].
  destruct (_state (this w)); auto; [congruence|].
  specialize (H3 eq_refl). congruence.
Qed.

(** From the first [subscribe()] on, whatever happens, a subscription
    that is not disposed is in state NotifyWait or Subscribed: that is
    where every NOTIFY finds it. *)
Lemma notified_after_subscribe subscriptions0 configuration0 self0 callId fromTag
    targetURI_ eventType o events :
  _disposed (this (run (AppSubscribe :: events)
                     (constructor subscriptions0 configuration0 self0 callId fromTag
                        targetURI_ eventType o))) = false ->
  may_be_notified (run (AppSubscribe :: events)
                     (constructor subscriptions0 configuration0 self0 callId fromTag
                        targetURI_ eventType o)).
Proof.
  rewrite run_AppSubscribe. apply engaged_may_be_notified, engaged_run.
  apply engaged_first_subscribe.
Qed.

(** *** Termination reasons that lead to a new attempt *)

Lemma onNotify_resubscribes w n ss :
  may_be_notified w ->
  Subscription_State n = Some ss ->
  state ss = "terminated" ->
  reason ss = Some "deactivated" \/ reason ss = Some "timeout" \/
  ((reason ss = Some "probation" \/ reason ss = Some "giveup") /\ retry_after ss = None) ->
  outcome (onNotify n w) = Return tt /\
  subscriberRequest (this (final (onNotify n w))) = next_request w /\
  requests (final (onNotify n w)) !! next_request w = Some (fresh_coordinator w true) /\
  sent (final (onNotify n w)) = sent w ++ [(next_request w, fresh_message w)] /\
  trace (final (onNotify n w)) = trace w ++ notified w n /\
  timeouts (final (onNotify n w)) = timeouts w /\
  _state (this (final (onNotify n w))) = SubscriptionState.Subscribed /\
  _disposed (this (final (onNotify n w))) = false.
Proof.
  intros [Hd Hs] Hn Hst Hr. open_world w. destruct n as [k hdr]. destruct ss as [st rs ps].
  cbn in Hd, Hs, Hn, Hst, Hr. subst.
  destruct Hs as [-> | ->];
    destruct Hr as [-> | [-> | [[-> | ->] Hra]]].
  all: reduce; rewrite ?Hra; reduce; split_ifs; rewrite <- ?app_assoc; repeat split.
Qed.

Lemma no_termination_when_notified w n :
  ~ In (Emit SubscriptionState.Terminated) (notified w n).
Proof.
  unfold notified. rewrite in_app_iff.
  intros [H | [H | []]].
  - destruct (SubscriptionState.eqb _ _); [destruct H|].
    destruct H as [H | []]. discriminate H.
  - destruct (match delegate (this w) with Some _ => _ | None => _ end); discriminate H.
Qed.

(** C8. For every subscription that is not disposed and is past its
    first SUBSCRIBE, a NOTIFY whose Subscription-State is terminated
    with reason deactivated or timeout makes the engine build a new
    coordinator, make it the current one and call its [subscribe()] at
    once: exactly one SUBSCRIBE is sent, with the message of the new
    coordinator, no timeout is set, the trace gains only the
    notification's own effects, none of them a move to Terminated, and
    the public state is Subscribed afterwards. *)
Theorem C8_deactivated_or_timeout_resubscribes_at_once w n ss :
  _disposed (this w) = false ->
  _state (this w) = SubscriptionState.NotifyWait \/
    _state (this w) = SubscriptionState.Subscribed ->
  Subscription_State n = Some ss ->
  state ss = "terminated" ->
  reason ss = Some "deactivated" \/ reason ss = Some "timeout" ->
  outcome (onNotify n w) = Return tt /\
  subscriberRequest (this (final (onNotify n w))) = next_request w /\
  requests (final (onNotify n w)) !! next_request w = Some (fresh_coordinator w true) /\
  sent (final (onNotify n w)) = sent w ++ [(next_request w, fresh_message w)] /\
  timeouts (final (onNotify n w)) = timeouts w /\
  trace (final (onNotify n w)) = trace w ++ notified w n /\
  ~ In (Emit SubscriptionState.Terminated) (notified w n) /\
  _state (this (final (onNotify n w))) = SubscriptionState.Subscribed /\
  _disposed (this (final (onNotify n w))) = false.
Proof.
  intros Hd Hs Hn Hst Hr.
  destruct (onNotify_resubscribes w n ss (conj Hd Hs) Hn Hst)
    as (H1 & H2 & H3 & H4 & H5 & H6 & H7 & H8).
  { destruct Hr as [Hr | Hr]; [left | right; left]; exact Hr. }
  repeat split; try assumption. apply no_termination_when_notified.
Qed.

(** C8 on the subscribed subscription and a NOTIFY with reason
    deactivated: the second coordinator sends the second SUBSCRIBE. *)
Lemma C8_witness :
  _disposed (this subscribed_world) = false /\
  _state (this subscribed_world) = SubscriptionState.Subscribed /\
  subscriberRequest (this subscribed_world) = 0%nat /\
  subscriberRequest (this (final (onNotify deactivated_notify subscribed_world))) = 1%nat /\
  sent (final (onNotify deactivated_notify subscribed_world))
    = sent subscribed_world ++ [(1%nat, fresh_message subscribed_world)] /\
  _state (this (final (onNotify deactivated_notify subscribed_world)))
    = SubscriptionState.Subscribed.
Proof.
  split; [reflexivity|]. split; [reflexivity|]. split; [reflexivity|].
  destruct (C8_deactivated_or_timeout_resubscribes_at_once subscribed_world
              deactivated_notify (terminated_with "deactivated" None)
              eq_refl (or_intror eq_refl) eq_refl eq_refl (or_introl eq_refl))
    as (_ & H2 & _ & H4 & _ & _ & _ & H8 & _).
  split; [exact H2|]. split; [exact H4 | exact H8].
Defined.


(** C2. The code at the failing input: the subscribed subscription
    receives a NOTIFY with Subscription-State terminated, reason
    giveup and retry-after 30. The engine builds a new coordinator and
    sends nothing yet, as the specification has it; but the one
    timeout it sets has the delay 30, in the milliseconds of
    [setTimeout], not the 30000 that 30 seconds are. When the timeout
    fires, one SUBSCRIBE is sent. *)
Theorem C2_retry_after_is_taken_as_milliseconds :
  retry_after (terminated_with "giveup" (Some 30%Z)) = Some 30%Z /\
  outcome (onNotify giveup_notify subscribed_world) = Return tt /\
  subscriberRequest (this (final (onNotify giveup_notify subscribed_world)))
    <> subscriberRequest (this subscribed_world) /\
  sent (final (onNotify giveup_notify subscribed_world)) = sent subscribed_world /\
  timeouts (final (onNotify giveup_notify subscribed_world))
    = [{| handle := 1%positive; delay := 30%Z; callback := CallSubscribe |}] /\
  (30 <> 30 * 1000)%Z /\
  length (sent (final (fire 1%positive (final (onNotify giveup_notify subscribed_world)))))
    = S (length (sent subscribed_world)).
Proof. vm_compute. repeat split; discriminate. Qed.

(** ** Further properties of the subscription engine *)

Lemma answered_effect l e : is_answer e = false -> stable (answered l) (effect e).
Proof.
  intros He w Hw. unfold answered, answers, effect, modify, final in *. cbn.
  rewrite List.filter_app. cbn. rewrite He, app_nil_r. exact Hw.
Qed.
#[local] Hint Extern 1 (stable (answered _) (effect _)) =>
  (apply answered_effect; reflexivity) : stable.
#[local] Hint Resolve stable_coordinator stable_dialog : stable.

Lemma answered_SubscriberRequest_constructor l t e x h b d :
  stable (answered l) (SubscriberRequest_constructor t e x h b d).
Proof. intros w Hw. exact Hw. Qed.
#[local] Hint Resolve answered_SubscriberRequest_constructor : stable.
Lemma answered_SubscriberRequest_subscribe l r : stable (answered l) (SubscriberRequest_subscribe r).
Proof. unfold SubscriberRequest_subscribe. stable_auto. Qed.
#[local] Hint Resolve answered_SubscriberRequest_subscribe : stable.
Lemma answered_SubscriberRequest_dispose l r : stable (answered l) (SubscriberRequest_dispose r).
Proof. unfold SubscriberRequest_dispose. stable_auto. Qed.
#[local] Hint Resolve answered_SubscriberRequest_dispose : stable.
Lemma answered_SubscriberRequest_state l r : stable (answered l) (SubscriberRequest_state r).
Proof. unfold SubscriberRequest_state. stable_auto. Qed.
#[local] Hint Resolve answered_SubscriberRequest_state : stable.
Lemma answered_dispose l : stable (answered l) dispose.
Proof. unfold dispose, Subscription_dispose. stable_auto. Qed.
#[local] Hint Resolve answered_dispose : stable.
Lemma answered_stateTransition l s : stable (answered l) (stateTransition s).
Proof. unfold stateTransition. stable_auto. Qed.
#[local] Hint Resolve answered_stateTransition : stable.
Lemma answered_unsubscribe l : stable (answered l) unsubscribe.
Proof. unfold unsubscribe. stable_auto. Qed.
#[local] Hint Resolve answered_unsubscribe : stable.
Lemma answered_subscribe l : stable (answered l) subscribe.
Proof. unfold subscribe. stable_auto. Qed.
#[local] Hint Resolve answered_subscribe : stable.
Lemma answered_initSubscriberRequest l : stable (answered l) initSubscriberRequest.
Proof. unfold initSubscriberRequest. stable_auto. Qed.
#[local] Hint Resolve answered_initSubscriberRequest : stable.

Lemma become_subscribed w :
  _state (this w) = SubscriptionState.NotifyWait \/
    _state (this w) = SubscriptionState.Subscribed ->
  when (negb (SubscriptionState.eqb (_state (this w)) SubscriptionState.Subscribed))
    (stateTransition SubscriptionState.Subscribed) w
  = (Return tt, subscribed_by w).
Proof.
  unfold subscribed_by. intros [H | H]; rewrite H; [|reflexivity].
  cbn [SubscriptionState.eqb negb when].
  unfold stateTransition, bind, read. rewrite H. reflexivity.
Qed.

Lemma give_answer (b : bool) e1 e2 w :
  (if b then effect e1 else effect e2) w
  = (Return tt, set_trace (fun l => l ++ [if b then e1 else e2]) w).
Proof. destruct b; reflexivity. Qed.

Ltac enter_onNotify Hd Hs :=
  unfold onNotify; erewrite MonadFacts.bind_Return by reflexivity; cbv beta; rewrite Hd; cbv iota;
  rewrite (MonadFacts.bind_Return _ _ _ _ _ (become_subscribed _ Hs));
  rewrite (MonadFacts.bind_Return _ _ _ _ _ (give_answer _ _ _ _)).

Lemma answers_notified w n :
  _disposed (this w) = false ->
  answers (set_trace (fun l => l ++ [answer w n]) (subscribed_by w)) = answers w ++ [answer w n].
Proof.
  intros Hd. unfold answers, subscribed_by, answer. rewrite Hd.
  destruct (SubscriptionState.eqb _ _); cbn; rewrite !List.filter_app; cbn;
    destruct (match delegate (this w) with Some _ => _ | None => _ end); cbn;
    rewrite ?app_nil_r; reflexivity.
Qed.

(** X25. On a disposed subscriber, and on one in state NotifyWait or
    Subscribed, every NOTIFY that reaches [onNotify] is answered
    exactly once, whatever its Subscription-State header makes the
    engine do afterwards: it is handed to the delegate's [onNotify]
    when the subscriber is not disposed and the delegate defines one,
    and accepted otherwise. No answer to an earlier NOTIFY is added or
    lost. *)
Theorem X25_every_notify_is_answered_once w n :
  _disposed (this w) = true \/ may_be_notified w ->
  answers (final (onNotify n w)) = answers w ++ [answer w n].
Proof.
  intros [Hd | [Hd Hs]].
  - unfold answer, onNotify, bind, read. rewrite Hd.
    unfold answers, effect, modify, final. cbn. rewrite List.filter_app. reflexivity.
  - rewrite <- (answers_notified w n Hd). enter_onNotify Hd Hs.
    unfold answer. rewrite Hd.
    match goal with
    | |- answers (final (?c ?w2)) = ?l =>
        assert (H3 : stable (answered l) c) by stable_auto; apply (H3 w2)
    end.
    reflexivity.
Qed.

(** X25 on the subscribed subscriber, which has no delegate: the
    NOTIFY that ends the dialog with reason deactivated is accepted,
    after the first one. *)
Lemma X25_witness :
  may_be_notified subscribed_world /\
  answers (final (onNotify deactivated_notify subscribed_world))
    = [Accept 1%nat; Accept 2%nat].
Proof.
  assert (Hm : may_be_notified subscribed_world) by (split; [reflexivity | right; reflexivity]).
  split; [exact Hm|].
  rewrite (X25_every_notify_is_answered_once subscribed_world deactivated_notify
             (or_intror Hm)).
  vm_compute. reflexivity.
Defined.

(** X18. The first [subscribe()] of a subscriber (state Initial, its
    coordinator not used yet) makes the state NotifyWait, with one
    state event, and sends the coordinator's SUBSCRIBE; a second
    [subscribe()], while the first NOTIFY is awaited, sends nothing
    and changes nothing. *)
Theorem X18_subscribe_once w c :
  requests w !! subscriberRequest (this w) = Some c ->
  SubscriberRequest.subscribed c = false ->
  SubscriberRequest.subscription c = None ->
  _state (this w) = SubscriptionState.Initial ->
  outcome (subscribe w) = Return (Js.Resolved tt) /\
  _state (this (final (subscribe w))) = SubscriptionState.NotifyWait /\
  trace (final (subscribe w)) = trace w ++ [Emit SubscriptionState.NotifyWait] /\
  sent (final (subscribe w))
    = sent w ++ [(subscriberRequest (this w), SubscriberRequest.message c)] /\
  subscribe (final (subscribe w)) = (Return (Js.Resolved tt), final (subscribe w)).
Proof.
  intros Hr Hs Hd Hst. open_world w. destruct c. cbn in Hr, Hs, Hd, Hst. subst.
  repeat (progress (rewrite ?Hr; reduce)).
  repeat split.
Qed.

(** X18 on a subscriber just constructed. *)
Lemma X18_witness :
  requests fresh_world !! subscriberRequest (this fresh_world)
    = Some (fresh_coordinator fresh_world false) /\
  _state (this (final (subscribe fresh_world))) = SubscriptionState.NotifyWait /\
  sent (final (subscribe fresh_world)) = [(0%nat, fresh_message fresh_world)].
Proof.
  assert (Hr : requests fresh_world !! subscriberRequest (this fresh_world)
               = Some (fresh_coordinator fresh_world false)) by (vm_compute; reflexivity).
  split; [exact Hr|].
  destruct (X18_subscribe_once fresh_world _ Hr eq_refl eq_refl eq_refl)
    as (_ & Hs & _ & Hm & _).
  split; [exact Hs | exact Hm].
Defined.

(** X19. Once the coordinator holds a dialog, [subscribe()] goes by
    the dialog's state. While the dialog is Active it asks the dialog
    for a refresh (when [_dialog] is set), sends no SUBSCRIBE of its
    own and changes no field of the subscriber, and [_refresh()] does
    the same. While the dialog is NotifyWait, Pending or Terminated,
    [subscribe()] and [_refresh()] do nothing at all. *)
Theorem X19_subscribe_with_a_dialog w c d x :
  requests w !! subscriberRequest (this w) = Some c ->
  SubscriberRequest.subscription c = Some d ->
  dialogs w !! d = Some x ->
  match subscriptionState x with
  | SubscriptionDialogState.Active =>
      outcome (subscribe w) = Return (Js.Resolved tt) /\
      trace (final (subscribe w))
        = trace w ++ match _dialog (this w) with
                     | Some d' => [DialogRefresh d']
                     | None => []
                     end /\
      sent (final (subscribe w)) = sent w /\
      this (final (subscribe w)) = this w /\
      _refresh w = subscribe w
  | SubscriptionDialogState.Initial => True
  | _ =>
      subscribe w = (Return (Js.Resolved tt), w) /\
      _refresh w = (Return (Js.Resolved tt), w)
  end.
Proof.
  intros Hr Hs Hd. open_world w. destruct c, x as [st ar dd]. cbn in Hr, Hs, Hd. subst.
  destruct st; [exact I | | | |];
    repeat (progress (rewrite ?Hr, ?Hd; reduce; split_ifs));
    rewrite ?app_nil_r; repeat split.
Qed.

(** X19 on the subscribed subscriber, whose dialog 5 is Active. *)
Lemma X19_witness :
  requests subscribed_world !! subscriberRequest (this subscribed_world)
    = Some subscribed_coordinator /\
  dialogs subscribed_world !! 5%nat = Some active_dialog /\
  trace (final (subscribe subscribed_world)) = trace subscribed_world ++ [DialogRefresh 5%nat] /\
  sent (final (subscribe subscribed_world)) = sent subscribed_world.
Proof.
  assert (Hr : requests subscribed_world !! subscriberRequest (this subscribed_world)
               = Some subscribed_coordinator) by (vm_compute; reflexivity).
  assert (Hd : dialogs subscribed_world !! 5%nat = Some active_dialog)
    by (vm_compute; reflexivity).
  split; [exact Hr|]. split; [exact Hd|].
  destruct (X19_subscribe_with_a_dialog subscribed_world _ 5%nat _ Hr eq_refl Hd)
    as (_ & Ht & Hs & _).
  split; [exact Ht | exact Hs].
Defined.

Lemma set_trace_nil w : set_trace (fun l => l ++ []) w = w.
Proof. destruct w. unfold set_trace. cbn. rewrite app_nil_r. reflexivity. Qed.

Lemma terminates w c :
  requests w !! subscriberRequest (this w) = Some c ->
  _disposed (this w) = false ->
  _state (this w) <> SubscriptionState.Terminated ->
  outcome (stateTransition SubscriptionState.Terminated w) = Return tt /\
  _state (this (final (stateTransition SubscriptionState.Terminated w)))
    = SubscriptionState.Terminated /\
  _disposed (this (final (stateTransition SubscriptionState.Terminated w))) = true /\
  _subscriptions (final (stateTransition SubscriptionState.Terminated w))
    = delete (id (this w)) (_subscriptions w) /\
  retryAfterTimer (this (final (stateTransition SubscriptionState.Terminated w))) = None /\
  sent (final (stateTransition SubscriptionState.Terminated w)) = sent w /\
  next_request (final (stateTransition SubscriptionState.Terminated w)) = next_request w /\
  trace (final (stateTransition SubscriptionState.Terminated w))
    = trace w ++ [Emit SubscriptionState.Terminated]
        ++ request_disposed (subscriberRequest (this w)) c.
Proof.
  intros Hr Hd Hs. unfold request_disposed.
  open_world w. destruct c. cbn in Hr, Hd, Hs. subst.
  destruct p_state; try congruence; clear Hs.
  all: repeat (progress (rewrite ?Hr; reduce; split_ifs)).
  all: rewrite <- ?app_assoc; repeat split.
Qed.

Lemma unsubscribe_disposed w :
  _disposed (this w) = true -> unsubscribe w = (Return (Js.Resolved tt), w).
Proof. intros H. unfold unsubscribe, bind, read. rewrite H. reflexivity. Qed.

Lemma unsubscribe_unfold w st :
  _disposed (this w) = false ->
  SubscriberRequest_state (subscriberRequest (this w)) w = (Return st, w) ->
  unsubscribe w
    = bind (stateTransition SubscriptionState.Terminated) (fun _ => ret (Js.Resolved tt))
        (set_trace (fun l => l ++ dialog_unsubscribed w st) w).
Proof.
  intros Hd Hst. unfold unsubscribe. unfold bind at 1, read. cbv beta iota. rewrite Hd.
  unfold bind at 1. rewrite Hst. cbv beta iota. unfold bind at 1.
  unfold dialog_unsubscribed.
  destruct st; try (rewrite set_trace_nil; reflexivity);
    destruct (_dialog (this w)); try (rewrite set_trace_nil; reflexivity); reflexivity.
Qed.

Lemma unsubscribe_terminates w c st :
  requests w !! subscriberRequest (this w) = Some c ->
  SubscriberRequest_state (subscriberRequest (this w)) w = (Return st, w) ->
  _disposed (this w) = false ->
  _state (this w) <> SubscriptionState.Terminated ->
  outcome (unsubscribe w) = Return (Js.Resolved tt) /\
  _state (this (final (unsubscribe w))) = SubscriptionState.Terminated /\
  _disposed (this (final (unsubscribe w))) = true /\
  _subscriptions (final (unsubscribe w)) = delete (id (this w)) (_subscriptions w) /\
  retryAfterTimer (this (final (unsubscribe w))) = None /\
  sent (final (unsubscribe w)) = sent w /\
  next_request (final (unsubscribe w)) = next_request w /\
  trace (final (unsubscribe w))
    = trace w ++ dialog_unsubscribed w st ++ [Emit SubscriptionState.Terminated]
        ++ request_disposed (subscriberRequest (this w)) c.
Proof.
  intros Hr Hst Hd Hs. rewrite (unsubscribe_unfold w st Hd Hst).
  destruct (terminates (set_trace (fun l => l ++ dialog_unsubscribed w st) w) c Hr Hd Hs)
    as (T1 & T2 & T3 & T4 & T5 & T6 & T7 & T8).
  unfold bind, ret, outcome, final in *.
  destruct (stateTransition SubscriptionState.Terminated _) as [[[]|e] w']; cbn in *;
    [|discriminate T1].
  rewrite T8, <- app_assoc. repeat split; assumption.
Qed.

(** X20. [unsubscribe()] on a subscriber that is neither disposed nor
    Terminated asks the dialog to unsubscribe when the coordinator's
    state is Pending or Active and [_dialog] is set, and then makes
    the state Terminated, with one state event, which disposes the
    subscriber: it leaves the collection, forgets its retry timer, and
    the request of its coordinator is stopped and disposed. No
    SUBSCRIBE is sent and no coordinator is built. On a disposed
    subscriber, and so the second time, [unsubscribe()] does nothing. *)
Theorem X20_unsubscribe_terminates_once w c st :
  requests w !! subscriberRequest (this w) = Some c ->
  SubscriberRequest_state (subscriberRequest (this w)) w = (Return st, w) ->
  (_disposed (this w) = false ->
   _state (this w) <> SubscriptionState.Terminated ->
     outcome (unsubscribe w) = Return (Js.Resolved tt) /\
     _state (this (final (unsubscribe w))) = SubscriptionState.Terminated /\
     _disposed (this (final (unsubscribe w))) = true /\
     _subscriptions (final (unsubscribe w)) = delete (id (this w)) (_subscriptions w) /\
     retryAfterTimer (this (final (unsubscribe w))) = None /\
     sent (final (unsubscribe w)) = sent w /\
     next_request (final (unsubscribe w)) = next_request w /\
     trace (final (unsubscribe w))
       = trace w ++ dialog_unsubscribed w st ++ [Emit SubscriptionState.Terminated]
           ++ request_disposed (subscriberRequest (this w)) c /\
     unsubscribe (final (unsubscribe w)) = (Return (Js.Resolved tt), final (unsubscribe w))) /\
  (_disposed (this w) = true -> unsubscribe w = (Return (Js.Resolved tt), w)).
Proof.
  intros Hr Hst. split.
  - intros Hd Hs.
    destruct (unsubscribe_terminates w c st Hr Hst Hd Hs)
      as (U1 & U2 & U3 & U4 & U5 & U6 & U7 & U8).
    repeat split; try assumption. apply unsubscribe_disposed, U3.
  - apply unsubscribe_disposed.
Qed.

(** X20 on the subscriber that waits for its first NOTIFY. *)
Lemma X20_witness :
  _state (this (final (unsubscribe waiting_world))) = SubscriptionState.Terminated /\
  sent (final (unsubscribe waiting_world)) = sent waiting_world /\
  trace (final (unsubscribe waiting_world))
    = trace waiting_world
        ++ [Emit SubscriptionState.Terminated; WaitNotifyStop 0%nat; RequestDispose 0%nat].
Proof.
  assert (Hr : requests waiting_world !! subscriberRequest (this waiting_world)
               = Some (fresh_coordinator fresh_world true)) by (vm_compute; reflexivity).
  assert (Hst : SubscriberRequest_state (subscriberRequest (this waiting_world)) waiting_world
                = (Return SubscriptionDialogState.NotifyWait, waiting_world))
    by (vm_compute; reflexivity).
  assert (Hs : _state (this waiting_world) <> SubscriptionState.Terminated)
    by (vm_compute; discriminate).
  destruct (X20_unsubscribe_terminates_once waiting_world _ _ Hr Hst) as [H _].
  destruct (H eq_refl Hs) as (_ & H2 & _ & _ & _ & H6 & _ & H8 & _).
  split; [exact H2|]. split; [exact H6 | exact H8].
Defined.

Lemma SubscriberRequest_state_ext r w w' st :
  requests w' = requests w -> dialogs w' = dialogs w ->
  SubscriberRequest_state r w = (Return st, w) ->
  SubscriberRequest_state r w' = (Return st, w').
Proof.
  unfold SubscriberRequest_state, bind, coordinator, dialog, ret. intros Hr Hd. rewrite Hr.
  destruct (requests w !! r) as [c|]; [|discriminate].
  destruct (SubscriberRequest.subscription c) as [d|];
    [rewrite Hd; destruct (dialogs w !! d); [|discriminate]
    | destruct (SubscriberRequest.subscribed c)];
    intros [= <-]; reflexivity.
Qed.

Lemma subscribed_by_fields w :
  requests (subscribed_by w) = requests w /\
  dialogs (subscribed_by w) = dialogs w /\
  sent (subscribed_by w) = sent w /\
  timeouts (subscribed_by w) = timeouts w /\
  next_request (subscribed_by w) = next_request w /\
  _subscriptions (subscribed_by w) = _subscriptions w /\
  subscriberRequest (this (subscribed_by w)) = subscriberRequest (this w) /\
  _dialog (this (subscribed_by w)) = _dialog (this w) /\
  _disposed (this (subscribed_by w)) = _disposed (this w) /\
  id (this (subscribed_by w)) = id (this w) /\
  _state (this (subscribed_by w)) = SubscriptionState.Subscribed.
Proof.
  unfold subscribed_by.
  destruct (SubscriptionState.eqb _ _) eqn:E; repeat split.
  destruct (_state (this w)); try discriminate E. reflexivity.
Qed.

Lemma trace_notified w n :
  _disposed (this w) = false ->
  trace (notified_world w n) = trace w ++ notified w n.
Proof.
  intros Hd. unfold notified_world, subscribed_by, notified, answer. rewrite Hd.
  destruct (SubscriptionState.eqb _ _); cbn; rewrite <- ?app_assoc; reflexivity.
Qed.

(** X24. On a subscriber in state NotifyWait or Subscribed that is not
    disposed, a NOTIFY with no Subscription-State header, or with a
    state other than terminated, makes the state Subscribed (with one
    state event when it was not) and is answered, and that is all:
    nothing is sent, no timeout is set and the coordinator stays. *)
Theorem X24_notification_of_a_live_subscription w n :
  may_be_notified w ->
  match Subscription_State n with
  | Some ss => state ss <> "terminated"
  | None => True
  end ->
  onNotify n w = (Return tt, notified_world w n) /\
  _state (this (notified_world w n)) = SubscriptionState.Subscribed /\
  trace (notified_world w n) = trace w ++ notified w n /\
  sent (notified_world w n) = sent w /\
  timeouts (notified_world w n) = timeouts w /\
  subscriberRequest (this (notified_world w n)) = subscriberRequest (this w).
Proof.
  intros [Hd Hs] Hn.
  destruct (subscribed_by_fields w) as (F1 & F2 & F3 & F4 & F5 & F6 & F7 & F8 & F9 & F10 & F11).
  repeat split; try assumption; [|apply trace_notified, Hd].
  enter_onNotify Hd Hs. unfold notified_world, answer. rewrite Hd.
  destruct (Subscription_State n) as [ss|]; [|reflexivity].
  apply String.eqb_neq in Hn. rewrite Hn, andb_false_r. reflexivity.
Qed.

(** X24 on the first NOTIFY of a subscription, which says active. *)
Lemma X24_witness :
  may_be_notified waiting_world /\
  _state (this (final (onNotify first_notify waiting_world))) = SubscriptionState.Subscribed /\
  trace (final (onNotify first_notify waiting_world))
    = trace waiting_world ++ [Emit SubscriptionState.Subscribed; Accept 1%nat].
Proof.
  assert (Hm : may_be_notified waiting_world) by (split; [reflexivity | left; reflexivity]).
  assert (Hn : match Subscription_State first_notify with
               | Some ss => state ss <> "terminated"
               | None => True
               end) by (cbn; discriminate).
  split; [exact Hm|].
  destruct (X24_notification_of_a_live_subscription waiting_world first_notify Hm Hn)
    as (He & Hs & Ht & _).
  rewrite He. split; [exact Hs | exact Ht].
Defined.

Lemma retrying_false x :
  retrying x = false ->
  String.eqb x "deactivated" || String.eqb x "timeout" = false /\
  String.eqb x "probation" || String.eqb x "giveup" = false.
Proof.
  unfold retrying. intros H.
  destruct (String.eqb x "deactivated"), (String.eqb x "timeout"),
    (String.eqb x "probation"), (String.eqb x "giveup"); try discriminate H; auto.
Qed.

(** X23. On a subscriber in state NotifyWait or Subscribed that is not
    disposed, a NOTIFY whose Subscription-State is terminated with no
    reason, or with a reason other than deactivated, timeout,
    probation and giveup (rejected, noresource, invariant, or one the
    engine does not know), ends the subscription: once the NOTIFY is
    answered, [unsubscribe()] runs, the state becomes Terminated, the
    subscriber is disposed and leaves the collection, no coordinator
    is built and no SUBSCRIBE is sent. *)
Theorem X23_other_reasons_terminate w n ss c st :
  may_be_notified w ->
  requests w !! subscriberRequest (this w) = Some c ->
  SubscriberRequest_state (subscriberRequest (this w)) w = (Return st, w) ->
  Subscription_State n = Some ss ->
  state ss = "terminated" ->
  match truthy (reason ss) with
  | Some reason_ => retrying reason_ = false
  | None => True
  end ->
  outcome (onNotify n w) = Return tt /\
  _state (this (final (onNotify n w))) = SubscriptionState.Terminated /\
  _disposed (this (final (onNotify n w))) = true /\
  _subscriptions (final (onNotify n w)) = delete (id (this w)) (_subscriptions w) /\
  sent (final (onNotify n w)) = sent w /\
  next_request (final (onNotify n w)) = next_request w /\
  trace (final (onNotify n w))
    = trace w ++ notified w n ++ dialog_unsubscribed w st
        ++ [Emit SubscriptionState.Terminated]
        ++ request_disposed (subscriberRequest (this w)) c.
Proof.
  intros [Hd Hs] Hr Hst Hn Hss Hre.
  destruct (subscribed_by_fields w) as (F1 & F2 & F3 & F4 & F5 & F6 & F7 & F8 & F9 & F10 & F11).
  pose proof (trace_notified w n Hd) as Ht.
  unfold notified_world, answer in Ht. rewrite Hd in Ht.
  enter_onNotify Hd Hs. rewrite Hn, Hss.
  change (negb ("terminated" =? "")%string && ("terminated" =? "terminated")%string) with true.
  cbv iota.
  assert (Hun : forall W : World,
            requests W = requests w -> dialogs W = dialogs w ->
            this W = this (subscribed_by w) -> sent W = sent w ->
            next_request W = next_request w -> _subscriptions W = _subscriptions w ->
            trace W = trace w ++ notified w n ->
            outcome (bind unsubscribe (fun _ => ret tt) W) = Return tt /\
            _state (this (final (bind unsubscribe (fun _ => ret tt) W)))
              = SubscriptionState.Terminated /\
            _disposed (this (final (bind unsubscribe (fun _ => ret tt) W))) = true /\
            _subscriptions (final (bind unsubscribe (fun _ => ret tt) W))
              = delete (id (this w)) (_subscriptions w) /\
            sent (final (bind unsubscribe (fun _ => ret tt) W)) = sent w /\
            next_request (final (bind unsubscribe (fun _ => ret tt) W)) = next_request w /\
            trace (final (bind unsubscribe (fun _ => ret tt) W))
              = trace w ++ notified w n ++ dialog_unsubscribed w st
                  ++ [Emit SubscriptionState.Terminated]
                  ++ request_disposed (subscriberRequest (this w)) c).
  { intros W G1 G2 G3 G4 G5 G6 G7.
    assert (Hr' : requests W !! subscriberRequest (this W) = Some c)
      by (rewrite G1, G3, F7; exact Hr).
    assert (Hst' : SubscriberRequest_state (subscriberRequest (this W)) W = (Return st, W))
      by (rewrite G3, F7; apply (SubscriberRequest_state_ext _ w); assumption).
    assert (Hd' : _disposed (this W) = false) by (rewrite G3, F9; exact Hd).
    assert (Hs' : _state (this W) <> SubscriptionState.Terminated)
      by (rewrite G3, F11; discriminate).
    destruct (unsubscribe_terminates W c st Hr' Hst' Hd' Hs')
      as (U1 & U2 & U3 & U4 & U5 & U6 & U7 & U8).
    rewrite MonadFacts.final_then_ret. split; [apply (MonadFacts.outcome_then_ret _ _ _ _ U1)|].
    rewrite U4, U6, U7, U8, G3, G4, G5, G6, G7, F7, F10.
    unfold dialog_unsubscribed. rewrite G3, F8. rewrite <- !app_assoc.
    repeat split; assumption. }
  destruct (truthy (reason ss)) as [x|].
  - destruct (retrying_false x Hre) as [E1 E2]. rewrite E1, E2. cbv iota.
    erewrite MonadFacts.bind_Return by reflexivity.
    apply Hun; try reflexivity; assumption.
  - apply Hun; try reflexivity; assumption.
Qed.

(** X23 on the subscribed subscriber and a NOTIFY terminated with
    reason rejected. *)
Lemma X23_witness :
  _state (this (final (onNotify rejected_notify subscribed_world)))
    = SubscriptionState.Terminated /\
  sent (final (onNotify rejected_notify subscribed_world)) = sent subscribed_world /\
  trace (final (onNotify rejected_notify subscribed_world))
    = trace subscribed_world
        ++ [Accept 2%nat; DialogUnsubscribe 5%nat; Emit SubscriptionState.Terminated;
            WaitNotifyStop 0%nat; RequestDispose 0%nat].
Proof.
  assert (Hm : may_be_notified subscribed_world) by (split; [reflexivity | right; reflexivity]).
  assert (Hr : requests subscribed_world !! subscriberRequest (this subscribed_world)
               = Some subscribed_coordinator) by (vm_compute; reflexivity).
  assert (Hst : SubscriberRequest_state (subscriberRequest (this subscribed_world))
                  subscribed_world
                = (Return SubscriptionDialogState.Active, subscribed_world))
    by (vm_compute; reflexivity).
  destruct (X23_other_reasons_terminate subscribed_world rejected_notify
              (terminated_with "rejected" None) _ _ Hm Hr Hst eq_refl eq_refl eq_refl)
    as (_ & H2 & _ & _ & H5 & _ & H7).
  split; [exact H2|]. split; [exact H5 | exact H7].
Defined.

Lemma uniform_update m r f :
  (forall c, SubscriberRequest.message (f c) = SubscriberRequest.message c) ->
  stable (uniform m) (update_coordinator r f).
Proof.
  intros Hf w (H1 & H2 & H3). split; [exact H1|]. split; [|exact H3].
  intros r' c'. unfold update_coordinator, modify, final. cbn.
  destruct (decide (r = r')) as [->|Hne].
  - rewrite lookup_alter_eq. destruct (requests w !! r') as [c|] eqn:E; [|discriminate].
    intros [= <-]. rewrite Hf. eauto.
  - rewrite lookup_alter_ne by exact Hne. apply H2.
Qed.
#[local] Hint Extern 1 (stable (uniform _) (update_coordinator _ _)) =>
  (apply uniform_update; intros ?; reflexivity) : stable.

Lemma uniform_SubscriberRequest_subscribe m r : stable (uniform m) (SubscriberRequest_subscribe r).
Proof.
  intros w (H1 & H2 & H3). unfold SubscriberRequest_subscribe, bind, coordinator.
  destruct (requests w !! r) as [c|] eqn:E; [|repeat split; assumption].
  destruct (SubscriberRequest.subscribed c); [repeat split; assumption|].
  unfold update_coordinator, modify, ret, final. cbn.
  split; [exact H1|]. split.
  - intros r' c'.
    unfold set_requests, set_sent; cbn [requests].
    destruct (decide (r = r')) as [->|Hne].
    + rewrite !lookup_alter_eq, E. cbn. intros [= <-]. cbn. eauto.
    + rewrite !lookup_alter_ne by exact Hne. apply H2.
  - apply Forall_app. split; [exact H3|]. constructor; [|constructor]. cbn. eauto.
Qed.
#[local] Hint Resolve uniform_SubscriberRequest_subscribe : stable.

Lemma uniform_initSubscriberRequest m : stable (uniform m) initSubscriberRequest.
Proof.
  intros w (H1 & H2 & H3). unfold initSubscriberRequest, bind, read,
    SubscriberRequest_constructor, assign, update_coordinator, modify, ret, final. cbn.
  split; [exact H1|]. split; [|exact H3].
  intros r' c'.
  unfold set_requests, set_next_request, set_this; cbn [requests].
  destruct (decide (next_request w = r')) as [<-|Hne].
  - rewrite lookup_alter_eq, lookup_insert_eq. cbn. intros [= <-]. exact H1.
  - rewrite lookup_alter_ne, lookup_insert_ne by exact Hne. apply H2.
Qed.
#[local] Hint Resolve uniform_initSubscriberRequest : stable.

Lemma uniform_SubscriberRequest_dispose m r : stable (uniform m) (SubscriberRequest_dispose r).
Proof. unfold SubscriberRequest_dispose, effect. stable_auto. Qed.
#[local] Hint Resolve uniform_SubscriberRequest_dispose : stable.
Lemma uniform_SubscriberRequest_state m r : stable (uniform m) (SubscriberRequest_state r).
Proof. unfold SubscriberRequest_state. stable_auto. Qed.
#[local] Hint Resolve uniform_SubscriberRequest_state : stable.
Lemma uniform_resolve m r x : stable (uniform m) (resolve r x).
Proof. unfold resolve. stable_auto. Qed.
#[local] Hint Resolve uniform_resolve : stable.
Lemma uniform_dispose m : stable (uniform m) dispose.
Proof. unfold dispose, Subscription_dispose. stable_auto. Qed.
#[local] Hint Resolve uniform_dispose : stable.
Lemma uniform_dispose_then m : stable (uniform m) dispose_then.
Proof. unfold dispose_then. stable_auto. Qed.
#[local] Hint Resolve uniform_dispose_then : stable.
Lemma uniform_stateTransition m s : stable (uniform m) (stateTransition s).
Proof. unfold stateTransition. stable_auto. Qed.
#[local] Hint Resolve uniform_stateTransition : stable.
Lemma uniform_unsubscribe m : stable (uniform m) unsubscribe.
Proof. unfold unsubscribe. stable_auto. Qed.
#[local] Hint Resolve uniform_unsubscribe : stable.
Lemma uniform_subscribe m : stable (uniform m) subscribe.
Proof. unfold subscribe. stable_auto. Qed.
#[local] Hint Resolve uniform_subscribe : stable.
Lemma uniform_onNotify m n : stable (uniform m) (onNotify n).
Proof. unfold onNotify. stable_auto. Qed.
#[local] Hint Resolve uniform_onNotify : stable.
Lemma uniform_subscribe_then m x : stable (uniform m) (subscribe_then x).
Proof. unfold subscribe_then. stable_auto. Qed.
#[local] Hint Resolve uniform_subscribe_then : stable.
Lemma uniform_fire m h : stable (uniform m) (fire h).
Proof.
  intros w Hw. unfold fire. destruct (List.find _ _) as [[h' d []]|]; [|exact Hw].
  revert w Hw.
  change (stable (uniform m) (bind (clearTimeout h) (fun _ => bind subscribe (fun _ => ret tt)))).
  stable_auto.
Qed.
#[local] Hint Resolve uniform_fire : stable.




Lemma ended_stateTransition s : stable ended (stateTransition s).
Proof.
  intros w [Hs Hd]. unfold stateTransition, bind, read. rewrite Hs.
  destruct s; split; assumption.
Qed.
#[local] Hint Resolve ended_stateTransition : stable.
Lemma ended_SubscriberRequest_constructor t e x h b d :
  stable ended (SubscriberRequest_constructor t e x h b d).
Proof. intros w Hw. exact Hw. Qed.
#[local] Hint Resolve ended_SubscriberRequest_constructor : stable.
Lemma ended_SubscriberRequest_subscribe r : stable ended (SubscriberRequest_subscribe r).
Proof. unfold SubscriberRequest_subscribe. stable_auto. Qed.
#[local] Hint Resolve ended_SubscriberRequest_subscribe : stable.
Lemma ended_SubscriberRequest_dispose r : stable ended (SubscriberRequest_dispose r).
Proof. unfold SubscriberRequest_dispose, effect. stable_auto. Qed.
#[local] Hint Resolve ended_SubscriberRequest_dispose : stable.
Lemma ended_SubscriberRequest_state r : stable ended (SubscriberRequest_state r).
Proof. unfold SubscriberRequest_state. stable_auto. Qed.
#[local] Hint Resolve ended_SubscriberRequest_state : stable.
Lemma ended_resolve r x : stable ended (resolve r x).
Proof. unfold resolve. stable_auto. Qed.
#[local] Hint Resolve ended_resolve : stable.
Lemma ended_dispose : stable ended dispose.
Proof. intros w [Hs Hd]. unfold dispose, bind, read. rewrite Hd. split; assumption. Qed.
#[local] Hint Resolve ended_dispose : stable.
Lemma ended_dispose_then : stable ended dispose_then.
Proof. unfold dispose_then, effect. stable_auto. Qed.
#[local] Hint Resolve ended_dispose_then : stable.
Lemma ended_unsubscribe : stable ended unsubscribe.
Proof. intros w [Hs Hd]. rewrite unsubscribe_disposed by exact Hd. split; assumption. Qed.
#[local] Hint Resolve ended_unsubscribe : stable.
Lemma ended_subscribe : stable ended subscribe.
Proof. unfold subscribe, effect. stable_auto. Qed.
#[local] Hint Resolve ended_subscribe : stable.
Lemma ended_onNotify n : stable ended (onNotify n).
Proof.
  intros w [Hs Hd]. unfold onNotify, bind, read. rewrite Hd. split; assumption.
Qed.
#[local] Hint Resolve ended_onNotify : stable.
Lemma ended_subscribe_then x : stable ended (subscribe_then x).
Proof.
  unfold subscribe_then. stable_auto.
Qed.
#[local] Hint Resolve ended_subscribe_then : stable.
Lemma ended_fire h : stable ended (fire h).
Proof.
  intros w Hw. unfold fire. destruct (List.find _ _) as [[h' d []]|]; [|exact Hw].
  revert w Hw.
  change (stable ended (bind (clearTimeout h) (fun _ => bind subscribe (fun _ => ret tt)))).
  stable_auto.
Qed.
#[local] Hint Resolve ended_fire : stable.
Lemma ended_perform e : stable ended (perform e).
Proof.
  destruct e; unfold perform, settling, _refresh, SubscriberRequest_onAccept,
    SubscriberRequest_onNotify, SubscriberRequest_onNotifyTimeout,
    SubscriberRequest_onRedirect, SubscriberRequest_onReject, onAccepted, onRefresh, effect;
    stable_auto.
Qed.

(** X28. A subscriber that is Terminated and disposed stays
    Terminated and disposed, whatever the application calls and
    whatever the core, the dialogs and the timers deliver
    afterwards. *)
Theorem X28_terminated_is_final w events :
  _state (this w) = SubscriptionState.Terminated ->
  _disposed (this w) = true ->
  _state (this (run events w)) = SubscriptionState.Terminated /\
  _disposed (this (run events w)) = true.
Proof.
  intros Hs Hd. assert (H : ended w) by (split; assumption). clear Hs Hd.
  revert w H. induction events as [|e events IH]; intros w H; [exact H|].
  apply IH, ended_perform, H.
Qed.

(** X28 on a subscriber that unsubscribed while waiting: a late
    NOTIFY and a new [subscribe()] leave it Terminated. *)
Lemma X28_witness :
  _state (this ended_world) = SubscriptionState.Terminated /\
  _disposed (this ended_world) = true /\
  _state (this (run [CoreNotify 0%nat {| request := first_notify; subscription := None |};
                     AppSubscribe] ended_world))
    = SubscriptionState.Terminated.
Proof.
  split; [reflexivity|]. split; [reflexivity|].
  exact (proj1 (X28_terminated_is_final ended_world
                  [CoreNotify 0%nat {| request := first_notify; subscription := None |};
                   AppSubscribe] eq_refl eq_refl)).
Defined.

Lemma SubscriberRequest_state_same r w w' st c c' :
  requests w !! r = Some c -> requests w' !! r = Some c' ->
  SubscriberRequest.subscription c' = SubscriberRequest.subscription c ->
  SubscriberRequest.subscribed c' = SubscriberRequest.subscribed c ->
  dialogs w' = dialogs w ->
  SubscriberRequest_state r w = (Return st, w) ->
  SubscriberRequest_state r w' = (Return st, w').
Proof.
  intros Hc Hc' H1 H2 Hd.
  unfold SubscriberRequest_state, bind, coordinator, dialog, ret.
  rewrite Hc, Hc'. cbv beta iota. rewrite H1, H2.
  destruct (SubscriberRequest.subscription c) as [d|];
    [rewrite Hd; destruct (dialogs w !! d); [|discriminate]
    | destruct (SubscriberRequest.subscribed c)];
    intros [= <-]; reflexivity.
Qed.

(** X26. When the core reports that the attempt of the current
    coordinator failed (the NOTIFY timed out, the SUBSCRIBE was
    redirected or rejected) while its promise is pending, the
    subscriber, unless it is disposed or Terminated already,
    unsubscribes: it becomes Terminated and disposed and sends
    nothing. A report that arrives after the promise was settled is
    ignored. *)
Theorem X26_failed_attempt_terminates w c st e :
  requests w !! subscriberRequest (this w) = Some c ->
  SubscriberRequest_state (subscriberRequest (this w)) w = (Return st, w) ->
  failure_of (subscriberRequest (this w)) e ->
  (SubscriberRequest.settled c = None ->
   _disposed (this w) = false ->
   _state (this w) <> SubscriptionState.Terminated ->
     outcome (perform e w) = Return tt /\
     _state (this (final (perform e w))) = SubscriptionState.Terminated /\
     _disposed (this (final (perform e w))) = true /\
     sent (final (perform e w)) = sent w /\
     trace (final (perform e w))
       = trace w ++ dialog_unsubscribed w st ++ [Emit SubscriptionState.Terminated]
           ++ request_disposed (subscriberRequest (this w)) c) /\
  (is_Some (SubscriberRequest.settled c) -> perform e w = (Return tt, w)).
Proof.
  intros Hr Hst He.
  assert (Hp : exists x, perform e w
                 = settling (resolve (subscriberRequest (this w)) (Failure x)) (Failure x) w).
  { destruct He as [-> | [[x ->] | [x ->]]]; eexists; reflexivity. }
  destruct Hp as [x ->]. split.
  - intros Hn Hd Hs.
    set (W := set_requests
                (alter (SubscriberRequest.set_settled (Some (Failure x)))
                   (subscriberRequest (this w))) w).
    assert (Hq : settling (resolve (subscriberRequest (this w)) (Failure x)) (Failure x) w
                 = bind unsubscribe (fun _ => ret tt) W).
    { unfold settling, resolve, bind at 1 2, coordinator. rewrite Hr, Hn. reflexivity. }
    rewrite Hq.
    assert (Hr' : requests W !! subscriberRequest (this W)
                  = Some (SubscriberRequest.set_settled (Some (Failure x)) c)).
    { unfold W, set_requests. cbn [requests this]. rewrite lookup_alter_eq, Hr. reflexivity. }
    assert (Hst' : SubscriberRequest_state (subscriberRequest (this W)) W = (Return st, W)).
    { apply (SubscriberRequest_state_same _ w W st c _ Hr Hr'); [| | |exact Hst]; reflexivity. }
    destruct (unsubscribe_terminates W _ st Hr' Hst' Hd Hs)
      as (U1 & U2 & U3 & U4 & U5 & U6 & U7 & U8).
    rewrite MonadFacts.final_then_ret. split; [apply (MonadFacts.outcome_then_ret _ _ _ _ U1)|].
    repeat split; assumption.
  - intros [y Hy]. unfold settling, resolve, bind, coordinator. rewrite Hr, Hy. reflexivity.
Qed.

(** X26 on the subscriber that waits for its first NOTIFY when timer
    N expires. *)
Lemma X26_witness :
  requests waiting_world !! subscriberRequest (this waiting_world)
    = Some (fresh_coordinator fresh_world true) /\
  _state (this (final (perform (CoreNotifyTimeout 0%nat) waiting_world)))
    = SubscriptionState.Terminated /\
  sent (final (perform (CoreNotifyTimeout 0%nat) waiting_world)) = sent waiting_world.
Proof.
  assert (Hr : requests waiting_world !! subscriberRequest (this waiting_world)
               = Some (fresh_coordinator fresh_world true)) by (vm_compute; reflexivity).
  assert (Hst : SubscriberRequest_state (subscriberRequest (this waiting_world)) waiting_world
                = (Return SubscriptionDialogState.NotifyWait, waiting_world))
    by (vm_compute; reflexivity).
  assert (Hs : _state (this waiting_world) <> SubscriptionState.Terminated)
    by (vm_compute; discriminate).
  split; [exact Hr|].
  destruct (X26_failed_attempt_terminates waiting_world _ _ (CoreNotifyTimeout 0%nat)
              Hr Hst (or_introl eq_refl)) as [H _].
  destruct (H eq_refl eq_refl Hs) as (_ & H2 & _ & H4 & _).
  split; [exact H2 | exact H4].
Defined.

Lemma dispose_then_waits w d x :
  _state (this w) = SubscriptionState.Subscribed ->
  _dialog (this w) = Some d ->
  dialogs w !! d = Some x ->
  subscriptionState x = SubscriptionDialogState.Pending \/
    subscriptionState x = SubscriptionDialogState.Active ->
  dispose_then w
    = (Return Js.Pending,
       set_trace (fun l => l ++ [DialogUnsubscribe d])
         (set_dialogs (alter (set_dialog_delegate DisposeDelegate) d) w)).
Proof.
  intros Hs Hd Hx Hst. unfold dispose_then. erewrite MonadFacts.bind_Return by reflexivity.
  cbv beta. rewrite Hs, Hd. cbn [SubscriptionState.eqb negb]. cbv iota.
  unfold bind at 1, dialog. rewrite Hx.
  destruct Hst as [-> | ->]; reflexivity.
Qed.

Lemma dispose_marks w c :
  _disposed (this w) = false ->
  requests w !! subscriberRequest (this w) = Some c ->
  outcome (dispose w) = Return Js.Pending /\
  _disposed (this (final (dispose w))) = true /\
  _state (this (final (dispose w))) = _state (this w) /\
  _dialog (this (final (dispose w))) = _dialog (this w) /\
  dialogs (final (dispose w)) = dialogs w /\
  sent (final (dispose w)) = sent w /\
  _subscriptions (final (dispose w)) = delete (id (this w)) (_subscriptions w) /\
  retryAfterTimer (this (final (dispose w))) = None /\
  timeouts (final (dispose w))
    = match retryAfterTimer (this w) with
      | Some h => List.filter (fun t => negb (Pos.eqb (handle t) h)) (timeouts w)
      | None => timeouts w
      end /\
  trace (final (dispose w)) = trace w ++ request_disposed (subscriberRequest (this w)) c.
Proof.
  intros Hd Hr. unfold request_disposed.
  open_world w. destruct c. cbn in Hd, Hr. subst.
  repeat (progress (rewrite ?Hr; reduce; split_ifs)).
  all: rewrite ?app_nil_r, <- ?app_assoc; repeat split.
Qed.

(** X21. [dispose()] of a Subscribed subscriber whose dialog is
    Pending or Active: the call marks it disposed, takes it out of the
    collection and disposes the coordinator's request, and the promise
    it returns is pending; its [then] callback puts its own delegate
    on the dialog and asks the dialog to unsubscribe, the state
    staying Subscribed; the promise is resolved when the dialog
    reports that it terminated. In any state but Subscribed the
    callback has nothing to wait for; Subscribed with no dialog, it
    throws [Dialog undefined.]. *)
Theorem X21_dispose_waits_for_the_dialog w :
  (forall c d x,
     _disposed (this w) = false ->
     requests w !! subscriberRequest (this w) = Some c ->
     _state (this w) = SubscriptionState.Subscribed ->
     _dialog (this w) = Some d ->
     dialogs w !! d = Some x ->
     subscriptionState x = SubscriptionDialogState.Pending \/
       subscriptionState x = SubscriptionDialogState.Active ->
     let w1 := final (dispose w) in
     let w2 := final (dispose_then w1) in
     outcome (dispose w) = Return Js.Pending /\
     _disposed (this w1) = true /\
     _subscriptions w1 = delete (id (this w)) (_subscriptions w) /\
     outcome (dispose_then w1) = Return Js.Pending /\
     trace w2 = trace w ++ request_disposed (subscriberRequest (this w)) c
                  ++ [DialogUnsubscribe d] /\
     _state (this w2) = SubscriptionState.Subscribed /\
     perform (DialogTerminated d) w2
       = (Return tt, set_trace (fun l => l ++ [DisposeResolved]) w2)) /\
  (_state (this w) <> SubscriptionState.Subscribed ->
     dispose_then w = (Return (Js.Resolved tt), w)) /\
  (_state (this w) = SubscriptionState.Subscribed -> _dialog (this w) = None ->
     dispose_then w = (Throw "Dialog undefined.", w)).
Proof.
  split; [|split].
  - intros c d x Hd Hr Hs Hdl Hx Hst w1 w2.
    destruct (dispose_marks w c Hd Hr) as (D1 & D2 & D3 & D4 & D5 & D6 & D7 & D8 & D9 & D10).
    fold w1 in D2, D3, D4, D5, D6, D7, D8, D9, D10.
    assert (Hs1 : _state (this w1) = SubscriptionState.Subscribed) by congruence.
    assert (Hdl1 : _dialog (this w1) = Some d) by congruence.
    assert (Hx1 : dialogs w1 !! d = Some x) by (rewrite D5; exact Hx).
    pose proof (dispose_then_waits w1 d x Hs1 Hdl1 Hx1 Hst) as E.
    unfold w2. rewrite E. unfold final at 1 2 3, outcome at 2. cbn [fst snd].
    split; [exact D1|]. split; [exact D2|]. split; [exact D7|]. split; [reflexivity|].
    split; [cbn; rewrite D10, <- app_assoc; reflexivity|]. split; [exact Hs1|].
    unfold perform, bind, dialog. cbn [dialogs set_trace set_dialogs].
    rewrite lookup_alter_eq, Hx1. reflexivity.
  - intros Hs. unfold dispose_then, bind, read.
    destruct (_state (this w)); try reflexivity. congruence.
  - intros Hs Hd. unfold dispose_then, bind, read. rewrite Hs, Hd. reflexivity.
Qed.

(** X21 on the subscribed subscriber. *)
Lemma X21_witness :
  outcome (dispose subscribed_world) = Return Js.Pending /\
  outcome (dispose_then (final (dispose subscribed_world))) = Return Js.Pending /\
  trace (final (dispose_then (final (dispose subscribed_world))))
    = trace subscribed_world
        ++ [WaitNotifyStop 0%nat; RequestDispose 0%nat; DialogUnsubscribe 5%nat].
Proof.
  assert (Hr : requests subscribed_world !! subscriberRequest (this subscribed_world)
               = Some subscribed_coordinator) by (vm_compute; reflexivity).
  assert (Hd : dialogs subscribed_world !! 5%nat = Some active_dialog)
    by (vm_compute; reflexivity).
  destruct (X21_dispose_waits_for_the_dialog subscribed_world) as [H _].
  destruct (H subscribed_coordinator 5%nat active_dialog eq_refl Hr eq_refl eq_refl Hd
              (or_intror eq_refl)) as (H1 & _ & _ & H4 & H5 & _).
  split; [exact H1|]. split; [exact H4 | exact H5].
Defined.

Lemma find_filtered h (l : list Timeout) :
  List.find (fun t => Pos.eqb (handle t) h)
    (List.filter (fun t => negb (Pos.eqb (handle t) h)) l) = None.
Proof.
  induction l as [|t l IH]; [reflexivity|]. cbn.
  destruct (Pos.eqb (handle t) h) eqn:E; cbn; [exact IH|]. rewrite E. exact IH.
Qed.

(** X22. [dispose()] cancels a pending retry: the timeout stored in
    [retryAfterTimer] is cleared and forgotten, nothing is sent, and
    were its handle to fire afterwards, nothing would happen. *)
Theorem X22_dispose_cancels_the_retry w c h :
  _disposed (this w) = false ->
  requests w !! subscriberRequest (this w) = Some c ->
  retryAfterTimer (this w) = Some h ->
  retryAfterTimer (this (final (dispose w))) = None /\
  sent (final (dispose w)) = sent w /\
  fire h (final (dispose w)) = (Return tt, final (dispose w)).
Proof.
  intros Hd Hr Ht.
  destruct (dispose_marks w c Hd Hr) as (_ & _ & _ & _ & _ & D6 & _ & D8 & D9 & _).
  rewrite Ht in D9. split; [exact D8|]. split; [exact D6|].
  unfold fire. rewrite D9, find_filtered. reflexivity.
Qed.

(** X22 on the subscriber that was told to give up and retry after
    30: its retry is the timeout 1. *)
Lemma X22_witness :
  retryAfterTimer (this retrying_world) = Some 1%positive /\
  timeouts retrying_world = [retry_at subscribed_world 30%Z] /\
  retryAfterTimer (this (final (dispose retrying_world))) = None /\
  fire 1%positive (final (dispose retrying_world))
    = (Return tt, final (dispose retrying_world)).
Proof.
  assert (Hr : requests retrying_world !! subscriberRequest (this retrying_world)
               = Some (fresh_coordinator subscribed_world false))
    by (vm_compute; reflexivity).
  assert (Ht : retryAfterTimer (this retrying_world) = Some 1%positive)
    by (vm_compute; reflexivity).
  split; [exact Ht|]. split; [vm_compute; reflexivity|].
  destruct (X22_dispose_cancels_the_retry retrying_world _ 1%positive eq_refl Hr Ht)
    as (H1 & _ & H3).
  split; [exact H1 | exact H3].
Defined.





End SubscriberFacts.
